(** * datalad-metalad: metadata dump, metadata extraction and two extractors

    A shallow embedding of

    - [datalad_metalad/dump.py]      (query pipeline, [meta-dump]),
    - [datalad_metalad/extract.py]   (write pipeline, [meta-extract]),
    - [datalad_metalad/extractors/custom_dataset.py],
    - [datalad_metalad/extractors/runprov.py],

    together with the properties of these modules that the design
    document states.  Python dictionaries whose iteration order is
    observable are association lists; dictionaries that are only looked up
    are [gmap]s; generators are run to completion and their [yield]s are
    collected in an event trace; exceptions are an explicit outcome that
    keeps the state reached when they were raised. *)

From Stdlib Require Import ZArith Ascii String List.
From stdpp Require Import base option list strings gmap sorting.

Set Warnings "-register-all".

Local Open Scope string_scope.
Local Open Scope Z_scope.

(** ** Python values *)

Module Py.

(** Values that show up in result records.  The two [...MetadataSource]
    constructors stand for instances of the classes of the same name that
    [extract.py] stores as [metadata_location]. *)
Inductive Value : Type :=
| VNone
| VBool (b : bool)
| VNum (z : Z)
| VStr (s : string)
| VList (l : list Value)
| VDict (d : list (string * Value))
| ImmediateMetadataSource (content : Value)
| LocalGitMetadataSource (git_repository_path : string) (object_hash : string).

(** [dict]: insertion ordered, keys unique. *)
Definition Dict (A : Type) : Type := list (string * A).

Fixpoint dict_get {A} (k : string) (d : Dict A) : option A :=
  match d with
  | [] => None
  | (k', v) :: d' => if String.eqb k k' then Some v else dict_get k d'
  end.

(** [d[k] = v]: an existing key keeps its position, a new key goes last. *)
Fixpoint dict_set {A} (k : string) (v : A) (d : Dict A) : Dict A :=
  match d with
  | [] => [(k, v)]
  | (k', v') :: d' =>
      if String.eqb k k' then (k, v) :: d' else (k', v') :: dict_set k v d'
  end.

Definition dict_keys {A} (d : Dict A) : list string := map fst d.

(** [d.update(m)] *)
Definition dict_update {A} (d m : Dict A) : Dict A :=
  fold_left (fun acc kv => dict_set (fst kv) (snd kv) acc) m d.

(** Exceptions raised by the modelled code. *)
Inductive Exn : Type :=
| AssertionError
| AttributeError
| IndexError
| KeyError (key : string)
| NotImplementedError
| ValueError (msg : string)
| FileNotFoundError (msg : string)
| RuntimeError (msg : string)
| JSONDecodeError (file : string)
| LockUnavailable.

Inductive Outcome (A : Type) : Type :=
| Returned (a : A)
| Raised (e : Exn).
Arguments Returned {A} a.
Arguments Raised {A} e.

(** Calls into the storage backend, recorded in the trace. *)
Inductive BackendCall : Type :=
| lock_backend_call
| get_top_nodes_call
| add_extractor_run_call
| save_tree_version_list_call
| save_uuid_set_call
| flush_object_references_call
| unlock_backend_call
| hash_object_call.

#[global] Instance BackendCall_eq_dec : EqDecision BackendCall.
Proof. solve_decision. Defined.

(** What a run lets the outside observe, in order. *)
Inductive Event : Type :=
| Yield (record : Value)
| Warning (msg : string)
| Info (msg : string)
| Call (call : BackendCall).

Section Effects.
Context {St : Type}.

Record Result (A : Type) : Type := mkResult {
  events : list Event;
  final : St;
  outcome : Outcome A
}.
Arguments mkResult {A} _ _ _.
Arguments events {A} _.
Arguments final {A} _.
Arguments outcome {A} _.

(** State, trace and exceptions.  A raised exception stops the run; the
    state it leaves behind is the state at the raise. *)
Definition M (A : Type) : Type := St -> Result A.

Definition ret {A} (a : A) : M A := fun s => mkResult [] s (Returned a).

Definition bind {A B} (c : M A) (k : A -> M B) : M B := fun s =>
  let r := c s in
  match outcome r with
  | Returned a =>
      let r' := k a (final r) in
      mkResult (app (events r) (events r')) (final r') (outcome r')
  | Raised e => mkResult (events r) (final r) (Raised e)
  end.

Definition raise {A} (e : Exn) : M A := fun s => mkResult [] s (Raised e).
Definition emit (ev : Event) : M unit := fun s => mkResult [ev] s (Returned tt).
Definition get : M St := fun s => mkResult [] s (Returned s).
Definition put (s' : St) : M unit := fun _ => mkResult [] s' (Returned tt).
Definition modify (f : St -> St) : M unit := fun s => mkResult [] (f s) (Returned tt).

(** [for x in xs: body x] *)
Fixpoint for_each {A} (xs : list A) (body : A -> M unit) : M unit :=
  match xs with
  | [] => ret tt
  | x :: xs' => bind (body x) (fun _ => for_each xs' body)
  end.

(** A loop that carries a mutable local. *)
Fixpoint for_fold {A B} (xs : list A) (acc : B) (body : B -> A -> M B) : M B :=
  match xs with
  | [] => ret acc
  | x :: xs' => bind (body acc x) (fun acc' => for_fold xs' acc' body)
  end.

(** Dereferencing [None] *)
Definition attr {A} (o : option A) : M A :=
  match o with Some a => ret a | None => raise AttributeError end.

Definition assert (b : bool) : M unit :=
  if b then ret tt else raise AssertionError.

Definition when (b : bool) (c : M unit) : M unit := if b then c else ret tt.
(** Every event of every run of [c] satisfies [E]. *)
Definition all_events {A} (E : Event -> Prop) (c : M A) : Prop :=
  forall s, Forall E (events (c s)).

(** [I] holds in the state that [c] leaves, returned or raised, if it
    held before. *)
Definition keeps {A} (I : St -> Prop) (c : M A) : Prop :=
  forall s, I s -> I (final (c s)).

(** [Q] holds in the state in which [c] returns. *)
Definition ensures {A} (Q : St -> Prop) (c : M A) : Prop :=
  forall s a, outcome (c s) = Returned a -> Q (final (c s)).

(** The run [r], after the events [evs]. *)
Definition prepend {A} (evs : list Event) (r : Result A) : Result A :=
  mkResult (app evs (events r)) (final r) (outcome r).
End Effects.

Arguments Result : clear implicits.
Arguments M : clear implicits.
Arguments mkResult {St A} _ _ _.
Arguments events {St A} _.
Arguments final {St A} _.
Arguments outcome {St A} _.

Declare Scope py_scope.
Delimit Scope py_scope with py.
Notation "x <- c ;; k" := (bind c (fun x => k))
  (at level 100, c at next level, right associativity) : py_scope.
Notation "c ;;; k" := (bind c (fun _ => k))
  (at level 100, right associativity) : py_scope.

(** [s.split(sep)] *)
Fixpoint split_acc (sep : ascii) (acc s : string) : list string :=
  match s with
  | EmptyString => [acc]
  | String c s' =>
      if Ascii.eqb c sep then acc :: split_acc sep EmptyString s'
      else split_acc sep (acc ++ String c EmptyString)%string s'
  end.

Definition split (sep : ascii) (s : string) : list string :=
  split_acc sep EmptyString s.

(** [str(x)] for an optional string *)
Definition str_option (o : option string) : string :=
  match o with Some s => s | None => "None" end.

End Py.

Import Py.
Local Open Scope py_scope.

(** ** The metadata model

    The classes below belong to the package [dataladmetadatamodel], which
    the four modules import.  They are represented by the data they hold.
    A [Connector] is represented by the object it delivers on
    [load_object]; whether a connector currently holds its object in memory
    is tracked separately (see [Dump.Cache]). *)

Module Model.

Record ExtractorConfiguration : Type := {
  version : string;
  parameter : gmap string string
}.

#[global] Instance ExtractorConfiguration_eq_dec : EqDecision ExtractorConfiguration.
Proof. solve_decision. Defined.

Record MetadataInstance : Type := {
  time_stamp : Z;
  author_name : string;
  author_email : string;
  configuration : ExtractorConfiguration;
  metadata_location : Value
}.

(** [Metadata]: extractor name -> runs of that extractor, in the order in
    which [extractor_runs()] yields them. *)
Definition Metadata : Type := Dict (list MetadataInstance).

Definition extractor_runs (m : Metadata) : list (string * list MetadataInstance) := m.

(** [TreeNode]: a trie over path components. *)
Inductive TreeNode (V : Type) : Type := Node {
  value : option V;
  child_nodes : list (string * TreeNode V)
}.
Arguments Node {V} _ _.
Arguments value {V} _.
Arguments child_nodes {V} _.

(** A path is a POSIX-like relative path; the empty string is the root. *)
Definition path_elements (path : string) : list string :=
  if String.eqb path "" then [] else split "/"%char path.

Fixpoint get_node_at_elements {V} (elements : list string) (n : TreeNode V)
  : option (TreeNode V) :=
  match elements with
  | [] => Some n
  | e :: rest =>
      match dict_get e (child_nodes n) with
      | Some c => get_node_at_elements rest c
      | None => None
      end
  end.

Definition get_node_at_path {V} (n : TreeNode V) (path : string) : option (TreeNode V) :=
  get_node_at_elements (path_elements path) n.

Definition empty_node {V} : TreeNode V := Node None [].

(** Rewrite the value stored at a path, creating the nodes on the way. *)
Fixpoint alter_at_elements {V} (elements : list string) (f : option V -> option V)
    (n : TreeNode V) : TreeNode V :=
  match elements with
  | [] => Node (f (value n)) (child_nodes n)
  | e :: rest =>
      let child := match dict_get e (child_nodes n) with
                   | Some c => c
                   | None => empty_node
                   end in
      Node (value n) (dict_set e (alter_at_elements rest f child) (child_nodes n))
  end.

(** [FileTree]: the leaves hold per-file [Metadata] (through a connector). *)
Definition FileTree : Type := TreeNode Metadata.

Record MetadataRootRecord : Type := {
  dataset_identifier : string;
  dataset_version : string;
  dataset_level_metadata : option Metadata;
  file_tree : option FileTree
}.

Definition DatasetTree : Type := TreeNode MetadataRootRecord.

Definition get_metadata_root_record (t : DatasetTree) (path : string)
  : option MetadataRootRecord :=
  match get_node_at_path t path with
  | Some n => value n
  | None => None
  end.

(** [TreeVersionList]: version -> (time stamp, dataset tree), in the order
    in which [versions()] yields the keys. *)
Definition TreeVersionList : Type := Dict (Z * DatasetTree).

Definition versions (l : TreeVersionList) : list string := dict_keys l.

Definition get_dataset_tree {St} (l : TreeVersionList) (v : string)
  : M St (Z * DatasetTree) :=
  match dict_get v l with
  | Some r => ret r
  | None => raise (KeyError v)
  end.

End Model.

(** ** Tree search *)

Module TreeSearch.
Import Model.

Record MatchRecord (V : Type) : Type := {
  path : string;
  node : TreeNode V
}.
Arguments Build_MatchRecord {V} _ _.
Arguments path {V} _.
Arguments node {V} _.

Definition join_path (prefix name : string) : string :=
  if String.eqb prefix "" then name else (prefix ++ "/" ++ name)%string.

(** Pre-order walk that reports every node carrying a record. *)
Fixpoint expand {V} (p : string) (n : TreeNode V) {struct n} : list (MatchRecord V) :=
  match n with
  | Node v cs =>
      app (match v with Some _ => [Build_MatchRecord p n] | None => [] end)
          ((fix over (l : list (string * TreeNode V)) : list (MatchRecord V) :=
              match l with
              | [] => []
              | (name, c) :: l' => app (expand (join_path p name) c) (over l')
              end) cs)
  end.

Definition list_children {V} (p : string) (n : TreeNode V) : list (MatchRecord V) :=
  map (fun nc => Build_MatchRecord (join_path p (fst nc)) (snd nc)) (child_nodes n).

Definition is_leaf {V} (n : TreeNode V) : bool :=
  match child_nodes n with [] => true | _ => false end.

(** Modelled from the spec: [TreeSearch.get_matching_paths] of
    [datalad_metalad/pathutils/treesearch.py], whose source is not part of
    the modules embedded here.  Section 4.3: a pattern is resolved
    component by component from the root; a pattern that does not resolve
    is appended, as given, to the not-found list and yields no match; a
    pattern that resolves to a node with children yields that node alone
    (neither flag set), every record-carrying node below it in pre-order
    ([recursive]), or the direct children of the root ([auto_list_root]
    and the empty pattern), and otherwise the node it resolves to. *)
Definition match_pattern {V} (tree : TreeNode V) (recursive auto_list_root : bool)
    (pattern : string) : option (list (MatchRecord V)) :=
  match get_node_at_path tree pattern with
  | None => None
  | Some n =>
      Some (if is_leaf n then [Build_MatchRecord pattern n]
            else if auto_list_root && String.eqb pattern "" then list_children "" n
            else if recursive then expand pattern n
            else [Build_MatchRecord pattern n])
  end.

Fixpoint get_matching_paths {V} (tree : TreeNode V) (pattern_list : list string)
    (recursive auto_list_root : bool) : list (MatchRecord V) * list string :=
  match pattern_list with
  | [] => ([], [])
  | pattern :: rest =>
      let '(matches, not_found) := get_matching_paths tree rest recursive auto_list_root in
      match match_pattern tree recursive auto_list_root pattern with
      | Some ms => (app ms matches, not_found)
      | None => (matches, pattern :: not_found)
      end
  end.

End TreeSearch.

(** ** dump.py *)

Module Dump.
Import Model TreeSearch.

Definition default_mapper_family : string := "git".

Inductive ReportPolicy : Type := INDIVIDUAL | COMPLETE.
Inductive ReportOn : Type := FILES | DATASETS | ALL.

Definition ReportPolicy_eqb (a b : ReportPolicy) : bool :=
  match a, b with
  | INDIVIDUAL, INDIVIDUAL | COMPLETE, COMPLETE => true
  | _, _ => false
  end.

(** [report_on in (ReportOn.DATASETS, ReportOn.ALL)] *)
Definition reports_datasets (r : ReportOn) : bool :=
  match r with DATASETS | ALL => true | FILES => false end.

(** [report_on in (ReportOn.FILES, ReportOn.ALL)] *)
Definition reports_files (r : ReportOn) : bool :=
  match r with FILES | ALL => true | DATASETS => false end.

(** Modelled from the spec: [TreeMetadataPath] of
    [datalad_metalad/pathutils/metadatapathparser.py], whose source is not
    part of the modules embedded here.  Section 4.2: a dataset path, a
    version that is either given or unspecified, and a local path. *)
Record TreeMetadataPath : Type := {
  dataset_path : option string;
  local_path : string;
  version : option string
}.

(** [TreeMetadataPath("", "")]: no version given. *)
Definition root_path : TreeMetadataPath :=
  {| dataset_path := Some ""; local_path := ""; version := None |}.

(** *** Connectors and their cache

    [Connector] is a class of the package [dataladmetadatamodel]; section 3
    of the design document gives its two states: [load_object] takes a
    connector from unloaded to loaded and hands out the object, [purge]
    takes it back to unloaded.  A connector is identified by the tree
    position of the object that owns it.  The cache state is the set of
    connectors that hold a loaded object. *)
Inductive ConnectorId : Type :=
| DatasetLevelMetadataOf (dataset : string)
| FileTreeOf (dataset : string)
| FileMetadataOf (dataset : string) (file : string).

#[global] Instance ConnectorId_eq_dec : EqDecision ConnectorId.
Proof. solve_decision. Defined.

#[global] Instance ConnectorId_countable : Countable ConnectorId.
Proof.
  refine (inj_countable'
    (fun c => match c with
              | DatasetLevelMetadataOf d => inl d
              | FileTreeOf d => inr (inl d)
              | FileMetadataOf d f => inr (inr (d, f))
              end)
    (fun x => match x with
              | inl d => DatasetLevelMetadataOf d
              | inr (inl d) => FileTreeOf d
              | inr (inr (d, f)) => FileMetadataOf d f
              end) _).
  by intros [].
Defined.

Definition Cache : Type := gset ConnectorId.

(** [connector.load_object(family, realm)]: the connector holds its object
    from now on; the object is handed out. *)
Definition load_object {A} (c : ConnectorId) (object : A) : M Cache A :=
  modify (fun loaded : Cache => {[c]} ∪ loaded) ;;; ret object.

(** Does purging [c] also drop [c']?  A loaded file tree owns the
    connectors of its leaves. *)
Definition drops (c c' : ConnectorId) : Prop :=
  c = c' \/
  match c, c' with
  | FileTreeOf d, FileMetadataOf d' _ => d = d'
  | _, _ => False
  end.

#[global] Instance drops_dec c c' : Decision (drops c c').
Proof. unfold drops. destruct c, c'; apply _. Defined.

(** [connector.purge()] *)
Definition purge (c : ConnectorId) : M Cache unit :=
  modify (fun loaded : Cache => filter (fun c' => ~ drops c c') loaded).

(** *** Result records *)

Definition _create_result_record (mapper realm : string) (metadata_record : Value)
    (report_type : string) : Value :=
  VDict [ ("status", VStr "ok");
          ("action", VStr "meta_dump");
          ("source", VDict [ ("mapper", VStr mapper); ("realm", VStr realm) ]);
          ("type", VStr report_type);
          ("metadata", metadata_record) ].

Definition parameter_value (p : gmap string string) : Value :=
  VDict (map (fun kv => (fst kv, VStr (snd kv))) (map_to_list p)).

Definition _create_metadata_instance_record (instance : MetadataInstance) : Value :=
  VDict [ ("extraction_time", VNum (time_stamp instance));
          ("extraction_agent",
             VStr (author_name instance ++ " <" ++ author_email instance ++ ">"));
          ("extractor_version", VStr (Model.version (configuration instance)));
          ("extractor_parameter", parameter_value (parameter (configuration instance)));
          ("extractor_result", metadata_location instance) ].

(** The body of the loop shared by the two reporters: store the list of
    the runs of one extractor under ["metadata"] in the (mutable) inner
    dictionary of [result_json_object] and yield one record.  [level] is
    the single key of [result_json_object]; a yielded record is the
    dictionary as it is at the time of the [yield]. *)
Definition report_run (mapper realm level report_type : string)
    (inner : Dict Value) (run : string * list MetadataInstance)
  : M Cache (Dict Value) :=
  let extractor_name := fst run in
  let extractor_runs := snd run in
  let instances := map _create_metadata_instance_record extractor_runs in
  let inner' := dict_set "metadata" (VDict [(extractor_name, VList instances)]) inner in
  emit (Yield (_create_result_record mapper realm
                 (VDict [(level, VDict inner')]) report_type)) ;;;
  ret inner'.

(** [for extractor_name, extractor_runs in metadata.extractor_runs(): ...] *)
Definition report_extractor_runs (mapper realm level report_type : string)
    (inner : Dict Value) (runs : list (string * list MetadataInstance))
  : M Cache (Dict Value) :=
  for_fold runs inner (report_run mapper realm level report_type).

Definition show_dataset_metadata
    (mapper realm root_dataset_identifier root_dataset_version dataset_path : string)
    (dataset_tree : DatasetTree) : M Cache unit :=
  metadata_root_record <- attr (value dataset_tree) ;;
  dataset_level_metadata <-
    load_object (DatasetLevelMetadataOf dataset_path)
                (Model.dataset_level_metadata metadata_root_record) ;;
  let result_json_object : Dict Value :=
    [ ("root_dataset_identifier", VStr root_dataset_identifier);
      ("root_dataset_version", VStr root_dataset_version);
      ("dataset_identifier", VStr (dataset_identifier metadata_root_record));
      ("dataset_version", VStr (dataset_version metadata_root_record));
      ("dataset_path", VStr dataset_path) ] in
  metadata <- attr dataset_level_metadata ;;
  _ <- report_extractor_runs mapper realm "dataset_level_metadata" "dataset"
         result_json_object (extractor_runs metadata) ;;
  (* Remove dataset-level metadata when we are done with it *)
  purge (DatasetLevelMetadataOf dataset_path).

Definition file_warning (missing_path : string) (mrr : MetadataRootRecord)
    (mapper realm : string) : string :=
  "could not locate file path " ++ missing_path ++ " in dataset "
  ++ dataset_identifier mrr ++ "@" ++ dataset_version mrr ++ " in realm "
  ++ mapper ++ ":" ++ realm.

Definition show_file_tree_metadata
    (mapper realm root_dataset_identifier root_dataset_version dataset_path : string)
    (dataset_tree : DatasetTree) (file_pattern : string) (recursive : bool)
  : M Cache unit :=
  metadata_root_record <- attr (value dataset_tree) ;;
  file_tree <- load_object (FileTreeOf dataset_path)
                           (Model.file_tree metadata_root_record) ;;
  file_tree <- attr file_tree ;;
  (* Determine matching file paths *)
  let '(matches, not_found_paths) :=
    get_matching_paths file_tree [file_pattern] recursive false in
  for_each not_found_paths (fun missing_path =>
    emit (Warning (file_warning missing_path metadata_root_record mapper realm))) ;;;
  for_each matches (fun match_record =>
    let path := path match_record in
    match value (node match_record) with
    | None => ret tt (* Ignore empty datasets *)
    | Some metadata_connector =>
        metadata <- load_object (FileMetadataOf dataset_path path) metadata_connector ;;
        let result_json_object : Dict Value :=
          [ ("root_dataset_identifier", VStr root_dataset_identifier);
            ("root_dataset_version", VStr root_dataset_version);
            ("dataset_path", VStr dataset_path);
            ("file_path", VStr path) ] in
        _ <- report_extractor_runs mapper realm "file_level_metadata" "file"
               result_json_object (extractor_runs metadata) ;;
        ret tt
    end) ;;;
  (* Remove file tree metadata when we are done with it *)
  purge (FileTreeOf dataset_path).

Definition dataset_warning (missing_path : string) (path : TreeMetadataPath)
    (mapper realm : string) : string :=
  "could not locate dataset path " ++ missing_path ++ " in tree version "
  ++ str_option (version path) ++ " in realm " ++ mapper ++ ":" ++ realm.

(** [if not path or path.dataset_path is None: path = TreeMetadataPath("", "")] *)
Definition normalize (path : option TreeMetadataPath) : TreeMetadataPath :=
  match path with
  | None => root_path
  | Some p => match dataset_path p with None => root_path | Some _ => p end
  end.

(** The version whose tree is fetched: the version of the path if it has
    one, otherwise [tuple(tree_version_list.versions())[0]]. *)
Definition requested_root_dataset_version (tree_version_list : TreeVersionList)
    (path : TreeMetadataPath) : M Cache string :=
  match version path with
  | Some v => ret v
  | None =>
      match version path with
      | None =>
          match versions tree_version_list with
          | v :: _ => ret v
          | [] => raise IndexError
          end
      | Some v => ret v
      end
  end.

(** The body of the loop over the matches. *)
Definition report_match (mapper realm root_dataset_identifier root_dataset_version : string)
    (report_on : ReportOn) (local_path : string) (recursive : bool)
    (match_record : MatchRecord MetadataRootRecord) : M Cache unit :=
  when (reports_datasets report_on)
    (show_dataset_metadata mapper realm root_dataset_identifier root_dataset_version
       (path match_record) (node match_record)) ;;;
  when (reports_files report_on)
    (show_file_tree_metadata mapper realm root_dataset_identifier root_dataset_version
       (path match_record) (node match_record) local_path recursive).

(** Lines 348-387: report on the dataset tree that was fetched. *)
Definition report_dataset_tree (mapper realm : string) (path : TreeMetadataPath)
    (report_on : ReportOn) (recursive : bool) (dataset_tree : DatasetTree)
  : M Cache unit :=
  root_mrr <- attr (get_metadata_root_record dataset_tree "") ;;
  let root_dataset_version := dataset_version root_mrr in
  let root_dataset_identifier := dataset_identifier root_mrr in
  (* Create a tree search object to search for the specified datasets *)
  let '(matches, not_found_paths) :=
    get_matching_paths dataset_tree [default "" (dataset_path path)] recursive false in
  for_each not_found_paths (fun missing_path =>
    emit (Warning (dataset_warning missing_path path mapper realm))) ;;;
  for_each matches
    (report_match mapper realm root_dataset_identifier root_dataset_version
       report_on (local_path path) recursive).

Definition dump_from_dataset_tree (mapper realm : string)
    (tree_version_list : TreeVersionList) (path : option TreeMetadataPath)
    (report_on : ReportOn) (report_policy : ReportPolicy) (recursive : bool)
  : M Cache unit :=
  assert (ReportPolicy_eqb report_policy INDIVIDUAL) ;;;
  (* Normalize path representation *)
  let path := normalize path in
  requested <- requested_root_dataset_version tree_version_list path ;;
  (* Fetch dataset tree for the specified version *)
  fetched <- get_dataset_tree tree_version_list requested ;;
  report_dataset_tree mapper realm path report_on recursive (snd fetched).

(** [dump_from_uuid_set] *)
Definition dump_from_uuid_set : M Cache unit := raise NotImplementedError.

(** *** Vocabulary of the properties *)

(** [v] is a version of the list, and no version of the list was recorded
    later. *)
Definition most_recent (l : TreeVersionList) (v : string) : Prop :=
  exists ts t, dict_get v l = Some (ts, t) /\
    forall v' ts' t', dict_get v' l = Some (ts', t') -> ts' <= ts.

(** The inner dictionary after the runs of one extractor have been stored
    in it. *)
Definition stored_runs_of (inner : Dict Value) (run : string * list MetadataInstance)
  : Dict Value :=
  dict_set "metadata"
    (VDict [(fst run, VList (map _create_metadata_instance_record (snd run)))]) inner.

(** The records a run has yielded. *)
Definition yielded {St A} (r : Result St A) : list Value :=
  omap (fun ev => match ev with Yield v => Some v | _ => None end) (events r).

(** The keys of a per-instance mapping, as the code writes them. *)
Definition instance_keys : list string :=
  [ "extraction_time"; "extraction_agent"; "extractor_version";
    "extractor_parameter"; "extractor_result" ].

Definition is_instance_record (v : Value) : Prop :=
  exists d, v = VDict d /\ dict_keys d = instance_keys.

(** The shape of a result record: the five top-level keys, a source with
    mapper and realm, a type that is ["dataset"] or ["file"], and a
    metadata object with one level key under which ["metadata"] maps a
    single extractor name to a list of per-instance mappings. *)
Definition is_result_record (v : Value) : Prop :=
  exists mapper realm type level inner name instances,
    v = VDict [ ("status", VStr "ok");
                ("action", VStr "meta_dump");
                ("source", VDict [ ("mapper", VStr mapper); ("realm", VStr realm) ]);
                ("type", VStr type);
                ("metadata", VDict [ (level, VDict inner) ]) ]
    /\ (type = "dataset" \/ type = "file")
    /\ dict_get "metadata" inner = Some (VDict [ (name, VList instances) ])
    /\ Forall is_instance_record instances.

(** An event that, if it is a yielded record, is a result record. *)
Definition shaped (ev : Event) : Prop :=
  match ev with Yield v => is_result_record v | _ => True end.

(** The connector holds no loaded object. *)
Definition unloaded (k : ConnectorId) (c : Cache) : Prop := k ∉ c.

End Dump.

(** ** extract.py *)

Module Extract.
Import Model.

Definition default_mapper_family : string := "git".

(** Modelled from the spec: [DataOutputCategory] and [ExtractorResult] of
    [datalad_metalad/extractors/base.py], whose source is not part of the
    modules embedded here.  Section 6: an extractor declares the output
    category immediate, file or directory, and [extract()] returns
    success, version, parameters and payload.  The field names are those
    that [custom_dataset.py] passes as keywords. *)
Inductive DataOutputCategory : Type := IMMEDIATE | FILE | DIRECTORY.

Record ExtractorResult : Type := {
  extractor_version : string;
  extraction_parameter : gmap string string;
  extraction_success : bool;
  datalad_result_dict : Dict Value;
  immediate_data : Value
}.

(** An extractor instance: its category, what [extract] returns, and what
    it writes into the file it is handed (category [FILE]).  Making file
    content available ([ensure_content_availability] and its legacy
    counterparts) does not touch the metadata store and is left out. *)
Record Extractor : Type := {
  get_data_output_category : DataOutputCategory;
  extract : ExtractorResult;
  file_output : string
}.

(** The class registered under an extractor name, by the base class that
    [issubclass] finds. *)
Inductive ExtractorClass : Type :=
| DatasetMetadataExtractorClass (instance : Extractor)
| FileMetadataExtractorClass (instance : Extractor)
| LegacyMetaladExtractorClass
    (results : string -> list (Dict Value)) (state : gmap string string)
| LegacyDataladExtractorClass
    (dataset_result : Value) (file_result : list (string * Value))
| UnknownExtractorClass.

(** One element of [dataset.status(path)]. *)
Record PathStatus : Type := {
  status_type : string;
  status_gitshasum : string;
  status_bytesize : option Z;
  status_state : string;
  status_path : string
}.

Record Dataset : Type := {
  pathobj : string;
  status : string -> list PathStatus
}.

Record FileInfo : Type := {
  type : string;
  git_sha_sum : string;
  byte_size : Z;
  state : string;
  path : string;
  intra_dataset_path : string
}.

Record ExtractionParameter : Type := {
  realm : string;
  source_dataset : Dataset;
  source_dataset_id : string;
  extractor_class : ExtractorClass;
  extractor_name : string;
  extractor_arguments : gmap string string;
  dataset_tree_path : string;
  file_tree_path : string;
  root_primary_data_version : string;
  source_primary_data_version : string;
  agent_name : string;
  agent_email : string
}.

(** *** The storage backend

    [UUIDSet]: dataset id -> version -> (time stamp, path of the record in
    the dataset tree of that version).  The record itself is the one in
    the tree: both top-level objects refer to the same object. *)
Definition UUIDSet : Type := Dict (Dict (Z * string)).

Record Backend : Type := {
  locked : bool;
  stored_tree_version_list : option TreeVersionList;
  stored_uuid_set : option UUIDSet;
  unflushed : bool;
  git_objects : list string;
  clock : Z;
  fails : BackendCall -> bool
}.

Definition set_locked (l : bool) (b : Backend) : Backend :=
  {| locked := l; stored_tree_version_list := stored_tree_version_list b;
     stored_uuid_set := stored_uuid_set b; unflushed := unflushed b;
     git_objects := git_objects b; clock := clock b; fails := fails b |}.

Definition set_stored_tree_version_list (l : TreeVersionList) (b : Backend) : Backend :=
  {| locked := locked b; stored_tree_version_list := Some l;
     stored_uuid_set := stored_uuid_set b; unflushed := true;
     git_objects := git_objects b; clock := clock b; fails := fails b |}.

Definition set_stored_uuid_set (u : UUIDSet) (b : Backend) : Backend :=
  {| locked := locked b; stored_tree_version_list := stored_tree_version_list b;
     stored_uuid_set := Some u; unflushed := true;
     git_objects := git_objects b; clock := clock b; fails := fails b |}.

Definition set_flushed (b : Backend) : Backend :=
  {| locked := locked b; stored_tree_version_list := stored_tree_version_list b;
     stored_uuid_set := stored_uuid_set b; unflushed := false;
     git_objects := git_objects b; clock := clock b; fails := fails b |}.

Definition add_git_object (content : string) (b : Backend) : Backend :=
  {| locked := locked b; stored_tree_version_list := stored_tree_version_list b;
     stored_uuid_set := stored_uuid_set b; unflushed := unflushed b;
     git_objects := content :: git_objects b; clock := clock b; fails := fails b |}.

Definition tick (b : Backend) : Backend :=
  {| locked := locked b; stored_tree_version_list := stored_tree_version_list b;
     stored_uuid_set := stored_uuid_set b; unflushed := unflushed b;
     git_objects := git_objects b; clock := clock b + 1; fails := fails b |}.

(** What a failing backend call raises. *)
Definition failure : Exn := RuntimeError "backend failure".

(** A call into the backend is recorded; it raises if the backend makes
    it fail. *)
Definition backend_call (c : BackendCall) : M Backend unit :=
  emit (Call c) ;;;
  b <- get ;;
  if fails b c then raise failure else ret tt.

(** [lock_backend(realm)]: exclusive; a held lock is waited for, which a
    single run never sees the end of. *)
Definition lock_backend : M Backend unit :=
  backend_call lock_backend_call ;;;
  b <- get ;;
  if locked b then raise LockUnavailable else put (set_locked true b).

(** [unlock_backend(realm)] *)
Definition unlock_backend : M Backend unit :=
  backend_call unlock_backend_call ;;; modify (set_locked false).

(** [tree_version_list.save()] *)
Definition save_tree_version_list (l : TreeVersionList) : M Backend unit :=
  backend_call save_tree_version_list_call ;;; modify (set_stored_tree_version_list l).

(** [uuid_set.save()] *)
Definition save_uuid_set (u : UUIDSet) : M Backend unit :=
  backend_call save_uuid_set_call ;;; modify (set_stored_uuid_set u).

(** [flush_object_references(realm)] *)
Definition flush_object_references : M Backend unit :=
  backend_call flush_object_references_call ;;; modify set_flushed.

(** [time.time()] *)
Definition time : M Backend Z :=
  b <- get ;; put (tick b) ;;; ret (clock b).

Definition fresh_metadata_root_record (dataset_id primary_data_version : string)
  : MetadataRootRecord :=
  {| dataset_identifier := dataset_id; dataset_version := primary_data_version;
     dataset_level_metadata := None; file_tree := None |}.

(** The record at [dataset_tree_path] in the tree of [primary_data_version]. *)
Definition lookup_metadata_root_record (l : TreeVersionList)
    (primary_data_version dataset_tree_path : string) : option MetadataRootRecord :=
  match dict_get primary_data_version l with
  | Some (_, t) => get_metadata_root_record t dataset_tree_path
  | None => None
  end.

(** Write [mrr] at [dataset_tree_path] in the tree of [primary_data_version]:
    how a change of the record object shows in the version list that
    holds it. *)
Definition put_metadata_root_record (l : TreeVersionList)
    (primary_data_version dataset_tree_path : string)
    (mrr : MetadataRootRecord) : TreeVersionList :=
  match dict_get primary_data_version l with
  | Some (time_stamp, t) =>
      dict_set primary_data_version
        (time_stamp,
         alter_at_elements (path_elements dataset_tree_path) (fun _ => Some mrr) t)
        l
  | None => l
  end.

(** The version list with a (possibly new, empty) tree for
    [primary_data_version]. *)
Definition with_version (l : TreeVersionList) (primary_data_version : string)
    (time_stamp : Z) : TreeVersionList :=
  match dict_get primary_data_version l with
  | Some _ => l
  | None => dict_set primary_data_version (time_stamp, empty_node) l
  end.

Definition record_version (u : UUIDSet)
    (dataset_id primary_data_version : string) (time_stamp : Z)
    (dataset_tree_path : string) : UUIDSet :=
  dict_set dataset_id
    (dict_set primary_data_version (time_stamp, dataset_tree_path)
       (default [] (dict_get dataset_id u)))
    u.

(** Modelled from the spec: [get_top_nodes_and_metadata_root_record] of
    the package [dataladmetadatamodel], called with [auto_create=True].
    Section 4.4, steps 1 and 2: load, or initialise if absent, the version
    list and the UUID set of the realm; locate the node at
    [dataset_tree_path], creating the nodes on the way and a fresh record
    seeded with the dataset id and the primary data version if it is
    absent; an existing record keeps its stored version. *)
Definition get_top_nodes_and_metadata_root_record
    (dataset_id primary_data_version dataset_tree_path : string)
  : M Backend (TreeVersionList * UUIDSet * MetadataRootRecord) :=
  backend_call get_top_nodes_call ;;;
  b <- get ;;
  now <- time ;;
  let tree_version_list :=
    with_version (default [] (stored_tree_version_list b)) primary_data_version now in
  let uuid_set := default [] (stored_uuid_set b) in
  let mrr :=
    default (fresh_metadata_root_record dataset_id primary_data_version)
      (lookup_metadata_root_record tree_version_list primary_data_version
         dataset_tree_path) in
  ret (put_metadata_root_record tree_version_list primary_data_version
         dataset_tree_path mrr,
       record_version uuid_set dataset_id primary_data_version now dataset_tree_path,
       mrr).

Definition same_configuration (c : ExtractorConfiguration) (i : MetadataInstance) : bool :=
  bool_decide (configuration i = c).

(** Put a run into the runs of one extractor: a run is identified by its
    configuration. *)
Fixpoint add_metadata_instance (i : MetadataInstance) (runs : list MetadataInstance)
  : list MetadataInstance :=
  match runs with
  | [] => [i]
  | r :: runs' =>
      if same_configuration (configuration i) r then i :: runs'
      else r :: add_metadata_instance i runs'
  end.

(** [Metadata.add_extractor_run] of the package [dataladmetadatamodel].
    Its behaviour is taken from the documentation of [Extract]
    (extract.py, lines 112-114): if the same extractor is executed on the
    same element with the same configuration, any existing results will
    be overwritten.  A run with a configuration that the extractor has
    not been run with is added after the existing ones. *)
Definition add_extractor_run (time_stamp : Z)
    (extractor_name author_name author_email : string)
    (configuration : ExtractorConfiguration) (metadata_location : Value)
    (metadata : Metadata) : Metadata :=
  dict_set extractor_name
    (add_metadata_instance
       {| time_stamp := time_stamp; author_name := author_name;
          author_email := author_email; configuration := configuration;
          metadata_location := metadata_location |}
       (default [] (dict_get extractor_name metadata)))
    metadata.

Definition add_metadata_source (metadata : Metadata) (ep : ExtractionParameter)
    (result : ExtractorResult) (metadata_source : Value) : M Backend Metadata :=
  now <- time ;;
  backend_call add_extractor_run_call ;;;
  ret (add_extractor_run now (extractor_name ep) (agent_name ep) (agent_email ep)
         {| version := extractor_version result;
            parameter := extraction_parameter result |}
         metadata_source metadata).

Definition set_dataset_level_metadata (mrr : MetadataRootRecord) (m : Metadata)
  : MetadataRootRecord :=
  {| dataset_identifier := dataset_identifier mrr; dataset_version := dataset_version mrr;
     dataset_level_metadata := Some m; file_tree := file_tree mrr |}.

Definition set_file_tree (mrr : MetadataRootRecord) (t : FileTree) : MetadataRootRecord :=
  {| dataset_identifier := dataset_identifier mrr; dataset_version := dataset_version mrr;
     dataset_level_metadata := dataset_level_metadata mrr; file_tree := Some t |}.

(** The objects handed out by [get_top_nodes_and_metadata_root_record] are
    mutable and shared: [mrr] is a node of [tree_version_list], and the
    metadata object is a field of [mrr].  The changes made through [mrr]
    are therefore written back into the version list before it is saved. *)
Definition add_file_metadata_source (ep : ExtractionParameter) (result : ExtractorResult)
    (metadata_source : Value) : M Backend unit :=
  lock_backend ;;;
  top <- get_top_nodes_and_metadata_root_record
           (source_dataset_id ep) (source_primary_data_version ep)
           (dataset_tree_path ep) ;;
  let '(tree_version_list, uuid_set, mrr) := top in
  let file_tree := default empty_node (Model.file_tree mrr) in
  file_level_metadata <-
    match get_node_at_path file_tree (file_tree_path ep) with
    | Some n => attr (value n)
    | None => ret []
    end ;;
  file_level_metadata <- add_metadata_source file_level_metadata ep result metadata_source ;;
  let file_tree :=
    alter_at_elements (path_elements (file_tree_path ep))
      (fun _ => Some file_level_metadata) file_tree in
  let tree_version_list :=
    put_metadata_root_record tree_version_list (source_primary_data_version ep)
      (dataset_tree_path ep) (set_file_tree mrr file_tree) in
  save_tree_version_list tree_version_list ;;;
  save_uuid_set uuid_set ;;;
  flush_object_references ;;;
  unlock_backend.

Definition add_dataset_metadata_source (ep : ExtractionParameter) (result : ExtractorResult)
    (metadata_source : Value) : M Backend unit :=
  lock_backend ;;;
  top <- get_top_nodes_and_metadata_root_record
           (source_dataset_id ep) (source_primary_data_version ep)
           (dataset_tree_path ep) ;;
  let '(tree_version_list, uuid_set, mrr) := top in
  let dataset_level_metadata := default [] (Model.dataset_level_metadata mrr) in
  dataset_level_metadata <-
    add_metadata_source dataset_level_metadata ep result metadata_source ;;
  let tree_version_list :=
    put_metadata_root_record tree_version_list (source_primary_data_version ep)
      (dataset_tree_path ep)
      (set_dataset_level_metadata mrr dataset_level_metadata) in
  save_tree_version_list tree_version_list ;;;
  save_uuid_set uuid_set ;;;
  flush_object_references ;;;
  unlock_backend.

(** [copy_file_to_git]: [git hash-object -w] on the file.  The object name
    that git prints is represented by the content it names. *)
Definition copy_file_to_git (content : string) : M Backend string :=
  backend_call hash_object_call ;;;
  modify (add_git_object content) ;;;
  ret content.

Definition add_file_metadata (ep : ExtractionParameter) (result : ExtractorResult)
    (metadata_content_file : string) : M Backend unit :=
  (* copy the temporary file content into the git repo *)
  git_object_hash <- copy_file_to_git metadata_content_file ;;
  add_file_metadata_source ep result (LocalGitMetadataSource (realm ep) git_object_hash).

Definition add_dataset_metadata (ep : ExtractionParameter) (result : ExtractorResult)
    (metadata_content_file : string) : M Backend unit :=
  (* copy the temporary file content into the git repo *)
  git_object_hash <- copy_file_to_git metadata_content_file ;;
  add_dataset_metadata_source ep result (LocalGitMetadataSource (realm ep) git_object_hash).

(** [result.datalad_result_dict["action"] = "meta_extract"; yield ...] *)
Definition yield_result (result : ExtractorResult) : M Backend unit :=
  emit (Yield (VDict (dict_set "action" (VStr "meta_extract")
                        (datalad_result_dict result)))).

Definition perform_file_metadata_extraction (ep : ExtractionParameter)
    (extractor : Extractor) : M Backend unit :=
  match get_data_output_category extractor with
  | IMMEDIATE =>
      (* Process immediate results *)
      let result := extract extractor in
      when (extraction_success result)
        (add_file_metadata_source ep result
           (ImmediateMetadataSource (immediate_data result))) ;;;
      yield_result result
  | FILE =>
      (* Process file-based results *)
      let result := extract extractor in
      when (extraction_success result)
        (add_file_metadata ep result (file_output extractor)) ;;;
      yield_result result
  | DIRECTORY =>
      (* Process directory results *)
      raise NotImplementedError
  end ;;;
  emit (Info ("added file metadata result to realm " ++ realm ep
              ++ ", dataset tree path " ++ dataset_tree_path ep
              ++ ", file tree path " ++ file_tree_path ep)).

Definition perform_dataset_metadata_extraction (ep : ExtractionParameter)
    (extractor : Extractor) : M Backend unit :=
  match get_data_output_category extractor with
  | IMMEDIATE =>
      (* Process inline results *)
      let result := extract extractor in
      when (extraction_success result)
        (add_dataset_metadata_source ep result
           (ImmediateMetadataSource (immediate_data result))) ;;;
      yield_result result
  | FILE =>
      (* Process file-based results *)
      let result := extract extractor in
      when (extraction_success result)
        (add_dataset_metadata ep result (file_output extractor)) ;;;
      yield_result result
  | DIRECTORY =>
      (* Process directory results *)
      raise NotImplementedError
  end ;;;
  emit (Info ("added dataset metadata result to realm " ++ realm ep
              ++ ", dataset tree path " ++ dataset_tree_path ep ++ ")")).

(** [get_file_info]: the first status record of the path. *)
Definition get_file_info (dataset : Dataset) (file_path : string) : M Backend FileInfo :=
  match status dataset file_path with
  | [] => raise (FileNotFoundError ("file not found: " ++ file_path))
  | path_status :: _ =>
      if String.eqb (status_state path_status) "untracked"
      then raise (ValueError ("file not tracked: " ++ file_path))
      else ret {| type := status_type path_status;
                  git_sha_sum := status_gitshasum path_status;
                  byte_size := default 0 (status_bytesize path_status);
                  state := status_state path_status;
                  path := status_path path_status;
                  intra_dataset_path :=
                    String.substring (S (String.length (pathobj dataset)))
                      (String.length (status_path path_status)) (status_path path_status) |}
  end.

Definition legacy_result (state : gmap string string) (result : Dict Value)
    (metadata : Value) : ExtractorResult :=
  {| extractor_version := "0.1"; extraction_parameter := state;
     extraction_success := true; datalad_result_dict := result;
     immediate_data := metadata |}.

(** [result[key]] *)
Definition item (key : string) (result : Dict Value) : M Backend Value :=
  match dict_get key result with
  | Some v => ret v
  | None => raise (KeyError key)
  end.

Definition is_ok (v : Value) : bool :=
  match v with VStr s => String.eqb s "ok" | _ => false end.

(** The loop of the two legacy entry points over the results of a metalad
    legacy extractor. *)
Definition legacy_results (ep : ExtractionParameter)
    (add : ExtractionParameter -> ExtractorResult -> Value -> M Backend unit)
    (state : gmap string string) (results : list (Dict Value)) : M Backend unit :=
  for_each results (fun result =>
    status <- item "status" result ;;
    (if is_ok status then
       metadata <- item "metadata" result ;;
       let extractor_result := legacy_result state result metadata in
       add ep extractor_result (ImmediateMetadataSource (immediate_data extractor_result))
     else ret tt) ;;;
    emit (Yield (VDict result))).

Definition legacy_extract_dataset (ep : ExtractionParameter) : M Backend unit :=
  match extractor_class ep with
  | LegacyMetaladExtractorClass results state =>
      (* Metalad legacy extractor *)
      legacy_results ep add_dataset_metadata_source state (results "dataset")
  | LegacyDataladExtractorClass dataset_result _ =>
      (* Datalad legacy extractor *)
      let extractor_result := legacy_result ∅ [] dataset_result in
      add_dataset_metadata_source ep extractor_result
        (ImmediateMetadataSource (immediate_data extractor_result))
  | _ => raise (ValueError "unknown extractor class")
  end.

Definition legacy_extract_file (ep : ExtractionParameter) : M Backend unit :=
  match extractor_class ep with
  | LegacyMetaladExtractorClass results state =>
      (* Metalad legacy extractor *)
      legacy_results ep add_file_metadata_source state (results "content")
  | LegacyDataladExtractorClass _ file_result =>
      (* Datalad legacy extractor *)
      for_each file_result (fun path_metadata =>
        let extractor_result := legacy_result ∅ [] (snd path_metadata) in
        add_file_metadata_source ep extractor_result
          (ImmediateMetadataSource (immediate_data extractor_result)))
  | _ => raise (ValueError "unknown extractor class")
  end.

Definition do_dataset_extraction (ep : ExtractionParameter) : M Backend unit :=
  match extractor_class ep with
  | DatasetMetadataExtractorClass extractor =>
      emit (Info ("extracting dataset level metadata for dataset at "
                  ++ pathobj (source_dataset ep))) ;;;
      perform_dataset_metadata_extraction ep extractor
  | FileMetadataExtractorClass _ =>
      emit (Info ("extracting dataset level metadata for dataset at "
                  ++ pathobj (source_dataset ep))) ;;;
      raise AssertionError
  | _ =>
      emit (Info ("performing legacy dataset level metadata extraction for dataset at at "
                  ++ pathobj (source_dataset ep))) ;;;
      legacy_extract_dataset ep
  end.

Definition do_file_extraction (ep : ExtractionParameter) : M Backend unit :=
  match extractor_class ep with
  | FileMetadataExtractorClass extractor =>
      emit (Info ("performing file level extracting for file at "
                  ++ pathobj (source_dataset ep) ++ "/" ++ file_tree_path ep)) ;;;
      _ <- get_file_info (source_dataset ep) (file_tree_path ep) ;;
      perform_file_metadata_extraction ep extractor
  | DatasetMetadataExtractorClass _ =>
      emit (Info ("performing file level extracting for file at "
                  ++ pathobj (source_dataset ep) ++ "/" ++ file_tree_path ep)) ;;;
      raise AssertionError
  | _ =>
      emit (Info ("performing legacy file level metadata extraction for file at "
                  ++ pathobj (source_dataset ep) ++ "/" ++ file_tree_path ep)) ;;;
      legacy_extract_file ep
  end.

(** [Extract.__call__], from the point where the extraction parameters
    have been collected: [path] selects file-level or dataset-level
    extraction. *)
Definition meta_extract (path : option string) (ep : ExtractionParameter)
  : M Backend unit :=
  match path with
  | Some p =>
      if negb (String.eqb p "") && negb (String.eqb p "--")
      then do_file_extraction ep
      else do_dataset_extraction ep
  | None => do_dataset_extraction ep
  end.

(** *** Vocabulary of the properties *)



(** A realm that nothing has been written to, with a backend that never
    fails. *)
Definition empty_backend : Backend :=
  {| locked := false; stored_tree_version_list := None; stored_uuid_set := None;
     unflushed := false; git_objects := []; clock := 0; fails := fun _ => false |}.


Definition configuration_of (result : ExtractorResult) : ExtractorConfiguration :=
  {| version := extractor_version result; parameter := extraction_parameter result |}.

(** What [get_top_nodes_and_metadata_root_record] hands out for [ep] in
    the backend [b]. *)
Definition loaded_top (b : Backend) (ep : ExtractionParameter)
  : TreeVersionList * UUIDSet * MetadataRootRecord :=
  let v := source_primary_data_version ep in
  let l := with_version (default [] (stored_tree_version_list b)) v (clock b) in
  let mrr := default (fresh_metadata_root_record (source_dataset_id ep) v)
               (lookup_metadata_root_record l v (dataset_tree_path ep)) in
  (put_metadata_root_record l v (dataset_tree_path ep) mrr,
   record_version (default [] (stored_uuid_set b)) (source_dataset_id ep) v (clock b)
     (dataset_tree_path ep),
   mrr).

(** The run that a write at time [now] records. *)
Definition new_run (now : Z) (ep : ExtractionParameter) (result : ExtractorResult)
    (metadata_source : Value) : MetadataInstance :=
  {| time_stamp := now; author_name := agent_name ep; author_email := agent_email ep;
     configuration := configuration_of result; metadata_location := metadata_source |}.

Definition with_new_run (now : Z) (ep : ExtractionParameter) (result : ExtractorResult)
    (metadata_source : Value) (m : Metadata) : Metadata :=
  dict_set (extractor_name ep)
    (add_metadata_instance (new_run now ep result metadata_source)
       (default [] (dict_get (extractor_name ep) m)))
    m.

(** The version list that a dataset-level write saves. *)
Definition written_version_list (b : Backend) (ep : ExtractionParameter)
    (result : ExtractorResult) (metadata_source : Value) : TreeVersionList :=
  let top := loaded_top b ep in
  let mrr := snd top in
  put_metadata_root_record (fst (fst top)) (source_primary_data_version ep)
    (dataset_tree_path ep)
    (set_dataset_level_metadata mrr
       (with_new_run (clock b + 1) ep result metadata_source
          (default [] (Model.dataset_level_metadata mrr)))).

(** The per-file metadata that a file-level write finds or creates; [None]
    if the path is that of a node without metadata. *)
Definition located_file_metadata (b : Backend) (ep : ExtractionParameter)
  : option Metadata :=
  match get_node_at_path (default empty_node (Model.file_tree (snd (loaded_top b ep))))
          (file_tree_path ep) with
  | Some n => value n
  | None => Some []
  end.

(** The version list that a file-level write saves, given the per-file
    metadata [m] that it found. *)
Definition file_written_version_list (b : Backend) (ep : ExtractionParameter)
    (result : ExtractorResult) (metadata_source : Value) (m : Metadata) : TreeVersionList :=
  let top := loaded_top b ep in
  let mrr := snd top in
  put_metadata_root_record (fst (fst top)) (source_primary_data_version ep)
    (dataset_tree_path ep)
    (set_file_tree mrr
       (alter_at_elements (path_elements (file_tree_path ep))
          (fun _ => Some (with_new_run (clock b + 1) ep result metadata_source m))
          (default empty_node (Model.file_tree mrr)))).

(** Saving [l] and [u], flushing and unlocking, from the state [s]: each
    call either fails and leaves the state as it is, or takes effect. *)
Definition commit (l : TreeVersionList) (u : UUIDSet) (s : Backend) : Result Backend unit :=
  if fails s save_tree_version_list_call
  then mkResult [Call save_tree_version_list_call] s (Raised failure)
  else prepend [Call save_tree_version_list_call]
   (if fails s save_uuid_set_call
    then mkResult [Call save_uuid_set_call] (set_stored_tree_version_list l s)
           (Raised failure)
    else prepend [Call save_uuid_set_call]
     (if fails s flush_object_references_call
      then mkResult [Call flush_object_references_call]
             (set_stored_uuid_set u (set_stored_tree_version_list l s)) (Raised failure)
      else prepend [Call flush_object_references_call]
       (if fails s unlock_backend_call
        then mkResult [Call unlock_backend_call]
               (set_flushed (set_stored_uuid_set u (set_stored_tree_version_list l s)))
               (Raised failure)
        else mkResult [Call unlock_backend_call]
               (set_locked false
                  (set_flushed (set_stored_uuid_set u (set_stored_tree_version_list l s))))
               (Returned tt)))).

(** The backend calls of a write that succeeds. *)
Definition write_calls : list Event :=
  [ Call lock_backend_call; Call get_top_nodes_call; Call add_extractor_run_call;
    Call save_tree_version_list_call; Call save_uuid_set_call;
    Call flush_object_references_call; Call unlock_backend_call ].


End Extract.

(** ** extractors/custom_dataset.py *)

Module CustomDataset.
Import Extract.

(** The value of a configuration variable: unset, one value, or several. *)
Inductive ConfigValue : Type :=
| Unset
| Single (value : string)
| Multiple (values : list string).

(** The dataset as the extractor sees it: its path, the configuration
    variable [datalad.metadata.custom-dataset-source], which paths exist or
    are symlinks, and what [jsonload] returns for a path.  The content of a
    source file must be a JSON object (module documentation); [None]
    stands for a file that [jsonload] cannot load. *)
Record Dataset : Type := {
  path : string;
  custom_dataset_source : ConfigValue;
  exists_or_is_symlink : string -> bool;
  jsonload : string -> option (Dict Value)
}.

(** [ds.pathobj / name] *)
Definition joinpath (base name : string) : string :=
  match name with
  | String "/"%char _ => name
  | _ => base ++ "/" ++ name
  end.

(** [ensure_list(ds.config.obtain(var, []))] *)
Definition ensure_list (c : ConfigValue) : list string :=
  match c with
  | Unset => []
  | Single v => [v]
  | Multiple vs => vs
  end.

Definition _get_dsmeta_srcfiles (ds : Dataset) : list string * list string :=
  (* Get metadata source filenames from configuration *)
  let cfg_srcfiles := ensure_list (custom_dataset_source ds) in
  let default_path := joinpath (joinpath (path ds) ".metadata") "dataset.json" in
  let srcfiles :=
    match cfg_srcfiles with
    | [] => if exists_or_is_symlink ds default_path
            then [".metadata/dataset.json"] else []
    | _ => cfg_srcfiles
    end in
  (srcfiles, cfg_srcfiles).

(** [CustomDatasetMetadata(dataset).get_metadata()] *)
Definition get_metadata (ds : Dataset) : M unit (Dict Value) :=
  let '(srcfiles, cfg_srcfiles) := _get_dsmeta_srcfiles ds in
  for_fold srcfiles [] (fun dsmeta srcfile =>
    let abssrcfile := joinpath (path ds) srcfile in
    match jsonload ds abssrcfile with
    | Some meta => ret (dict_update dsmeta meta)
    | None => raise (JSONDecodeError abssrcfile)
    end).

Definition get_version : string := "0.0.1".

Definition get_data_output_category : DataOutputCategory := IMMEDIATE.

(** [CustomDatasetExtractor(dataset, ref_commit, parameter).extract()] *)
Definition extract (ds : Dataset) (parameter : option (gmap string string))
  : M unit ExtractorResult :=
  immediate_data <- get_metadata ds ;;
  ret {| extractor_version := get_version;
         extraction_parameter := default ∅ parameter;
         extraction_success := true;
         datalad_result_dict := [ ("type", VStr "dataset"); ("status", VStr "ok") ];
         immediate_data := VDict immediate_data |}.

(** *** Vocabulary of the properties *)

(** The objects that the source files hold, when all of them load. *)
Fixpoint load_all (ds : Dataset) (srcfiles : list string) : option (list (Dict Value)) :=
  match srcfiles with
  | [] => Some []
  | srcfile :: rest =>
      match jsonload ds (joinpath (path ds) srcfile), load_all ds rest with
      | Some object, Some objects => Some (object :: objects)
      | _, _ => None
      end
  end.

(** The value that the last object with key [k] gives to [k]. *)
Definition last_value (k : string) (objects : list (Dict Value)) : option Value :=
  fold_left (fun found object =>
               match dict_get k object with Some v => Some v | None => found end)
            objects None.

(** The result that [extract] builds around the metadata [dsmeta]. *)
Definition result_with (parameter : option (gmap string string)) (dsmeta : Dict Value)
  : ExtractorResult :=
  {| extractor_version := "0.0.1";
     extraction_parameter := default ∅ parameter;
     extraction_success := true;
     datalad_result_dict := [ ("type", VStr "dataset"); ("status", VStr "ok") ];
     immediate_data := VDict dsmeta |}.

End CustomDataset.

(** ** extractors/runprov.py *)

Module RunProv.

(** One line of the raw diff of a commit. *)
Record Diff : Type := {
  prev_mode : string;
  mode : string;
  prev_gitshasum : string;
  gitshasum : string;
  path : string
}.

(** A run record as [yield_run_records] yields it. *)
Record RunRecord : Type := {
  rec_gitshasum : string;
  author_name : string;
  author_email : string;
  commit_date : string;
  message : string;
  run_record : Value;
  diff : list Diff
}.

(** An entry of [path_db]. *)
Record Generated : Type := {
  activity : string;
  generated_gitshasum : string
}.

(** The body of the loop over the diff of [rec]. *)
Definition scan_diff (rec : RunRecord) (path_db : gmap string Generated) (d : Diff)
  : gmap string Generated :=
  match path_db !! path d with
  | Some _ =>
      (* records are latest first, if we have an entry, we already
         know about the latest change *)
      path_db
  | None =>
      if String.eqb (mode d) "000000" then
        (* this file was deleted, hence it cannot possibly be part
           of the to-be-described set of files *)
        path_db
      else
        (* record which activity generated this file *)
        <[ path d := {| activity := rec_gitshasum rec;
                        generated_gitshasum := gitshasum d |} ]> path_db
  end.

(** The loop over the run records, which come latest first. *)
Definition scan_records (records : list RunRecord)
  : gmap string Generated * gmap string RunRecord :=
  fold_left (fun dbs rec =>
               (fold_left (scan_diff rec) (diff rec) (fst dbs),
                <[ rec_gitshasum rec := rec ]> (snd dbs)))
            records (∅, ∅).

(** [Path(p).relative_to(ds.pathobj).as_posix()] *)
Definition relative_to (base p : string) : option string :=
  if String.eqb p base then Some "."
  else if String.prefix (base ++ "/") p
       then Some (String.substring (S (String.length base)) (String.length p) p)
       else None.

(** [dbrec.get('gitshasum', None) == rec.get('gitshasum', '')] *)
Definition same_gitshasum (dbrec : option Generated) (rec : Dict Value) : bool :=
  match option_map generated_gitshasum dbrec,
        default (VStr "") (dict_get "gitshasum" rec) with
  | Some g, VStr s => String.eqb g s
  | None, VNone => true
  | _, _ => false
  end.

Definition item (key : string) (d : Dict Value) : M unit Value :=
  match dict_get key d with
  | Some v => ret v
  | None => raise (KeyError key)
  end.

(** The record that the loop over [status] yields for [rec], generated
    by [activity]. *)
Definition file_result (get_file_id : Dict Value -> Value) (rec : Dict Value)
    (activity : string) (type : Value) : Value :=
  VDict
    (dict_set "status" (VStr "ok")
       (dict_set "type" type
          (dict_set "metadata"
             (VDict [ ("@id", get_file_id rec);
                      ("@type", VStr "entity");
                      ("prov:wasGeneratedBy", VDict [ ("@id", VStr activity) ]) ])
             rec))).

(** The order of [str] *)
Definition string_le (a b : string) : Prop := String.leb a b = true.

#[global] Instance string_le_dec a b : Decision (string_le a b).
Proof. unfold string_le. apply _. Defined.

Section Call.
(** [get_file_id] and [get_agent_id] of [datalad_metalad/__init__.py] *)
Variable get_file_id : Dict Value -> Value.
Variable get_agent_id : string -> string -> string.

(** The body of the loop over [status]. *)
Definition report_file (ds_pathobj : string) (path_db : gmap string Generated)
    (yielded_files : bool) (rec : Dict Value) : M unit bool :=
  (* see if we have any knowledge about this entry
     from any of the activity change logs *)
  p <- item "path" rec ;;
  relpath <- match p with
             | VStr p =>
                 match relative_to ds_pathobj p with
                 | Some r => ret r
                 | None => raise (ValueError "not in the subpath")
                 end
             | _ => raise (ValueError "not a path")
             end ;;
  let dbrec := path_db !! relpath in
  if same_gitshasum dbrec rec then
    (* the file at this path was generated by a recorded activity *)
    activity <- match dbrec with
                | Some g => ret (activity g)
                | None => raise (KeyError "activity")
                end ;;
    type <- item "type" rec ;;
    emit (Yield (file_result get_file_id rec activity type)) ;;;
    ret true
  else ret yielded_files.

(** The loop over [status] (process types ['all'] and ['content']);
    returns [yielded_files]. *)
Definition report_files (ds_pathobj : string) (path_db : gmap string Generated)
    (status : list (Dict Value)) : M unit bool :=
  for_fold status false (report_file ds_pathobj path_db).

(** [sorted(d)] for a dictionary with string keys *)
Definition sorted_keys {A} (m : gmap string A) : list string :=
  merge_sort string_le (map fst (map_to_list m)).

(** The dataset-level report (process types ['all'] and ['dataset']). *)
Definition report_dataset (activities : gmap string RunRecord) (yielded_files : bool)
  : M unit unit :=
  let agents : gmap string (string * string) :=
    fold_left (fun agents actsha =>
                 match activities !! actsha with
                 | Some rec =>
                     <[ get_agent_id (author_name rec) (author_email rec) :=
                          (author_name rec, author_email rec) ]> agents
                 | None => agents
                 end)
              (sorted_keys activities) ∅ in
  let graph :=
   (omap (fun actsha =>
            rec ← activities !! actsha;
            Some (VDict [ ("@id", VStr actsha);
                          ("@type", VStr "activity");
                          ("atTime", VStr (commit_date rec));
                          ("prov:wasAssociatedWith",
                             VDict [ ("@id", VStr (get_agent_id (author_name rec)
                                                     (author_email rec))) ]);
                          ("rdfs:comment", VStr (message rec)) ]))
         (sorted_keys activities)
    ++ omap (fun agent =>
               rec ← agents !! agent;
               Some (VDict [ ("@id", VStr agent);
                             ("@type", VStr "agent");
                             ("name", VStr (fst rec));
                             ("email", VStr (snd rec)) ]))
            (sorted_keys agents))%list in
  when (yielded_files || match graph with [] => false | _ => true end)
    (emit (Yield (VDict [ ("metadata",
                             VDict [ ("@context", VStr "http://openprovenance.org/prov.jsonld");
                                     ("@graph", VList graph) ]);
                          ("type", VStr "dataset");
                          ("status", VStr "ok") ]))).

Definition process_type_in (process_type a b : string) : bool :=
  String.eqb process_type a || String.eqb process_type b.

(** [RunProvenanceExtractor.__call__], given the run records of the
    dataset. *)
Definition call (ds_pathobj : string) (records : list RunRecord)
    (process_type : string) (status : list (Dict Value)) : M unit unit :=
  let '(path_db, activities) := scan_records records in
  yielded_files <-
    (if process_type_in process_type "all" "content"
     then report_files ds_pathobj path_db status
     else ret false) ;;
  when (process_type_in process_type "all" "dataset")
    (report_dataset activities yielded_files).
End Call.

(** *** Vocabulary of the properties *)

(** The diff entries in the order in which they are scanned, each with
    the commit of its run record. *)
Definition scanned (records : list RunRecord) : list (string * Diff) :=
  flat_map (fun rec => map (fun d => (rec_gitshasum rec, d)) (diff rec)) records.

(** The first scanned entry that touches [p] and is not a deletion. *)
Fixpoint latest_change (p : string) (entries : list (string * Diff)) : option Generated :=
  match entries with
  | [] => None
  | (sha, d) :: rest =>
      if String.eqb (path d) p && negb (String.eqb (mode d) "000000")
      then Some {| activity := sha; generated_gitshasum := gitshasum d |}
      else latest_change p rest
  end.

(** What stands behind a record that the loop over [status] yields. *)
Definition generated_by_recorded_activity (get_file_id : Dict Value -> Value)
    (ds_pathobj : string) (path_db : gmap string Generated)
    (status : list (Dict Value)) (v : Value) : Prop :=
  exists rec p relpath g type,
    In rec status
    /\ dict_get "path" rec = Some (VStr p)
    /\ relative_to ds_pathobj p = Some relpath
    /\ path_db !! relpath = Some g
    /\ default (VStr "") (dict_get "gitshasum" rec) = VStr (generated_gitshasum g)
    /\ v = file_result get_file_id rec (activity g) type.

End RunProv.

(** ** Concrete trees, runs and datasets

    The inputs at which the properties below are instantiated. *)

Module Scenario.
Import Model TreeSearch.

Definition configuration_1 : ExtractorConfiguration := {| version := "1"; parameter := ∅ |}.
Definition configuration_2 : ExtractorConfiguration := {| version := "2"; parameter := ∅ |}.

(** Two runs of one extractor, the first at time 1, the second at time 2. *)
Definition run_1 : MetadataInstance :=
  {| time_stamp := 1; author_name := "A"; author_email := "a@example.com";
     configuration := configuration_1;
     metadata_location := ImmediateMetadataSource (VStr "first") |}.

Definition run_2 : MetadataInstance :=
  {| time_stamp := 2; author_name := "A"; author_email := "a@example.com";
     configuration := configuration_2;
     metadata_location := ImmediateMetadataSource (VStr "second") |}.

Definition file_tree_a : FileTree :=
  Node None [ ("file.txt", Node (Some [ ("E1", [run_1]) ]) []) ].

(** The record of the dataset at ["sub/a"]: extractor ["E1"] has run twice. *)
Definition record_a : MetadataRootRecord :=
  {| dataset_identifier := "00000000-0000-0000-0000-00000000000a";
     dataset_version := "version-a";
     dataset_level_metadata := Some [ ("E1", [run_1; run_2]) ];
     file_tree := Some file_tree_a |}.

Definition record_root (dataset_version : string) : MetadataRootRecord :=
  {| dataset_identifier := "00000000-0000-0000-0000-000000000000";
     dataset_version := dataset_version;
     dataset_level_metadata := Some [];
     file_tree := Some empty_node |}.

(** A tree that contains only ["sub/a"]. *)
Definition only_sub_a : DatasetTree :=
  Node None [ ("sub", Node None [ ("a", Node (Some record_a) []) ]) ].

(** The same below a root that carries the record of the root dataset. *)
Definition tree (root_version : string) : DatasetTree :=
  Node (Some (record_root root_version))
       [ ("sub", Node None [ ("a", Node (Some record_a) []) ]) ].

Definition one_version : TreeVersionList := [ ("v1", (10, tree "v1")) ].

(** Version ["v1"] was recorded at time 10, version ["v2"] at time 20. *)
Definition two_versions : TreeVersionList :=
  [ ("v1", (10, tree "v1")); ("v2", (20, tree "v2")) ].

Definition at_sub_a : Dump.TreeMetadataPath :=
  {| Dump.dataset_path := Some "sub/a"; Dump.local_path := ""; Dump.version := None |}.

Definition at_sub_a_v2 : Dump.TreeMetadataPath :=
  {| Dump.dataset_path := Some "sub/a"; Dump.local_path := ""; Dump.version := Some "v2" |}.



(** *** Extraction *)

Definition dataset : Extract.Dataset :=
  {| Extract.pathobj := "/data/super";
     Extract.status := fun file_path =>
       [ {| Extract.status_type := "file"; Extract.status_gitshasum := "0123abcd";
            Extract.status_bytesize := Some 12; Extract.status_state := "clean";
            Extract.status_path := "/data/super/" ++ file_path |} ] |}.

Definition result_1 : Extract.ExtractorResult :=
  {| Extract.extractor_version := "1"; Extract.extraction_parameter := ∅;
     Extract.extraction_success := true;
     Extract.datalad_result_dict := [ ("status", VStr "ok"); ("type", VStr "dataset") ];
     Extract.immediate_data := VStr "first" |}.


Definition extractor (category : Extract.DataOutputCategory) : Extract.Extractor :=
  {| Extract.get_data_output_category := category; Extract.extract := result_1;
     Extract.file_output := "content" |}.

(** Extractor ["E1"] on the dataset at ["sub/a"] of the realm. *)
Definition parameters (c : Extract.ExtractorClass) : Extract.ExtractionParameter :=
  {| Extract.realm := "/data/super"; Extract.source_dataset := dataset;
     Extract.source_dataset_id := "00000000-0000-0000-0000-00000000000a";
     Extract.extractor_class := c; Extract.extractor_name := "E1";
     Extract.extractor_arguments := ∅;
     Extract.dataset_tree_path := "sub/a"; Extract.file_tree_path := "file.txt";
     Extract.root_primary_data_version := "v1";
     Extract.source_primary_data_version := "v1";
     Extract.agent_name := "A"; Extract.agent_email := "a@example.com" |}.

(** A backend in which nothing is stored and one call fails. *)
Definition failing_at (c : BackendCall) : Extract.Backend :=
  {| Extract.locked := false; Extract.stored_tree_version_list := None;
     Extract.stored_uuid_set := None; Extract.unflushed := false;
     Extract.git_objects := []; Extract.clock := 0;
     Extract.fails := fun c' => bool_decide (c' = c) |}.

(** *** A dataset with two configured metadata sources *)

Definition custom_dataset : CustomDataset.Dataset :=
  {| CustomDataset.path := "/data/super";
     CustomDataset.custom_dataset_source := CustomDataset.Multiple ["a.json"; "b.json"];
     CustomDataset.exists_or_is_symlink := fun _ => false;
     CustomDataset.jsonload := fun p =>
       if String.eqb p "/data/super/a.json"
       then Some [ ("name", VStr "from a"); ("license", VStr "CC0") ]
       else if String.eqb p "/data/super/b.json"
       then Some [ ("name", VStr "from b") ]
       else None |}.

(** A dataset without configured sources and without the default file. *)
Definition bare_dataset : CustomDataset.Dataset :=
  {| CustomDataset.path := "/data/bare";
     CustomDataset.custom_dataset_source := CustomDataset.Unset;
     CustomDataset.exists_or_is_symlink := fun _ => false;
     CustomDataset.jsonload := fun _ => None |}.

(** *** Run records

    The latest run record deleted ["f.txt"] and changed ["g.txt"]; the one
    before created both. *)

Definition latest_record : RunProv.RunRecord :=
  {| RunProv.rec_gitshasum := "commit-2"; RunProv.author_name := "A";
     RunProv.author_email := "a@example.com"; RunProv.commit_date := "2019-05-02";
     RunProv.message := "[DATALAD RUNCMD] second"; RunProv.run_record := VNone;
     RunProv.diff :=
       [ {| RunProv.prev_mode := "100644"; RunProv.mode := "000000";
            RunProv.prev_gitshasum := "f-1"; RunProv.gitshasum := "0000000";
            RunProv.path := "f.txt" |};
         {| RunProv.prev_mode := "100644"; RunProv.mode := "100644";
            RunProv.prev_gitshasum := "g-1"; RunProv.gitshasum := "g-2";
            RunProv.path := "g.txt" |} ] |}.

Definition earlier_record : RunProv.RunRecord :=
  {| RunProv.rec_gitshasum := "commit-1"; RunProv.author_name := "A";
     RunProv.author_email := "a@example.com"; RunProv.commit_date := "2019-05-01";
     RunProv.message := "[DATALAD RUNCMD] first"; RunProv.run_record := VNone;
     RunProv.diff :=
       [ {| RunProv.prev_mode := "000000"; RunProv.mode := "100644";
            RunProv.prev_gitshasum := "0000000"; RunProv.gitshasum := "f-1";
            RunProv.path := "f.txt" |};
         {| RunProv.prev_mode := "000000"; RunProv.mode := "100644";
            RunProv.prev_gitshasum := "0000000"; RunProv.gitshasum := "g-1";
            RunProv.path := "g.txt" |} ] |}.

(** ["g.txt"] as generated by the latest run, ["h.txt"] unknown to any run. *)
Definition file_status : list (Dict Value) :=
  [ [ ("path", VStr "/data/super/g.txt"); ("gitshasum", VStr "g-2");
      ("type", VStr "file") ];
    [ ("path", VStr "/data/super/h.txt"); ("gitshasum", VStr "h-1");
      ("type", VStr "file") ] ].

Definition file_id (rec : Dict Value) : Value :=
  default VNone (dict_get "gitshasum" rec).

End Scenario.

(** ** Partial correctness *)

Module Hoare.

(** If [c] starts in a state with [P] and returns, it returns in a state
    with [Q]. *)
Definition triple {St A} (P : St -> Prop) (c : M St A) (Q : St -> Prop) : Prop :=
  forall s a, P s -> outcome (c s) = Returned a -> Q (final (c s)).

End Hoare.

(** ** dump.py: the command *)

Module DumpCommand.
Import Model TreeSearch Dump.

(** Modelled from the spec: [UUIDMetadataPath] of
    [datalad_metalad/pathutils/metadatapathparser.py], whose source is not
    part of the modules embedded here.  Section 4.2: a UUID and a local
    path. *)
Record UUIDMetadataPath : Type := {
  uuid : string;
  uuid_local_path : string
}.

(** What [MetadataPathParser(path).parse()] returns. *)
Inductive MetadataPath : Type :=
| TreePath (p : TreeMetadataPath)
| UUIDPath (p : UUIDMetadataPath).

(** [ReportOn(reporton)]: the member with that value. *)
Definition ReportOn_of (value : string) : M Cache ReportOn :=
  if String.eqb value "files" then ret FILES
  else if String.eqb value "datasets" then ret DATASETS
  else if String.eqb value "all" then ret ALL
  else raise (ValueError ("'" ++ value ++ "' is not a valid ReportOn")).

(** [ReportPolicy(reportpolicy)] *)
Definition ReportPolicy_of (value : string) : M Cache ReportPolicy :=
  if String.eqb value "individual" then ret INDIVIDUAL
  else if String.eqb value "complete" then ret COMPLETE
  else raise (ValueError ("'" ++ value ++ "' is not a valid ReportPolicy")).

(** An expression that is evaluated outside the modelled code. *)
Definition lift {St A} (o : Outcome A) : M St A :=
  match o with
  | Returned a => ret a
  | Raised e => raise e
  end.

Section Command.
(** [Connector.load_object(mapper_family, realm)] on the references to the
    two top-level objects of a mapper family: the object, or the exception
    that loading raises. *)
Variable load_tree_version_list : string -> string -> Outcome TreeVersionList.
Variable load_uuid_set : string -> string -> Outcome Extract.UUIDSet.
(** [MetadataPathParser(path).parse()] *)
Variable parse : string -> Outcome MetadataPath.

(** What [except RuntimeError] catches: of the exceptions modelled here,
    [RuntimeError] and its subclass [NotImplementedError]. *)
Definition is_RuntimeError (e : Exn) : bool :=
  match e with
  | RuntimeError _ | NotImplementedError => true
  | _ => false
  end.

(** The two connectors are local to the function and are not tracked in
    the cache. *)
Definition get_top_level_metadata_objects (mapper_family realm : string)
  : M Cache (option TreeVersionList * option Extract.UUIDSet) :=
  match load_tree_version_list mapper_family realm with
  | Returned tree_version_list =>
      match load_uuid_set mapper_family realm with
      | Returned uuid_set => ret (Some tree_version_list, Some uuid_set)
      | Raised e => if is_RuntimeError e then ret (None, None) else raise e
      end
  | Raised e => if is_RuntimeError e then ret (None, None) else raise e
  end.

(** The record that reports a realm without metadata. *)
Definition impossible_record (mapper realm message : string) : Value :=
  VDict [ ("mapper", VStr mapper);
          ("realm", VStr realm);
          ("status", VStr "impossible");
          ("message", VStr message) ].

(** [Dump.__call__] *)
Definition meta_dump (mapper : string) (realm path : option string)
    (reporton reportpolicy : string) (recursive : bool) : M Cache unit :=
  let realm := match realm with
               | Some r => if String.eqb r "" then "." else r
               | None => "."
               end in
  top <- get_top_level_metadata_objects default_mapper_family realm ;;
  match top with
  | (Some tree_version_list, Some uuid_set) =>
      let path := match path with Some p => p | None => "" end in
      metadata_path <- lift (parse path) ;;
      match metadata_path with
      | TreePath metadata_path =>
          report_on <- ReportOn_of reporton ;;
          report_policy <- ReportPolicy_of reportpolicy ;;
          dump_from_dataset_tree mapper realm tree_version_list (Some metadata_path)
            report_on report_policy recursive
      | UUIDPath _ => dump_from_uuid_set
      end
  | _ =>
      (* We require both entry points to exist for valid metadata *)
      let message :=
        "No " ++ mapper ++ "-mapped datalad metadata model found in: " ++ realm in
      emit (Warning message) ;;;
      emit (Yield (impossible_record mapper realm message))
  end.
End Command.

(** *** Vocabulary of the properties *)

(** The inner dictionary of a dataset-level record, before ["metadata"] is
    stored in it. *)
Definition dataset_context (root_dataset_identifier root_dataset_version
    dataset_path : string) (mrr : MetadataRootRecord) : Dict Value :=
  [ ("root_dataset_identifier", VStr root_dataset_identifier);
    ("root_dataset_version", VStr root_dataset_version);
    ("dataset_identifier", VStr (dataset_identifier mrr));
    ("dataset_version", VStr (dataset_version mrr));
    ("dataset_path", VStr dataset_path) ].

(** The same for a file-level record. *)
Definition file_context (root_dataset_identifier root_dataset_version
    dataset_path file_path : string) : Dict Value :=
  [ ("root_dataset_identifier", VStr root_dataset_identifier);
    ("root_dataset_version", VStr root_dataset_version);
    ("dataset_path", VStr dataset_path);
    ("file_path", VStr file_path) ].

(** One record per extractor name: the context, and under ["metadata"]
    the name with all of its runs. *)
Definition records_of (mapper realm level report_type : string) (context : Dict Value)
    (metadata : Metadata) : list Value :=
  map (fun run =>
         _create_result_record mapper realm
           (VDict [ (level,
                     VDict (context ++
                            [ ("metadata",
                               VDict [ (fst run,
                                        VList (map _create_metadata_instance_record
                                                 (snd run))) ]) ])%list) ])
           report_type)
      metadata.

(** The records of one matched node of a file tree: none for a node that
    holds no metadata. *)
Definition file_records (mapper realm root_dataset_identifier root_dataset_version
    dataset_path : string) (m : MatchRecord Metadata) : list Value :=
  match value (node m) with
  | None => []
  | Some metadata =>
      records_of mapper realm "file_level_metadata" "file"
        (file_context root_dataset_identifier root_dataset_version dataset_path (path m))
        metadata
  end.

(** The message that [meta_dump] reports for a realm without metadata. *)
Definition no_model_message (mapper realm : string) : string :=
  "No " ++ mapper ++ "-mapped datalad metadata model found in: " ++ realm.

(** The value of a key of a record. *)
Definition field (key : string) (v : Value) : option Value :=
  match v with VDict d => dict_get key d | _ => None end.

(** An event that, if it is a yielded record, has the type [t]. *)
Definition of_type (t : string) (ev : Event) : Prop :=
  match ev with Yield v => field "type" v = Some (VStr t) | _ => True end.



End DumpCommand.

(** ** extract.py: the extractor class *)

Module ExtractCommand.
Import Model Extract.

(** An entry point of the group [datalad.metadata.extractors]: the project
    name of its distribution, and the class that it loads. *)
Record EntryPoint : Type := {
  project_name : string;
  load : ExtractorClass
}.

Definition override_warning (extractor_name : string) (entry_point ignored : EntryPoint)
  : string :=
  "Metadata extractor " ++ extractor_name ++ " from distribution "
  ++ project_name entry_point ++ " overrides metadata extractor from distribution "
  ++ project_name ignored.

(** [get_extractor_class]; [iter_entry_points] lists the entry points
    registered under a name. *)
Definition get_extractor_class (iter_entry_points : string -> list EntryPoint)
    (extractor_name : string) : M Backend ExtractorClass :=
  let entry_points := iter_entry_points extractor_name in
  match rev entry_points with
  | [] =>
      raise (ValueError ("Requested metadata extractor '" ++ extractor_name
                         ++ "' not available"))
  | entry_point :: _ =>
      let ignored_entry_points := removelast entry_points in
      (* Inform about overridden entry points *)
      for_each ignored_entry_points (fun ignored_entry_point =>
        emit (Warning (override_warning extractor_name entry_point ignored_entry_point))) ;;;
      ret (load entry_point)
  end.

(** *** Vocabulary of the properties *)

(** The backend calls of an event trace. *)
Definition calls (evs : list Event) : list BackendCall :=
  omap (fun ev => match ev with Call c => Some c | _ => None end) evs.

Definition is_call (ev : Event) : Prop :=
  match ev with Call _ => True | _ => False end.

(** The record that [perform_..._metadata_extraction] yields. *)
Definition reported (result : ExtractorResult) : Value :=
  VDict (dict_set "action" (VStr "meta_extract") (datalad_result_dict result)).

End ExtractCommand.

(** ** Further inputs *)

Module Examples.
Import Model.

(** A realm in which nothing can be loaded. *)
Definition no_tree_version_list (mapper_family realm : string) : Outcome TreeVersionList :=
  Raised (RuntimeError "no metadata").

Definition no_uuid_set (mapper_family realm : string) : Outcome Extract.UUIDSet :=
  Raised (RuntimeError "no metadata").

(** A realm that holds one version. *)
Definition one_tree_version_list (mapper_family realm : string) : Outcome TreeVersionList :=
  Returned Scenario.one_version.

Definition empty_uuid_set (mapper_family realm : string) : Outcome Extract.UUIDSet :=
  Returned [].

(** A parser that knows two addresses. *)
Definition parse (path : string) : Outcome DumpCommand.MetadataPath :=
  if String.eqb path "sub/a" then Returned (DumpCommand.TreePath Scenario.at_sub_a)
  else if String.eqb path "%0a:file.txt"
       then Returned (DumpCommand.UUIDPath
                        {| DumpCommand.uuid := "0a";
                           DumpCommand.uuid_local_path := "file.txt" |})
       else Raised (ValueError path).

(** Two distributions register an extractor under the name ["E1"]. *)
Definition entry_points (extractor_name : string) : list ExtractCommand.EntryPoint :=
  if String.eqb extractor_name "E1"
  then [ {| ExtractCommand.project_name := "datalad";
            ExtractCommand.load := Extract.UnknownExtractorClass |};
         {| ExtractCommand.project_name := "datalad-metalad";
            ExtractCommand.load :=
              Extract.DatasetMetadataExtractorClass (Scenario.extractor Extract.IMMEDIATE) |} ]
  else [].

(** An extractor whose extraction does not succeed. *)
Definition failed_extractor (category : Extract.DataOutputCategory) : Extract.Extractor :=
  {| Extract.get_data_output_category := category;
     Extract.extract :=
       {| Extract.extractor_version := "1"; Extract.extraction_parameter := ∅;
          Extract.extraction_success := false;
          Extract.datalad_result_dict := [ ("status", VStr "error") ];
          Extract.immediate_data := VNone |};
     Extract.file_output := "" |}.

End Examples.

(** * Properties *)

(** ** Runs *)

Section RunFacts.
Context {St : Type}.
Implicit Types s : St.

Lemma result_eta {A} (r : Result St A) :
  mkResult (events r) (final r) (outcome r) = r.
Proof. by destruct r. Qed.

Lemma bind_ret_l {A B} (a : A) (k : A -> M St B) s : bind (ret a) k s = k a s.
Proof. unfold bind, ret. simpl. apply result_eta. Qed.

(** A first part that only computes a value. *)
Lemma bind_pure {A B} (c : M St A) (k : A -> M St B) s a :
  c s = mkResult [] s (Returned a) -> bind c k s = k a s.
Proof. intros H. unfold bind. rewrite H. simpl. apply result_eta. Qed.

Lemma bind_step {A B} (c : M St A) (k : A -> M St B) s evs s' a :
  c s = mkResult evs s' (Returned a) ->
  bind c k s
  = mkResult (evs ++ events (k a s')) (final (k a s')) (outcome (k a s')).
Proof. intros H. unfold bind. by rewrite H. Qed.

Lemma bind_stop {A B} (c : M St A) (k : A -> M St B) s evs s' e :
  c s = mkResult evs s' (Raised e) ->
  bind c k s = mkResult evs s' (Raised e).
Proof. intros H. unfold bind. by rewrite H. Qed.

Lemma bind_returned {A B} (c : M St A) (k : A -> M St B) s a :
  outcome (c s) = Returned a ->
  bind c k s =
    mkResult (events (c s) ++ events (k a (final (c s))))
             (final (k a (final (c s)))) (outcome (k a (final (c s)))).
Proof. intros H. unfold bind. by rewrite H. Qed.

(** If a sequence returns, both parts have returned. *)
Lemma bind_inv {A B} (c : M St A) (k : A -> M St B) s b :
  outcome (bind c k s) = Returned b ->
  exists a, outcome (c s) = Returned a /\ outcome (k a (final (c s))) = Returned b
            /\ final (bind c k s) = final (k a (final (c s))).
Proof.
  unfold bind. destruct (outcome (c s)) as [a|e] eqn:H; simpl; [|done].
  intros Hb. by exists a.
Qed.

Lemma bind_assoc {A B C} (c : M St A) (k : A -> M St B) (h : B -> M St C) s :
  bind (bind c k) h s = bind c (fun a => bind (k a) h) s.
Proof.
  unfold bind. destruct (outcome (c s)) as [a|e]; simpl; [|done].
  destruct (outcome (k a (final (c s)))); simpl; [|done].
  by rewrite app_assoc.
Qed.

Lemma bind_ext {A B} (c : M St A) (k k' : A -> M St B) s :
  (forall a s', k a s' = k' a s') -> bind c k s = bind c k' s.
Proof. intros H. unfold bind. destruct (outcome (c s)); [by rewrite H | done]. Qed.

Lemma for_each_app {A} (xs ys : list A) (body : A -> M St unit) s :
  for_each (xs ++ ys) body s = bind (for_each xs body) (fun _ => for_each ys body) s.
Proof.
  revert s. induction xs as [|x xs IH]; intros s; simpl.
  - by rewrite bind_ret_l.
  - rewrite bind_assoc. apply bind_ext. intros _ s'. apply IH.
Qed.

Lemma all_events_ret {A} E (a : A) : all_events E (@ret St A a).
Proof. intros s. constructor. Qed.

Lemma all_events_raise {A} E e : all_events E (@raise St A e).
Proof. intros s. constructor. Qed.

Lemma all_events_modify E f : all_events E (@modify St f).
Proof. intros s. constructor. Qed.

Lemma all_events_emit E ev : E ev -> all_events E (@emit St ev).
Proof. intros H s. by repeat constructor. Qed.

Lemma all_events_bind {A B} E (c : M St A) (k : A -> M St B) :
  all_events E c -> (forall a, all_events E (k a)) -> all_events E (bind c k).
Proof.
  intros Hc Hk s. unfold bind.
  destruct (outcome (c s)); simpl; [|apply Hc].
  apply Forall_app. split; [apply Hc | apply Hk].
Qed.

Lemma all_events_attr {A} E (o : option A) : all_events E (@attr St A o).
Proof. destruct o; [apply all_events_ret | apply all_events_raise]. Qed.

Lemma all_events_assert E b : all_events E (@assert St b).
Proof. destruct b; [apply all_events_ret | apply all_events_raise]. Qed.

Lemma all_events_when E b (c : M St unit) : all_events E c -> all_events E (when b c).
Proof. destruct b; [done | intros _; apply all_events_ret]. Qed.

Lemma all_events_for_each {A} E (xs : list A) (body : A -> M St unit) :
  (forall x, all_events E (body x)) -> all_events E (for_each xs body).
Proof.
  intros H. induction xs; simpl; [apply all_events_ret|].
  apply all_events_bind; [apply H | done].
Qed.

Lemma all_events_for_fold {A B} E (xs : list A) (acc : B) (body : B -> A -> M St B) :
  (forall b x, all_events E (body b x)) -> all_events E (for_fold xs acc body).
Proof.
  intros H. revert acc. induction xs; intros acc; simpl; [apply all_events_ret|].
  apply all_events_bind; [apply H | done].
Qed.

Lemma keeps_ret {A} I (a : A) : keeps I (@ret St A a).
Proof. by intros s. Qed.

Lemma keeps_raise {A} I e : keeps I (@raise St A e).
Proof. by intros s. Qed.

Lemma keeps_emit I ev : keeps I (@emit St ev).
Proof. by intros s. Qed.

Lemma keeps_bind {A B} I (c : M St A) (k : A -> M St B) :
  keeps I c -> (forall a, keeps I (k a)) -> keeps I (bind c k).
Proof.
  intros Hc Hk s Hs. unfold bind.
  destruct (outcome (c s)); simpl; [|by apply Hc].
  apply Hk. by apply Hc.
Qed.

Lemma keeps_attr {A} I (o : option A) : keeps I (@attr St A o).
Proof. destruct o; [apply keeps_ret | apply keeps_raise]. Qed.

Lemma keeps_when I b (c : M St unit) : keeps I c -> keeps I (when b c).
Proof. destruct b; [done | intros _; apply keeps_ret]. Qed.

Lemma keeps_for_each {A} I (xs : list A) (body : A -> M St unit) :
  (forall x, keeps I (body x)) -> keeps I (for_each xs body).
Proof.
  intros H. induction xs; simpl; [apply keeps_ret|].
  apply keeps_bind; [apply H | done].
Qed.

Lemma keeps_for_fold {A B} I (xs : list A) (acc : B) (body : B -> A -> M St B) :
  (forall b x, keeps I (body b x)) -> keeps I (for_fold xs acc body).
Proof.
  intros H. revert acc. induction xs; intros acc; simpl; [apply keeps_ret|].
  apply keeps_bind; [apply H | done].
Qed.

Lemma ensures_bind_last {A B} Q (c : M St A) (k : A -> M St B) :
  (forall a, ensures Q (k a)) -> ensures Q (bind c k).
Proof.
  intros Hk s b Hb. destruct (bind_inv _ _ _ _ Hb) as (a & _ & Hka & ->).
  by eapply Hk.
Qed.

Lemma ensures_bind_keeps {A B} Q (c : M St A) (k : A -> M St B) :
  ensures Q c -> (forall a, keeps Q (k a)) -> ensures Q (bind c k).
Proof.
  intros Hc Hk s b Hb. destruct (bind_inv _ _ _ _ Hb) as (a & Ha & _ & ->).
  apply Hk. by eapply Hc.
Qed.
End RunFacts.

(** ** Dictionaries and trees *)

Lemma dict_get_set_eq {A} (k : string) (v : A) (d : Dict A) :
  dict_get k (dict_set k v d) = Some v.
Proof.
  induction d as [|[k' v'] d IH]; simpl.
  - by rewrite String.eqb_refl.
  - destruct (String.eqb k k') eqn:E; simpl; rewrite ?String.eqb_refl, ?E; done.
Qed.

Lemma dict_get_set_ne {A} (k k' : string) (v : A) (d : Dict A) :
  k <> k' -> dict_get k' (dict_set k v d) = dict_get k' d.
Proof.
  intros Hne. induction d as [|[k0 v0] d IH]; simpl.
  - destruct (String.eqb k' k) eqn:E; [|done].
    apply String.eqb_eq in E. congruence.
  - destruct (String.eqb k k0) eqn:E; simpl.
    + apply String.eqb_eq in E. subst k0.
      destruct (String.eqb k' k) eqn:E'; [|done].
      apply String.eqb_eq in E'. congruence.
    + by rewrite IH.
Qed.


(** ** dump.py: version resolution *)

Section DumpFacts.
Import Model TreeSearch Dump.

Lemma requested_root_dataset_version_pure (l : TreeVersionList) (p : TreeMetadataPath)
    (c : Cache) :
  requested_root_dataset_version l p c
  = mkResult [] c (outcome (requested_root_dataset_version l p c)).
Proof.
  unfold requested_root_dataset_version.
  destruct (version p); [done|]. by destruct (versions l).
Qed.

(** C1 (as amended).  When the path carries no version,
    [dump_from_dataset_tree] reports on the tree of the version that the
    version list lists first; when a version is requested (and the path
    has a dataset path), it reports on the tree of exactly that version. *)
Theorem dump_fetches_first_listed_or_requested_version
    (mapper realm : string) (l : TreeVersionList) (p : TreeMetadataPath)
    (report_on : ReportOn) (recursive : bool) (c : Cache) :
  (version p = None ->
   forall v ts t rest, l = (v, (ts, t)) :: rest ->
     dump_from_dataset_tree mapper realm l (Some p) report_on INDIVIDUAL recursive c
     = report_dataset_tree mapper realm (normalize (Some p)) report_on recursive t c)
  /\
  (forall v, version p = Some v -> dataset_path p <> None ->
   forall ts t, dict_get v l = Some (ts, t) ->
     dump_from_dataset_tree mapper realm l (Some p) report_on INDIVIDUAL recursive c
     = report_dataset_tree mapper realm p report_on recursive t c).
Proof.
  split.
  - intros Hv v ts t rest ->.
    unfold dump_from_dataset_tree.
    rewrite (bind_pure (St:=Cache) _ _ _ tt) by reflexivity.
    assert (Hn : version (normalize (Some p)) = None).
    { unfold normalize. by destruct (dataset_path p). }
    rewrite (bind_pure (St:=Cache) _ _ _ v).
    2: { unfold requested_root_dataset_version. by rewrite Hn. }
    rewrite (bind_pure (St:=Cache) _ _ _ (ts, t)); [done|].
    unfold get_dataset_tree. simpl. by rewrite String.eqb_refl.
  - intros v Hv Hd ts t Hl.
    unfold dump_from_dataset_tree.
    rewrite (bind_pure (St:=Cache) _ _ _ tt) by reflexivity.
    assert (Hn : normalize (Some p) = p).
    { unfold normalize. by destruct (dataset_path p). }
    rewrite Hn.
    rewrite (bind_pure (St:=Cache) _ _ _ v).
    2: { unfold requested_root_dataset_version. by rewrite Hv. }
    rewrite (bind_pure (St:=Cache) _ _ _ (ts, t)); [done|].
    unfold get_dataset_tree. by rewrite Hl.
Qed.

Lemma dump_fetches_first_listed_or_requested_version_witness :
  dump_from_dataset_tree "git" "." Scenario.two_versions (Some Scenario.at_sub_a)
    DATASETS INDIVIDUAL false ∅
  = report_dataset_tree "git" "." (normalize (Some Scenario.at_sub_a)) DATASETS false
      (Scenario.tree "v1") ∅
  /\
  dump_from_dataset_tree "git" "." Scenario.two_versions (Some Scenario.at_sub_a_v2)
    DATASETS INDIVIDUAL false ∅
  = report_dataset_tree "git" "." Scenario.at_sub_a_v2 DATASETS false
      (Scenario.tree "v2") ∅.
Proof.
  split.
  - apply (proj1 (dump_fetches_first_listed_or_requested_version
                    "git" "." Scenario.two_versions Scenario.at_sub_a DATASETS false ∅)
             eq_refl "v1" 10 (Scenario.tree "v1") [("v2", (20, Scenario.tree "v2"))]).
    reflexivity.
  - apply (proj2 (dump_fetches_first_listed_or_requested_version
                    "git" "." Scenario.two_versions Scenario.at_sub_a_v2 DATASETS false ∅)
             "v2" eq_refl ltac:(discriminate) 20 (Scenario.tree "v2")).
    reflexivity.
Defined.

(** C1 (as stated) fails: with version ["v1"] recorded at time 10 and
    listed first, and version ["v2"] recorded at time 20, a path without a
    version resolves to ["v1"], which is not the most recent version. *)
Lemma first_listed_version_is_not_most_recent :
  version Scenario.at_sub_a = None
  /\ outcome (requested_root_dataset_version Scenario.two_versions
                (normalize (Some Scenario.at_sub_a)) ∅) = Returned "v1"
  /\ dump_from_dataset_tree "git" "." Scenario.two_versions (Some Scenario.at_sub_a)
       DATASETS INDIVIDUAL false ∅
     = report_dataset_tree "git" "." Scenario.at_sub_a DATASETS false
         (Scenario.tree "v1") ∅
  /\ most_recent Scenario.two_versions "v2"
  /\ ~ most_recent Scenario.two_versions "v1".
Proof.
  split; [reflexivity|]. split; [reflexivity|]. split; [|split].
  - vm_compute. reflexivity.
  - exists 20, (Scenario.tree "v2"). split; [reflexivity|].
    intros v' ts' t' H. unfold Scenario.two_versions in H. simpl in H.
    destruct (String.eqb v' "v1"); [injection H as <- _; lia|].
    destruct (String.eqb v' "v2"); [injection H as <- _; lia | discriminate].
  - intros (ts & t & H & Hall). injection H as <- _.
    specialize (Hall "v2" 20 (Scenario.tree "v2") eq_refl). lia.
Qed.

(** ** dump.py: one record per extractor *)

Lemma report_run_eq (mapper realm level report_type : string)
    (inner : Dict Value) (run : string * list MetadataInstance) (c : Cache) :
  report_run mapper realm level report_type inner run c
  = mkResult
      [Yield (_create_result_record mapper realm
                (VDict [(level, VDict (stored_runs_of inner run))]) report_type)]
      c (Returned (stored_runs_of inner run)).
Proof. reflexivity. Qed.

(** The loop yields one record per extractor, whatever the number of runs
    of the extractor; it neither loads nor purges, and it returns. *)
Lemma report_extractor_runs_events (mapper realm level report_type : string)
    (inner : Dict Value) (runs : list (string * list MetadataInstance)) (c : Cache) :
  length (events (report_extractor_runs mapper realm level report_type inner runs c))
  = length runs
  /\ final (report_extractor_runs mapper realm level report_type inner runs c) = c
  /\ exists inner',
       outcome (report_extractor_runs mapper realm level report_type inner runs c)
       = Returned inner'.
Proof.
  unfold report_extractor_runs. revert inner.
  induction runs as [|run runs IH]; intros inner; cbn [for_fold].
  - split; [done|]. split; [done|]. by eexists.
  - rewrite (bind_step (St:=Cache) _ _ _ _ _ _ (report_run_eq _ _ _ _ _ _ _)).
    destruct (IH (stored_runs_of inner run)) as (Hlen & Hfin & inner' & Hout).
    cbn [events final outcome length app]. rewrite Hlen.
    split; [done|]. split; [done|]. by exists inner'.
Qed.

(** C2 (what the code does at the input of the claim).  The dataset at
    ["sub/a"] holds two runs of extractor ["E1"], at times 1 and 2; a query
    for ["sub/a"] that reports on datasets yields one record, of type
    ["dataset"], whose metadata lists both runs under ["E1"], the run at
    time 1 first - not one record per run. *)
Theorem dump_two_runs_one_record :
  yielded (dump_from_dataset_tree "git" "." Scenario.one_version (Some Scenario.at_sub_a)
             DATASETS INDIVIDUAL false ∅)
  = [ _create_result_record "git" "."
        (VDict [ ("dataset_level_metadata",
                  VDict [ ("root_dataset_identifier",
                             VStr "00000000-0000-0000-0000-000000000000");
                          ("root_dataset_version", VStr "v1");
                          ("dataset_identifier",
                             VStr "00000000-0000-0000-0000-00000000000a");
                          ("dataset_version", VStr "version-a");
                          ("dataset_path", VStr "sub/a");
                          ("metadata",
                             VDict [ ("E1",
                                      VList [ _create_metadata_instance_record Scenario.run_1;
                                              _create_metadata_instance_record Scenario.run_2 ])
                                   ]) ]) ])
        "dataset" ].
Proof. vm_compute. reflexivity. Qed.

(** ** dump.py: patterns that match nothing *)

Lemma get_matching_paths_missing {V} (t : TreeNode V) (pattern : string)
    (recursive auto_list_root : bool) :
  get_node_at_path t pattern = None ->
  get_matching_paths t [pattern] recursive auto_list_root = ([], [pattern]).
Proof.
  intros H. cbn [get_matching_paths]. unfold match_pattern. by rewrite H.
Qed.

Lemma show_file_tree_metadata_missing
    (mapper realm rid rver dataset_path : string) (n : DatasetTree)
    (mrr : MetadataRootRecord) (ft : FileTree) (file_pattern : string)
    (recursive : bool) (c : Cache) :
  value n = Some mrr -> file_tree mrr = Some ft ->
  get_node_at_path ft file_pattern = None ->
  show_file_tree_metadata mapper realm rid rver dataset_path n file_pattern recursive c
  = mkResult [Warning (file_warning file_pattern mrr mapper realm)]
      (final (purge (FileTreeOf dataset_path) ({[FileTreeOf dataset_path]} ∪ c)))
      (Returned tt).
Proof.
  intros Hn Hft Hmiss. unfold show_file_tree_metadata.
  rewrite Hn. rewrite (bind_pure (St:=Cache) _ _ _ mrr) by reflexivity.
  rewrite (bind_step (St:=Cache) _ _ c [] ({[FileTreeOf dataset_path]} ∪ c) (Some ft))
    by (by rewrite Hft).
  cbn [events final outcome app].
  rewrite (bind_pure (St:=Cache) _ _ _ ft) by reflexivity.
  rewrite (get_matching_paths_missing _ _ _ _ Hmiss).
  reflexivity.
Qed.

(** ** dump.py: the shape of the records *)

Lemma yielded_shaped {A} (r : Result Cache A) :
  Forall shaped (events r) -> Forall is_result_record (yielded r).
Proof.
  unfold yielded. induction (events r) as [|ev evs IH]; intros H; [constructor|].
  apply Forall_cons in H as [Hev Hevs]. cbn [omap list_omap].
  destruct ev; cbn; auto.
Qed.

Lemma instance_record_keys (i : MetadataInstance) :
  is_instance_record (_create_metadata_instance_record i).
Proof. by eexists. Qed.

Lemma report_extractor_runs_shaped (mapper realm level report_type : string)
    (inner : Dict Value) (runs : list (string * list MetadataInstance)) :
  report_type = "dataset" \/ report_type = "file" ->
  all_events shaped (report_extractor_runs mapper realm level report_type inner runs).
Proof.
  intros Htype. apply all_events_for_fold. intros acc run c.
  rewrite report_run_eq. repeat constructor.
  exists mapper, realm, report_type, level, (stored_runs_of acc run), (fst run),
    (map _create_metadata_instance_record (snd run)).
  split; [done|]. split; [done|]. split; [apply dict_get_set_eq|].
  apply Forall_map, Forall_forall. intros i _. apply instance_record_keys.
Qed.

Lemma load_object_shaped {A} (k : ConnectorId) (o : A) : all_events shaped (load_object k o).
Proof. apply all_events_bind; [apply all_events_modify | intros; apply all_events_ret]. Qed.

Lemma show_dataset_metadata_shaped mapper realm rid rver dataset_path n :
  all_events shaped (show_dataset_metadata mapper realm rid rver dataset_path n).
Proof.
  unfold show_dataset_metadata.
  apply all_events_bind; [apply all_events_attr | intros mrr].
  apply all_events_bind; [apply load_object_shaped | intros dlm].
  apply all_events_bind; [apply all_events_attr | intros md].
  apply all_events_bind; [apply report_extractor_runs_shaped; by left | intros _].
  apply all_events_modify.
Qed.

Lemma show_file_tree_metadata_shaped mapper realm rid rver dataset_path n pattern recursive :
  all_events shaped
    (show_file_tree_metadata mapper realm rid rver dataset_path n pattern recursive).
Proof.
  unfold show_file_tree_metadata.
  apply all_events_bind; [apply all_events_attr | intros mrr].
  apply all_events_bind; [apply load_object_shaped | intros oft].
  apply all_events_bind; [apply all_events_attr | intros ft].
  destruct (get_matching_paths ft [pattern] recursive false) as [matches not_found].
  apply all_events_bind.
  { apply all_events_for_each. intros missing. by apply all_events_emit. }
  intros _. apply all_events_bind; [|intros _; apply all_events_modify].
  apply all_events_for_each. intros m.
  destruct (value (node m)) as [md|]; [|apply all_events_ret].
  apply all_events_bind; [apply load_object_shaped | intros md'].
  apply all_events_bind; [apply report_extractor_runs_shaped; by right | intros _].
  apply all_events_ret.
Qed.

(** C7 (as amended).  Every record that [dump_from_dataset_tree] yields
    has the keys status, action, source (with mapper and realm), type and
    metadata, its type is ["dataset"] or ["file"], and every per-instance
    mapping under its metadata has exactly the keys extraction_time,
    extraction_agent, extractor_version, extractor_parameter and
    extractor_result. *)
Theorem dump_records_have_the_result_shape
    (mapper realm : string) (l : TreeVersionList) (p : option TreeMetadataPath)
    (report_on : ReportOn) (report_policy : ReportPolicy) (recursive : bool) (c : Cache) :
  Forall is_result_record
    (yielded (dump_from_dataset_tree mapper realm l p report_on report_policy recursive c)).
Proof.
  apply yielded_shaped. revert c.
  change (all_events shaped
            (dump_from_dataset_tree mapper realm l p report_on report_policy recursive)).
  unfold dump_from_dataset_tree.
  apply all_events_bind; [apply all_events_assert | intros _].
  apply all_events_bind.
  { intros c. rewrite requested_root_dataset_version_pure. constructor. }
  intros v. apply all_events_bind.
  { unfold get_dataset_tree. destruct (dict_get v l);
      [apply all_events_ret | apply all_events_raise]. }
  intros fetched. unfold report_dataset_tree.
  apply all_events_bind; [apply all_events_attr | intros root_mrr].
  destruct (get_matching_paths _ _ _ _) as [matches not_found].
  apply all_events_bind.
  { apply all_events_for_each. intros missing. by apply all_events_emit. }
  intros _. apply all_events_for_each. intros m. unfold report_match.
  apply all_events_bind; [|intros _]; apply all_events_when.
  - apply show_dataset_metadata_shaped.
  - apply show_file_tree_metadata_shaped.
Qed.

(** C7 (as stated) fails: the per-instance mapping of a run has the key
    ["extractor_result"]; it has no key ["extractor_result_reference"]. *)
Lemma instance_record_has_no_result_reference_key :
  exists d, _create_metadata_instance_record Scenario.run_1 = VDict d
    /\ dict_keys d = [ "extraction_time"; "extraction_agent"; "extractor_version";
                       "extractor_parameter"; "extractor_result" ]
    /\ ~ In "extractor_result_reference" (dict_keys d)
    /\ In (_create_result_record "git" "."
             (VDict [ ("dataset_level_metadata",
                       VDict [ ("root_dataset_identifier",
                                  VStr "00000000-0000-0000-0000-000000000000");
                               ("root_dataset_version", VStr "v1");
                               ("dataset_identifier",
                                  VStr "00000000-0000-0000-0000-00000000000a");
                               ("dataset_version", VStr "version-a");
                               ("dataset_path", VStr "sub/a");
                               ("metadata",
                                  VDict [ ("E1",
                                           VList [ VDict d;
                                                   _create_metadata_instance_record
                                                     Scenario.run_2 ]) ]) ]) ])
             "dataset")
          (yielded (dump_from_dataset_tree "git" "." Scenario.one_version
                      (Some Scenario.at_sub_a) DATASETS INDIVIDUAL false ∅)).
Proof.
  eexists. split; [reflexivity|]. split; [reflexivity|]. split.
  - cbn. intros H. repeat (destruct H as [H|H]; [discriminate H|]). exact H.
  - vm_compute. left. reflexivity.
Qed.

(** ** dump.py: purging *)

Lemma purge_unloads (k : ConnectorId) : ensures (unloaded k) (purge k).
Proof.
  intros c a _. unfold unloaded, purge, modify. cbn [final].
  rewrite elem_of_filter. intros [H _]. apply H. by left.
Qed.

Lemma purge_keeps_unloaded (k k' : ConnectorId) : keeps (unloaded k) (purge k').
Proof.
  intros c H. unfold unloaded, purge, modify in *. cbn [final].
  rewrite elem_of_filter. tauto.
Qed.

Lemma load_object_keeps_unloaded {A} (k k' : ConnectorId) (o : A) :
  k <> k' -> keeps (unloaded k) (load_object k' o).
Proof.
  intros Hne. apply keeps_bind; [|intros; apply keeps_ret].
  intros c H. unfold unloaded, modify in *. cbn [final].
  rewrite elem_of_union, elem_of_singleton. intros [E|E]; [congruence | done].
Qed.

Lemma report_extractor_runs_keeps I mapper realm level report_type inner runs :
  keeps I (report_extractor_runs mapper realm level report_type inner runs).
Proof.
  apply keeps_for_fold. intros acc run c H. by rewrite report_run_eq.
Qed.

Lemma show_dataset_metadata_purges mapper realm rid rver dataset_path n :
  ensures (unloaded (DatasetLevelMetadataOf dataset_path))
    (show_dataset_metadata mapper realm rid rver dataset_path n).
Proof.
  unfold show_dataset_metadata.
  apply ensures_bind_last; intros mrr. apply ensures_bind_last; intros dlm.
  apply ensures_bind_last; intros md. apply ensures_bind_last; intros _.
  apply purge_unloads.
Qed.

Lemma show_file_tree_metadata_purges mapper realm rid rver dataset_path n pattern recursive :
  ensures (unloaded (FileTreeOf dataset_path))
    (show_file_tree_metadata mapper realm rid rver dataset_path n pattern recursive).
Proof.
  unfold show_file_tree_metadata.
  apply ensures_bind_last; intros mrr. apply ensures_bind_last; intros oft.
  apply ensures_bind_last; intros ft.
  destruct (get_matching_paths ft [pattern] recursive false) as [matches not_found].
  apply ensures_bind_last; intros _. apply ensures_bind_last; intros _.
  apply purge_unloads.
Qed.

Lemma show_file_tree_metadata_keeps mapper realm rid rver dataset_path n pattern recursive d :
  keeps (unloaded (DatasetLevelMetadataOf d))
    (show_file_tree_metadata mapper realm rid rver dataset_path n pattern recursive).
Proof.
  unfold show_file_tree_metadata.
  apply keeps_bind; [apply keeps_attr | intros mrr].
  apply keeps_bind; [by apply load_object_keeps_unloaded | intros oft].
  apply keeps_bind; [apply keeps_attr | intros ft].
  destruct (get_matching_paths ft [pattern] recursive false) as [matches not_found].
  apply keeps_bind.
  { apply keeps_for_each. intros missing. apply keeps_emit. }
  intros _. apply keeps_bind; [|intros _; apply purge_keeps_unloaded].
  apply keeps_for_each. intros m.
  destruct (value (node m)) as [md|]; [|apply keeps_ret].
  apply keeps_bind; [by apply load_object_keeps_unloaded | intros md'].
  apply keeps_bind; [apply report_extractor_runs_keeps | intros _].
  apply keeps_ret.
Qed.

Lemma report_match_purges mapper realm rid rver report_on local_path recursive
    (m : MatchRecord MetadataRootRecord) :
  ensures (fun c =>
             (reports_datasets report_on = true ->
              unloaded (DatasetLevelMetadataOf (path m)) c)
             /\ (reports_files report_on = true -> unloaded (FileTreeOf (path m)) c))
    (report_match mapper realm rid rver report_on local_path recursive m).
Proof.
  intros c a H. unfold report_match in *. split; intros Hr; rewrite Hr in H;
    cbn [when] in H; rewrite Hr; cbn [when].
  - revert c a H. apply ensures_bind_keeps.
    + apply show_dataset_metadata_purges.
    + intros _. apply keeps_when, show_file_tree_metadata_keeps.
  - revert c a H. apply ensures_bind_last. intros _.
    apply show_file_tree_metadata_purges.
Qed.

(** C8.  In the loop of [dump_from_dataset_tree] over the matches, when
    the report on a match has returned - all its records have been yielded
    and the next match, if any, is about to be processed - the connector of
    the dataset-level metadata of the matched node holds no object if
    datasets are reported on, and the connector of its file tree holds no
    object if files are reported on. *)
Theorem matched_node_is_purged_before_the_next
    (mapper realm rid rver : string) (report_on : ReportOn) (local_path : string)
    (recursive : bool) (before : list (MatchRecord MetadataRootRecord))
    (m : MatchRecord MetadataRootRecord) (c : Cache) :
  let r := for_each (before ++ [m])
             (report_match mapper realm rid rver report_on local_path recursive) c in
  outcome r = Returned tt ->
  (reports_datasets report_on = true -> (DatasetLevelMetadataOf (path m) ∉ final r))
  /\ (reports_files report_on = true -> (FileTreeOf (path m) ∉ final r)).
Proof.
  intros r. subst r. rewrite for_each_app. intros Hout.
  refine (ensures_bind_last (St:=Cache)
            (fun c => (reports_datasets report_on = true ->
                       unloaded (DatasetLevelMetadataOf (path m)) c)
                      /\ (reports_files report_on = true ->
                          unloaded (FileTreeOf (path m)) c)) _ _ _ c tt Hout).
  intros _. cbn [for_each]. apply ensures_bind_keeps.
  - apply report_match_purges.
  - intros _. apply keeps_ret.
Qed.

Lemma matched_node_is_purged_before_the_next_witness :
  let r := for_each ([Build_MatchRecord "" (Scenario.tree "v1")]
                     ++ [Build_MatchRecord "sub/a" (Node (Some Scenario.record_a) [])])
             (report_match "git" "." "00000000-0000-0000-0000-000000000000" "v1" ALL
                "file.txt" false) ∅ in
  outcome r = Returned tt
  /\ (DatasetLevelMetadataOf "sub/a" ∉ final r)
  /\ (FileTreeOf "sub/a" ∉ final r).
Proof.
  pose proof (matched_node_is_purged_before_the_next "git" "."
                "00000000-0000-0000-0000-000000000000" "v1" ALL "file.txt" false
                [Build_MatchRecord "" (Scenario.tree "v1")]
                (Build_MatchRecord "sub/a" (Node (Some Scenario.record_a) [])) ∅) as H.
  cbv zeta in H. intros r. subst r.
  assert (Hret : outcome
                   (for_each ([Build_MatchRecord "" (Scenario.tree "v1")]
                              ++ [Build_MatchRecord "sub/a" (Node (Some Scenario.record_a) [])])
                      (report_match "git" "." "00000000-0000-0000-0000-000000000000" "v1"
                         ALL "file.txt" false) ∅) = Returned tt)
    by (vm_compute; reflexivity).
  split; [exact Hret|].
  destruct (H Hret) as [H1 H2]. split; [apply H1 | apply H2]; reflexivity.
Defined.

End DumpFacts.

(** ** extract.py: the write pipeline *)

Section ExtractFacts.
Import Model Extract.






(** *** The steps of a write *)

Lemma backend_call_ok (c : BackendCall) (b : Backend) :
  fails b c = false -> backend_call c b = mkResult [Call c] b (Returned tt).
Proof.
  intros H. unfold backend_call, bind, emit, get, ret, raise.
  cbn [outcome final events]. rewrite H. reflexivity.
Qed.

Lemma backend_call_fail (c : BackendCall) (b : Backend) :
  fails b c = true -> backend_call c b = mkResult [Call c] b (Raised failure).
Proof.
  intros H. unfold backend_call, bind, emit, get, ret, raise.
  cbn [outcome final events]. rewrite H. reflexivity.
Qed.

Lemma bind_get {A} (k : Backend -> M Backend A) s : bind get k s = k s s.
Proof. by apply bind_pure. Qed.

Lemma bind_put {A} (k : unit -> M Backend A) s s' : bind (put s') k s = k tt s'.
Proof. unfold bind, put. cbn [outcome final events app]. apply result_eta. Qed.

Lemma bind_modify {A} (k : unit -> M Backend A) f s : bind (modify f) k s = k tt (f s).
Proof. unfold bind, modify. cbn [outcome final events app]. apply result_eta. Qed.

Lemma bind_time {A} (k : Z -> M Backend A) s : bind time k s = k (clock s) (tick s).
Proof.
  unfold time. rewrite bind_assoc, bind_get, bind_assoc, bind_put.
  by rewrite (bind_ret_l (St:=Backend)).
Qed.

Lemma bind_call {A} c (k : unit -> M Backend A) s :
  bind (backend_call c) k s
  = if fails s c then mkResult [Call c] s (Raised failure) else prepend [Call c] (k tt s).
Proof.
  destruct (fails s c) eqn:E.
  - by rewrite (bind_stop _ _ _ _ _ _ (backend_call_fail _ _ E)).
  - by rewrite (bind_step _ _ _ _ _ _ (backend_call_ok _ _ E)).
Qed.

Lemma bind_lock_backend {A} (k : unit -> M Backend A) s :
  locked s = false ->
  bind lock_backend k s
  = if fails s lock_backend_call
    then mkResult [Call lock_backend_call] s (Raised failure)
    else prepend [Call lock_backend_call] (k tt (set_locked true s)).
Proof.
  intros Hl. unfold lock_backend. rewrite bind_assoc, bind_call.
  destruct (fails s lock_backend_call); [reflexivity|].
  f_equal; by rewrite bind_assoc, bind_get, Hl, bind_put.
Qed.

Lemma bind_get_top_nodes {A} ep
    (k : TreeVersionList * UUIDSet * MetadataRootRecord -> M Backend A) s :
  bind (get_top_nodes_and_metadata_root_record (source_dataset_id ep)
          (source_primary_data_version ep) (dataset_tree_path ep)) k s
  = if fails s get_top_nodes_call
    then mkResult [Call get_top_nodes_call] s (Raised failure)
    else prepend [Call get_top_nodes_call] (k (loaded_top s ep) (tick s)).
Proof.
  unfold get_top_nodes_and_metadata_root_record. rewrite bind_assoc, bind_call.
  destruct (fails s get_top_nodes_call); [reflexivity|].
  f_equal; by rewrite bind_assoc, bind_get, bind_assoc, bind_time, (bind_ret_l (St:=Backend)).
Qed.

Lemma bind_add_metadata_source {A} m ep result src (k : Metadata -> M Backend A) s :
  bind (add_metadata_source m ep result src) k s
  = if fails s add_extractor_run_call
    then mkResult [Call add_extractor_run_call] (tick s) (Raised failure)
    else prepend [Call add_extractor_run_call]
           (k (with_new_run (clock s) ep result src m) (tick s)).
Proof.
  unfold add_metadata_source. rewrite bind_assoc, bind_time, bind_assoc, bind_call.
  change (fails (tick s)) with (fails s).
  destruct (fails s add_extractor_run_call); [reflexivity|].
  f_equal; by rewrite (bind_ret_l (St:=Backend)).
Qed.

Lemma bind_guarded {A} c f (k : unit -> M Backend A) s :
  bind (bind (backend_call c) (fun _ => modify f)) k s
  = if fails s c then mkResult [Call c] s (Raised failure)
    else prepend [Call c] (k tt (f s)).
Proof.
  rewrite bind_assoc, bind_call. destruct (fails s c); [reflexivity|].
  f_equal; by rewrite bind_modify.
Qed.

Lemma guarded_last c f s :
  bind (backend_call c) (fun _ => modify f) s
  = if fails s c then mkResult [Call c] s (Raised failure)
    else mkResult [Call c] (f s) (Returned tt).
Proof. rewrite bind_call. by destruct (fails s c). Qed.

Lemma commit_eq (l : TreeVersionList) (u : UUIDSet) (s : Backend) :
  bind (save_tree_version_list l)
    (fun _ => bind (save_uuid_set u)
                (fun _ => bind flush_object_references (fun _ => unlock_backend))) s
  = commit l u s.
Proof.
  unfold commit, save_tree_version_list, save_uuid_set, flush_object_references,
    unlock_backend.
  rewrite bind_guarded.
  destruct (fails s save_tree_version_list_call); [reflexivity|]. f_equal.
  rewrite bind_guarded. change (fails (set_stored_tree_version_list l s)) with (fails s).
  destruct (fails s save_uuid_set_call); [reflexivity|]. f_equal.
  rewrite bind_guarded. change (fails (set_stored_uuid_set u _)) with (fails s).
  destruct (fails s flush_object_references_call); [reflexivity|]. f_equal.
  rewrite guarded_last. change (fails (set_flushed _)) with (fails s).
  destruct (fails s unlock_backend_call); reflexivity.
Qed.

(** A dataset-level write, call by call. *)
Lemma add_dataset_metadata_source_eq ep result src b :
  locked b = false ->
  add_dataset_metadata_source ep result src b
  = if fails b lock_backend_call then mkResult [Call lock_backend_call] b (Raised failure)
    else prepend [Call lock_backend_call]
     (if fails b get_top_nodes_call
      then mkResult [Call get_top_nodes_call] (set_locked true b) (Raised failure)
      else prepend [Call get_top_nodes_call]
       (if fails b add_extractor_run_call
        then mkResult [Call add_extractor_run_call] (tick (tick (set_locked true b)))
               (Raised failure)
        else prepend [Call add_extractor_run_call]
               (commit (written_version_list b ep result src)
                  (snd (fst (loaded_top b ep))) (tick (tick (set_locked true b)))))).
Proof.
  intros Hl. unfold add_dataset_metadata_source.
  rewrite (bind_lock_backend _ _ Hl).
  destruct (fails b lock_backend_call); [reflexivity|]. f_equal.
  rewrite bind_get_top_nodes. change (fails (set_locked true b)) with (fails b).
  destruct (fails b get_top_nodes_call); [reflexivity|]. f_equal.
  unfold written_version_list.
  change (loaded_top b ep) with (loaded_top (set_locked true b) ep).
  destruct (loaded_top (set_locked true b) ep) as [[l u] mrr]. cbn [fst snd].
  rewrite bind_add_metadata_source.
  change (fails (tick (set_locked true b))) with (fails b).
  destruct (fails b add_extractor_run_call); [reflexivity|]. f_equal.
  apply commit_eq.
Qed.

(** A file-level write, call by call. *)
Lemma add_file_metadata_source_eq ep result src b :
  locked b = false ->
  add_file_metadata_source ep result src b
  = if fails b lock_backend_call then mkResult [Call lock_backend_call] b (Raised failure)
    else prepend [Call lock_backend_call]
     (if fails b get_top_nodes_call
      then mkResult [Call get_top_nodes_call] (set_locked true b) (Raised failure)
      else prepend [Call get_top_nodes_call]
       (match located_file_metadata b ep with
        | None => mkResult [] (tick (set_locked true b)) (Raised AttributeError)
        | Some m =>
            if fails b add_extractor_run_call
            then mkResult [Call add_extractor_run_call] (tick (tick (set_locked true b)))
                   (Raised failure)
            else prepend [Call add_extractor_run_call]
                   (commit (file_written_version_list b ep result src m)
                      (snd (fst (loaded_top b ep))) (tick (tick (set_locked true b))))
        end)).
Proof.
  intros Hl. unfold add_file_metadata_source.
  rewrite (bind_lock_backend _ _ Hl).
  destruct (fails b lock_backend_call); [reflexivity|]. f_equal.
  rewrite bind_get_top_nodes. change (fails (set_locked true b)) with (fails b).
  destruct (fails b get_top_nodes_call); [reflexivity|]. f_equal.
  unfold located_file_metadata, file_written_version_list.
  change (loaded_top b ep) with (loaded_top (set_locked true b) ep).
  destruct (loaded_top (set_locked true b) ep) as [[l u] mrr]. cbn [fst snd].
  destruct (get_node_at_path (default empty_node (file_tree mrr)) (file_tree_path ep))
    as [n|].
  - destruct (value n) as [m|]; [|reflexivity].
    cbn [attr]. rewrite (bind_ret_l (St:=Backend)). rewrite bind_add_metadata_source.
    change (fails (tick (set_locked true b))) with (fails b).
    destruct (fails b add_extractor_run_call); [reflexivity|]. f_equal.
    apply commit_eq.
  - rewrite (bind_ret_l (St:=Backend)). rewrite bind_add_metadata_source.
    change (fails (tick (set_locked true b))) with (fails b).
    destruct (fails b add_extractor_run_call); [reflexivity|]. f_equal.
    apply commit_eq.
Qed.

(** *** Locking *)

Ltac backend_simpl :=
  cbn [prepend events final outcome app locked stored_tree_version_list stored_uuid_set
       set_locked set_flushed set_stored_uuid_set set_stored_tree_version_list tick] in *.

Lemma commit_facts (l : TreeVersionList) (u : UUIDSet) (s : Backend) :
  locked s = true ->
  (outcome (commit l u s) = Returned tt ->
   events (commit l u s)
   = [ Call save_tree_version_list_call; Call save_uuid_set_call;
       Call flush_object_references_call; Call unlock_backend_call ]
   /\ locked (final (commit l u s)) = false)
  /\ (forall e, outcome (commit l u s) = Raised e -> locked (final (commit l u s)) = true)
  /\ (forall e, outcome (commit l u s) = Raised e ->
        ~ In (Call save_uuid_set_call) (events (commit l u s)) ->
        stored_tree_version_list (final (commit l u s)) = stored_tree_version_list s
        /\ stored_uuid_set (final (commit l u s)) = stored_uuid_set s).
Proof.
  intros Hl. unfold commit.
  destruct (fails s save_tree_version_list_call); backend_simpl.
  { split; [discriminate|]. split; [done|]. done. }
  destruct (fails s save_uuid_set_call); backend_simpl.
  { split; [discriminate|]. split; [done|]. intros e _ H. exfalso. apply H. cbn. auto. }
  destruct (fails s flush_object_references_call); backend_simpl.
  { split; [discriminate|]. split; [done|]. intros e _ H. exfalso. apply H. cbn. auto. }
  destruct (fails s unlock_backend_call); backend_simpl.
  { split; [discriminate|]. split; [done|]. intros e _ H. exfalso. apply H. cbn. auto. }
  split; [done|]. split; discriminate.
Qed.

Lemma write_locking (b : Backend) (rest : Result Backend unit) :
  locked b = false ->
  let r := if fails b lock_backend_call
           then mkResult [Call lock_backend_call] b (Raised failure)
           else prepend [Call lock_backend_call]
                  (if fails b get_top_nodes_call
                   then mkResult [Call get_top_nodes_call] (set_locked true b)
                          (Raised failure)
                   else prepend [Call get_top_nodes_call] rest) in
  (outcome rest = Returned tt ->
   events rest = [ Call add_extractor_run_call; Call save_tree_version_list_call;
                   Call save_uuid_set_call; Call flush_object_references_call;
                   Call unlock_backend_call ]
   /\ locked (final rest) = false) ->
  (forall e, outcome rest = Raised e -> locked (final rest) = true) ->
  (forall e, outcome rest = Raised e -> ~ In (Call save_uuid_set_call) (events rest) ->
     stored_tree_version_list (final rest) = stored_tree_version_list b
     /\ stored_uuid_set (final rest) = stored_uuid_set b) ->
  (exists evs, events r = Call lock_backend_call :: evs)
  /\ (outcome r = Returned tt -> events r = write_calls /\ locked (final r) = false)
  /\ (forall e, outcome r = Raised e -> fails b lock_backend_call = false ->
        locked (final r) = true)
  /\ (forall e, outcome r = Raised e -> ~ In (Call save_uuid_set_call) (events r) ->
        stored_tree_version_list (final r) = stored_tree_version_list b
        /\ stored_uuid_set (final r) = stored_uuid_set b).
Proof.
  intros Hl r Hret Hraise Hstore. subst r.
  destruct (fails b lock_backend_call); backend_simpl.
  { split; [by eexists|]. split; [discriminate|]. split; [discriminate|]. done. }
  destruct (fails b get_top_nodes_call); backend_simpl.
  { split; [by eexists|]. split; [discriminate|]. split; [done|]. done. }
  split; [by eexists|]. split; [|split].
  - intros H. destruct (Hret H) as [-> ->]. done.
  - intros e H _. by eapply Hraise.
  - intros e H Hin. eapply Hstore; [done|]. intros Hin'. apply Hin. cbn. auto.
Qed.

(** C4 (as amended).  A write, dataset-level or file-level, on a realm
    that is not locked: the first thing it does is to ask for the lock;
    if it returns, it has made its calls in the order lock, load, append,
    save, save, flush, unlock, and the lock is released; if it raises
    after it got the lock, the lock is still held; and if it raises before
    the UUID set is saved, the stored version list and UUID set are those
    from before the write. *)
Theorem write_locks_first_and_unlocks_only_on_success
    (ep : ExtractionParameter) (result : ExtractorResult) (metadata_source : Value)
    (b : Backend) (r : Result Backend unit) :
  locked b = false ->
  r = add_dataset_metadata_source ep result metadata_source b
  \/ r = add_file_metadata_source ep result metadata_source b ->
  (exists evs, events r = Call lock_backend_call :: evs)
  /\ (outcome r = Returned tt -> events r = write_calls /\ locked (final r) = false)
  /\ (forall e, outcome r = Raised e -> fails b lock_backend_call = false ->
        locked (final r) = true)
  /\ (forall e, outcome r = Raised e -> ~ In (Call save_uuid_set_call) (events r) ->
        stored_tree_version_list (final r) = stored_tree_version_list b
        /\ stored_uuid_set (final r) = stored_uuid_set b).
Proof.
  intros Hl [-> | ->].
  - rewrite (add_dataset_metadata_source_eq _ _ _ _ Hl).
    apply (write_locking b); [done| | |].
    + destruct (fails b add_extractor_run_call); backend_simpl; [discriminate|].
      intros H.
      by destruct (proj1 (commit_facts _ _ (tick (tick (set_locked true b))) eq_refl) H)
        as [-> ->].
    + destruct (fails b add_extractor_run_call); backend_simpl; [done|].
      apply (commit_facts _ _ (tick (tick (set_locked true b))) eq_refl).
    + destruct (fails b add_extractor_run_call); backend_simpl; [done|].
      intros e H Hin.
      apply (proj2 (proj2 (commit_facts _ _ (tick (tick (set_locked true b))) eq_refl)) e H).
      intros Hin'. apply Hin. cbn. auto.
  - rewrite (add_file_metadata_source_eq _ _ _ _ Hl).
    apply (write_locking b); [done| | |];
      (destruct (located_file_metadata b ep); backend_simpl; [|done]).
    + destruct (fails b add_extractor_run_call); backend_simpl; [discriminate|].
      intros H.
      by destruct (proj1 (commit_facts _ _ (tick (tick (set_locked true b))) eq_refl) H)
        as [-> ->].
    + destruct (fails b add_extractor_run_call); backend_simpl; [done|].
      apply (commit_facts _ _ (tick (tick (set_locked true b))) eq_refl).
    + destruct (fails b add_extractor_run_call); backend_simpl; [done|].
      intros e H Hin.
      apply (proj2 (proj2 (commit_facts _ _ (tick (tick (set_locked true b))) eq_refl)) e H).
      intros Hin'. apply Hin. cbn. auto.
Qed.

Lemma write_locks_first_and_unlocks_only_on_success_witness :
  let r := add_dataset_metadata_source (Scenario.parameters UnknownExtractorClass)
             Scenario.result_1 (ImmediateMetadataSource (VStr "first"))
             (Scenario.failing_at get_top_nodes_call) in
  (exists evs, events r = Call lock_backend_call :: evs)
  /\ locked (final r) = true
  /\ stored_tree_version_list (final r) = None.
Proof.
  intros r.
  destruct (write_locks_first_and_unlocks_only_on_success
              (Scenario.parameters UnknownExtractorClass) Scenario.result_1
              (ImmediateMetadataSource (VStr "first"))
              (Scenario.failing_at get_top_nodes_call) r eq_refl (or_introl eq_refl))
    as (H1 & _ & H3 & H4).
  split; [exact H1|]. split.
  - apply (H3 failure); reflexivity.
  - apply (H4 failure); [reflexivity|].
    vm_compute. intros [H|[H|[]]]; discriminate H.
Defined.

(** C4 (as stated) fails: a write in which saving the UUID set fails
    raises with the lock still held - [unlock_backend] is never called -
    and with the new version list already stored. *)
Lemma failed_write_keeps_the_lock :
  let b := Scenario.failing_at save_uuid_set_call in
  let r := add_dataset_metadata_source (Scenario.parameters UnknownExtractorClass)
             Scenario.result_1 (ImmediateMetadataSource (VStr "first")) b in
  locked b = false
  /\ outcome r = Raised failure
  /\ events r = [ Call lock_backend_call; Call get_top_nodes_call;
                  Call add_extractor_run_call; Call save_tree_version_list_call;
                  Call save_uuid_set_call ]
  /\ locked (final r) = true
  /\ stored_tree_version_list b = None
  /\ stored_tree_version_list (final r) <> None.
Proof.
  intros b r. split; [reflexivity|]. split; [reflexivity|]. split; [reflexivity|].
  split; [reflexivity|]. split; [reflexivity|]. vm_compute. discriminate.
Qed.

(** *** Runs accumulate per configuration *)





















(** *** The directory category *)

Lemma perform_dataset_directory ep extractor b :
  get_data_output_category extractor = DIRECTORY ->
  perform_dataset_metadata_extraction ep extractor b
  = mkResult [] b (Raised NotImplementedError).
Proof. intros H. unfold perform_dataset_metadata_extraction. by rewrite H. Qed.

Lemma perform_file_directory ep extractor b :
  get_data_output_category extractor = DIRECTORY ->
  perform_file_metadata_extraction ep extractor b
  = mkResult [] b (Raised NotImplementedError).
Proof. intros H. unfold perform_file_metadata_extraction. by rewrite H. Qed.

Lemma get_file_info_pure (dataset : Dataset) (file_path : string) (b : Backend) :
  get_file_info dataset file_path b
  = mkResult [] b (outcome (get_file_info dataset file_path b)).
Proof.
  unfold get_file_info. destruct (status dataset file_path) as [|st ?]; [done|].
  by destruct (String.eqb (status_state st) "untracked").
Qed.

(** C6 (as amended).  For an extractor of the directory category,
    dataset-level and file-level extraction raise [NotImplementedError]
    before anything is yielded, locked or stored, and the exception leaves
    [meta_extract]: the command ends with it, having yielded no result. *)
Theorem directory_category_raises_not_implemented
    (ep : ExtractionParameter) (extractor : Extractor) (b : Backend) :
  get_data_output_category extractor = DIRECTORY ->
  perform_dataset_metadata_extraction ep extractor b
  = mkResult [] b (Raised NotImplementedError)
  /\ perform_file_metadata_extraction ep extractor b
     = mkResult [] b (Raised NotImplementedError)
  /\ (extractor_class ep = DatasetMetadataExtractorClass extractor ->
      let r := meta_extract None ep b in
      outcome r = Raised NotImplementedError /\ Dump.yielded r = [] /\ final r = b)
  /\ (extractor_class ep = FileMetadataExtractorClass extractor ->
      forall file_info,
        outcome (get_file_info (source_dataset ep) (file_tree_path ep) b)
        = Returned file_info ->
        let r := meta_extract (Some (file_tree_path ep)) ep b in
        file_tree_path ep <> "" -> file_tree_path ep <> "--" ->
        outcome r = Raised NotImplementedError /\ Dump.yielded r = [] /\ final r = b).
Proof.
  intros Hc. split; [by apply perform_dataset_directory|].
  split; [by apply perform_file_directory|]. split.
  - intros He r. subst r. unfold meta_extract, do_dataset_extraction. rewrite He.
    erewrite (bind_step (St:=Backend)) by reflexivity.
    rewrite (perform_dataset_directory _ _ _ Hc). done.
  - intros He file_info Hinfo r Hne1 Hne2. subst r.
    unfold meta_extract, do_file_extraction.
    apply String.eqb_neq in Hne1, Hne2. rewrite Hne1, Hne2. cbn [negb andb].
    rewrite He. erewrite (bind_step (St:=Backend)) by reflexivity.
    erewrite (bind_step (St:=Backend) _ _ _ _ _ file_info).
    2: { rewrite get_file_info_pure. by rewrite Hinfo. }
    rewrite (perform_file_directory _ _ _ Hc). done.
Qed.

Lemma directory_category_raises_not_implemented_witness :
  let ep := Scenario.parameters
              (DatasetMetadataExtractorClass (Scenario.extractor DIRECTORY)) in
  let r := meta_extract None ep empty_backend in
  outcome r = Raised NotImplementedError /\ Dump.yielded r = [] /\ final r = empty_backend.
Proof.
  intros ep r.
  apply (proj1 (proj2 (proj2 (directory_category_raises_not_implemented ep
                                (Scenario.extractor DIRECTORY) empty_backend eq_refl)))).
  reflexivity.
Defined.

(** C6 (as stated) fails: [meta-extract] with a dataset extractor of the
    directory category does not run to its end; the exception is what the
    whole command ends with, after the one log message that precedes the
    extraction. *)
Lemma directory_category_aborts_the_command :
  let ep := Scenario.parameters
              (DatasetMetadataExtractorClass (Scenario.extractor DIRECTORY)) in
  let r := meta_extract None ep empty_backend in
  outcome r <> Returned tt
  /\ outcome r = Raised NotImplementedError
  /\ events r = [Info "extracting dataset level metadata for dataset at /data/super"].
Proof.
  intros ep r. split; [|split]; [|reflexivity|reflexivity].
  intros H. discriminate H.
Qed.

End ExtractFacts.

(** ** extractors/custom_dataset.py *)

Section CustomDatasetFacts.
Import Extract CustomDataset.

Lemma dict_get_not_key {A} (k : string) (d : Dict A) :
  ~ In k (dict_keys d) -> dict_get k d = None.
Proof.
  induction d as [|[k' v] d IH]; intros H; [done|]. cbn [dict_get].
  destruct (String.eqb k k') eqn:E.
  - apply String.eqb_eq in E. subst. exfalso. apply H. cbn. auto.
  - apply IH. intros Hin. apply H. cbn. auto.
Qed.

(** After [d.update(m)], a key of [m] has the value that [m] gives it, and
    any other key has the value it had in [d]. *)
Lemma dict_get_update {A} (k : string) (d m : Dict A) :
  NoDup (dict_keys m) ->
  dict_get k (dict_update d m)
  = match dict_get k m with Some v => Some v | None => dict_get k d end.
Proof.
  unfold dict_update. revert d. induction m as [|[k0 v0] m IH]; intros d Hnd; [done|].
  cbn [fold_left fst snd dict_get]. apply NoDup_cons in Hnd as [Hk0 Hnd].
  rewrite (IH _ Hnd). destruct (String.eqb k k0) eqn:E.
  - apply String.eqb_eq in E. subst k0.
    rewrite dict_get_not_key; [apply dict_get_set_eq|].
    intros Hin. apply Hk0. by apply list_elem_of_In.
  - rewrite dict_get_set_ne; [done|]. intros ->. by rewrite String.eqb_refl in E.
Qed.

Lemma dict_get_updates (k : string) (objects : list (Dict Value)) (d : Dict Value) :
  Forall (fun object => NoDup (dict_keys object)) objects ->
  dict_get k (fold_left dict_update objects d)
  = fold_left (fun found object =>
                 match dict_get k object with Some v => Some v | None => found end)
              objects (dict_get k d).
Proof.
  revert d. induction objects as [|o objects IH]; intros d H; [done|].
  apply Forall_cons in H as [Ho H]. cbn [fold_left].
  by rewrite (IH _ H), (dict_get_update _ _ _ Ho).
Qed.

Lemma load_sources (ds : Dataset) (srcfiles : list string) (dsmeta : Dict Value)
    (objects : list (Dict Value)) :
  load_all ds srcfiles = Some objects ->
  for_fold srcfiles dsmeta
    (fun dsmeta srcfile =>
       match jsonload ds (joinpath (path ds) srcfile) with
       | Some meta => ret (dict_update dsmeta meta)
       | None => raise (JSONDecodeError (joinpath (path ds) srcfile))
       end) tt
  = mkResult [] tt (Returned (fold_left dict_update objects dsmeta)).
Proof.
  revert dsmeta objects. induction srcfiles as [|f rest IH]; intros dsmeta objects.
  - by intros [= <-].
  - cbn [for_fold load_all].
    destruct (jsonload ds (joinpath (path ds) f)) as [o|]; [|done].
    destruct (load_all ds rest) as [os|]; [|done]. intros [= <-].
    rewrite (bind_ret_l (St:=unit)). cbn [fold_left]. by apply IH.
Qed.

Lemma extract_eq (ds : Dataset) (parameter : option (gmap string string))
    (objects : list (Dict Value)) :
  load_all ds (fst (_get_dsmeta_srcfiles ds)) = Some objects ->
  extract ds parameter tt
  = mkResult [] tt (Returned (result_with parameter (fold_left dict_update objects []))).
Proof.
  intros Hload. unfold extract.
  rewrite (bind_pure (St:=unit) _ _ _ (fold_left dict_update objects [])); [done|].
  unfold get_metadata. destruct (_get_dsmeta_srcfiles ds) as [srcfiles cfg_srcfiles].
  by apply load_sources.
Qed.

(** C9.  [extract] never reports a failed extraction: a result that it
    returns has [extraction_success] true and the result dictionary with
    type "dataset" and status "ok".  The source files are the configured
    ones if any is configured; when all source files load, [extract]
    returns, and its immediate data is the dictionary obtained by updating
    the empty dictionary with the loaded objects from left to right, in
    which a key has the value of the last object that has it; when no
    source is configured and the default file does not exist, [extract]
    returns the empty dictionary. *)
Theorem custom_dataset_extract_folds_the_sources
    (ds : Dataset) (parameter : option (gmap string string)) :
  (forall result,
     outcome (extract ds parameter tt) = Returned result ->
     extraction_success result = true
     /\ datalad_result_dict result = [ ("type", VStr "dataset"); ("status", VStr "ok") ])
  /\
  (ensure_list (custom_dataset_source ds) <> [] ->
   fst (_get_dsmeta_srcfiles ds) = ensure_list (custom_dataset_source ds))
  /\
  (forall objects,
     load_all ds (fst (_get_dsmeta_srcfiles ds)) = Some objects ->
     extract ds parameter tt
     = mkResult [] tt (Returned (result_with parameter (fold_left dict_update objects [])))
     /\ (Forall (fun object => NoDup (dict_keys object)) objects ->
         forall k, dict_get k (fold_left dict_update objects []) = last_value k objects))
  /\
  (ensure_list (custom_dataset_source ds) = [] ->
   exists_or_is_symlink ds (joinpath (joinpath (path ds) ".metadata") "dataset.json")
   = false ->
   extract ds parameter tt = mkResult [] tt (Returned (result_with parameter []))).
Proof.
  split; [|split; [|split]].
  - intros result. unfold extract, bind.
    destruct (outcome (get_metadata ds tt)); cbn [outcome]; [|discriminate].
    by intros [= <-].
  - unfold _get_dsmeta_srcfiles. cbn [fst].
    by destruct (ensure_list (custom_dataset_source ds)).
  - intros objects Hload. split.
    + by apply extract_eq.
    + intros Hnd k. by rewrite dict_get_updates.
  - intros Hcfg Hdef. apply (extract_eq ds parameter []).
    unfold _get_dsmeta_srcfiles. by rewrite Hcfg, Hdef.
Qed.

Lemma custom_dataset_extract_folds_the_sources_witness :
  outcome (extract Scenario.custom_dataset None tt)
  = Returned (result_with None [ ("name", VStr "from b"); ("license", VStr "CC0") ])
  /\ dict_get "name"
       (fold_left dict_update
          [ [ ("name", VStr "from a"); ("license", VStr "CC0") ];
            [ ("name", VStr "from b") ] ] [])
     = Some (VStr "from b")
  /\ extract Scenario.bare_dataset None tt = mkResult [] tt (Returned (result_with None [])).
Proof.
  destruct (custom_dataset_extract_folds_the_sources Scenario.custom_dataset None)
    as (_ & _ & H3 & _).
  destruct (H3 [ [ ("name", VStr "from a"); ("license", VStr "CC0") ];
                 [ ("name", VStr "from b") ] ] eq_refl) as [Hex Hlast].
  split; [by rewrite Hex|]. split.
  - rewrite Hlast; [reflexivity|].
    repeat (apply Forall_cons; split); [| |apply Forall_nil_2].
    + apply NoDup_cons. split; [|apply NoDup_singleton].
      intros H. apply list_elem_of_In in H. destruct H as [H|[]]. discriminate H.
    + apply NoDup_singleton.
  - apply (custom_dataset_extract_folds_the_sources Scenario.bare_dataset None);
      reflexivity.
Defined.

End CustomDatasetFacts.

(** ** extractors/runprov.py *)

Section RunProvFacts.
Import RunProv.

Lemma latest_change_app (p : string) (l1 l2 : list (string * Diff)) :
  latest_change p (l1 ++ l2)
  = match latest_change p l1 with Some g => Some g | None => latest_change p l2 end.
Proof.
  induction l1 as [|[sha d] l1 IH]; [done|]. cbn [app latest_change].
  by destruct (String.eqb (path d) p && negb (String.eqb (mode d) "000000")).
Qed.

Lemma scan_diff_lookup (rec : RunRecord) (path_db : gmap string Generated) (d : Diff)
    (p : string) :
  scan_diff rec path_db d !! p
  = match path_db !! p with
    | Some g => Some g
    | None => latest_change p [(rec_gitshasum rec, d)]
    end.
Proof.
  unfold scan_diff. cbn [latest_change].
  destruct (String.eqb (path d) p) eqn:E.
  - apply String.eqb_eq in E. subst p.
    destruct (path_db !! path d) as [g|] eqn:Hg; [by rewrite Hg|].
    destruct (String.eqb (mode d) "000000"); cbn [negb andb].
    + by rewrite Hg.
    + by rewrite lookup_insert_eq.
  - apply String.eqb_neq in E. cbn [andb].
    destruct (path_db !! path d) as [g|] eqn:Hg.
    + by destruct (path_db !! p).
    + destruct (String.eqb (mode d) "000000").
      * by destruct (path_db !! p).
      * rewrite lookup_insert_ne by done. by destruct (path_db !! p).
Qed.

Lemma scan_diffs_lookup (rec : RunRecord) (diffs : list Diff)
    (path_db : gmap string Generated) (p : string) :
  fold_left (scan_diff rec) diffs path_db !! p
  = match path_db !! p with
    | Some g => Some g
    | None => latest_change p (map (fun d => (rec_gitshasum rec, d)) diffs)
    end.
Proof.
  revert path_db. induction diffs as [|d diffs IH]; intros path_db.
  - cbn. by destruct (path_db !! p).
  - cbn [fold_left map]. rewrite IH, scan_diff_lookup.
    change ((rec_gitshasum rec, d) :: map (fun d => (rec_gitshasum rec, d)) diffs)
      with ([(rec_gitshasum rec, d)] ++ map (fun d => (rec_gitshasum rec, d)) diffs)%list.
    rewrite latest_change_app.
    by destruct (path_db !! p).
Qed.

Lemma scan_records_lookup (records : list RunRecord)
    (dbs : gmap string Generated * gmap string RunRecord) (p : string) :
  fst (fold_left (fun dbs rec =>
                    (fold_left (scan_diff rec) (diff rec) (fst dbs),
                     <[ rec_gitshasum rec := rec ]> (snd dbs)))
         records dbs) !! p
  = match fst dbs !! p with
    | Some g => Some g
    | None => latest_change p (scanned records)
    end.
Proof.
  revert dbs. induction records as [|rec records IH]; intros dbs.
  - cbn. by destruct (fst dbs !! p).
  - cbn [fold_left scanned flat_map]. rewrite IH. cbn [fst].
    rewrite scan_diffs_lookup, latest_change_app.
    by destruct (fst dbs !! p).
Qed.

Lemma in_events_bind {A B} (c : M unit A) (k : A -> M unit B) (ev : Event) :
  In ev (events (bind c k tt)) ->
  In ev (events (c tt))
  \/ exists a, outcome (c tt) = Returned a /\ In ev (events (k a tt)).
Proof.
  unfold bind. destruct (outcome (c tt)) as [a|e]; cbn [events]; [|auto].
  rewrite in_app_iff. intros [H|H]; [auto|]. right. exists a.
  split; [done|]. by destruct (final (c tt)).
Qed.

Lemma item_events (key : string) (d : Dict Value) : events (item key d tt) = [].
Proof. unfold item. by destruct (dict_get key d). Qed.

Lemma same_gitshasum_true (dbrec : option Generated) (rec : Dict Value) :
  same_gitshasum dbrec rec = true ->
  (exists g, dbrec = Some g
             /\ default (VStr "") (dict_get "gitshasum" rec) = VStr (generated_gitshasum g))
  \/ dbrec = None.
Proof.
  unfold same_gitshasum. destruct dbrec as [g|]; cbn [option_map]; [|auto].
  destruct (default (VStr "") (dict_get "gitshasum" rec)); try discriminate.
  intros E. apply String.eqb_eq in E. left. exists g. by rewrite E.
Qed.

Lemma item_returned (key : string) (d : Dict Value) (v : Value) :
  outcome (item key d tt) = Returned v -> dict_get key d = Some v.
Proof. unfold item. destruct (dict_get key d); [by intros [= ->] | discriminate]. Qed.

Lemma report_file_yields (get_file_id : Dict Value -> Value) (ds_pathobj : string)
    (path_db : gmap string Generated) (yielded_files : bool) (rec : Dict Value)
    (v : Value) :
  In (Yield v) (events (report_file get_file_id ds_pathobj path_db yielded_files rec tt)) ->
  exists p relpath g type,
    dict_get "path" rec = Some (VStr p)
    /\ relative_to ds_pathobj p = Some relpath
    /\ path_db !! relpath = Some g
    /\ default (VStr "") (dict_get "gitshasum" rec) = VStr (generated_gitshasum g)
    /\ v = file_result get_file_id rec (activity g) type.
Proof.
  unfold report_file. intros H.
  apply in_events_bind in H as [H|(pv & Hpv & H)]; [by rewrite item_events in H|].
  apply item_returned in Hpv.
  apply in_events_bind in H as [H|(relpath & Hrel & H)].
  { destruct pv; try done. by destruct (relative_to ds_pathobj s). }
  destruct pv as [| | |p| | | |]; try discriminate Hrel.
  destruct (relative_to ds_pathobj p) as [r|] eqn:Hr; [|discriminate Hrel].
  injection Hrel as ->.
  destruct (same_gitshasum (path_db !! relpath) rec) eqn:Hsame; [|done].
  apply same_gitshasum_true in Hsame as [(g & Hg & Hsum)|Hnone].
  2: { rewrite Hnone in H. done. }
  rewrite Hg in H.
  apply in_events_bind in H as [H|(act & Hact & H)]; [done|].
  injection Hact as <-.
  apply in_events_bind in H as [H|(type & _ & H)]; [by rewrite item_events in H|].
  apply in_events_bind in H as [H|(_ & _ & H)]; [|done].
  destruct H as [[= <-]|[]].
  by exists p, relpath, g, type.
Qed.

Lemma report_files_yields (get_file_id : Dict Value -> Value) (ds_pathobj : string)
    (path_db : gmap string Generated) (status : list (Dict Value)) (v : Value) :
  In (Yield v) (events (report_files get_file_id ds_pathobj path_db status tt)) ->
  generated_by_recorded_activity get_file_id ds_pathobj path_db status v.
Proof.
  unfold report_files. generalize false.
  induction status as [|rec status IH]; intros yielded_files; [intros []|].
  cbn [for_fold]. intros H. apply in_events_bind in H as [H|(acc & _ & H)].
  - apply report_file_yields in H as (p & relpath & g & type & Hrest).
    exists rec, p, relpath, g, type. split; [by left | exact Hrest].
  - destruct (IH _ H) as (rec' & p & relpath & g & type & Hin & Hrest).
    exists rec', p, relpath, g, type. split; [by right | exact Hrest].
Qed.

(** C10.  The run records are scanned in the order in which they come,
    latest first, and [path_db] maps a path to the first scanned diff entry
    that touches the path with a mode other than ['000000'], that is, to
    the commit of the most recent such run record and the gitshasum of that
    entry; a deletion entry leaves [path_db] as it is, and so does an entry
    for a path that is already mapped.  Every file-level result comes from
    a status entry whose path is mapped and whose gitshasum is the mapped
    one, and names the mapped commit as the generating activity. *)
Theorem path_db_maps_latest_generating_activity
    (get_file_id : Dict Value -> Value) (get_agent_id : string -> string -> string)
    (ds_pathobj : string) (records : list RunRecord) (status : list (Dict Value)) :
  (forall p, fst (scan_records records) !! p = latest_change p (scanned records))
  /\ (forall rec path_db d, mode d = "000000" -> scan_diff rec path_db d = path_db)
  /\ (forall rec path_db d g, path_db !! path d = Some g -> scan_diff rec path_db d = path_db)
  /\ (forall v,
        In (Yield v)
           (events (report_files get_file_id ds_pathobj (fst (scan_records records))
                      status tt)) ->
        generated_by_recorded_activity get_file_id ds_pathobj (fst (scan_records records))
          status v)
  /\ events (call get_file_id get_agent_id ds_pathobj records "content" status tt)
     = events (report_files get_file_id ds_pathobj (fst (scan_records records)) status tt).
Proof.
  split; [|split; [|split; [|split]]].
  - intros p. unfold scan_records. rewrite scan_records_lookup. cbn [fst].
    by rewrite lookup_empty.
  - intros rec path_db d Hmode. unfold scan_diff. rewrite Hmode.
    by destruct (path_db !! path d).
  - intros rec path_db d g Hg. unfold scan_diff. by rewrite Hg.
  - intros v. apply report_files_yields.
  - unfold call. destruct (scan_records records) as [path_db activities]. cbn [fst].
    change (process_type_in "content" "all" "content") with true.
    change (process_type_in "content" "all" "dataset") with false.
    cbn [when]. unfold bind.
    destruct (outcome (report_files get_file_id ds_pathobj path_db status tt));
      cbn [events ret]; [apply app_nil_r | done].
Qed.

Lemma path_db_maps_latest_generating_activity_witness :
  let records := [Scenario.latest_record; Scenario.earlier_record] in
  fst (scan_records records) !! "f.txt"
  = Some {| activity := "commit-1"; generated_gitshasum := "f-1" |}
  /\ fst (scan_records records) !! "g.txt"
     = Some {| activity := "commit-2"; generated_gitshasum := "g-2" |}
  /\ generated_by_recorded_activity Scenario.file_id "/data/super"
       (fst (scan_records records)) Scenario.file_status
       (file_result Scenario.file_id
          [ ("path", VStr "/data/super/g.txt"); ("gitshasum", VStr "g-2");
            ("type", VStr "file") ]
          "commit-2" (VStr "file")).
Proof.
  intros records.
  destruct (path_db_maps_latest_generating_activity Scenario.file_id
              (fun name email => name ++ " <" ++ email ++ ">") "/data/super"
              records Scenario.file_status) as (H1 & _ & _ & H4 & _).
  split; [by rewrite H1|]. split; [by rewrite H1|].
  apply H4. vm_compute. left. reflexivity.
Defined.

End RunProvFacts.

(** * Further properties of the code *)

(** ** Partial correctness *)

Section HoareFacts.
Import Hoare.
Context {St : Type}.

Lemma triple_keeps {A} (I : St -> Prop) (c : M St A) : keeps I c -> triple I c I.
Proof. intros H s a Hs _. by apply H. Qed.

Lemma triple_bind {A B} (P R Q : St -> Prop) (c : M St A) (k : A -> M St B) :
  triple P c R -> (forall a, triple R (k a) Q) -> triple P (bind c k) Q.
Proof.
  intros Hc Hk s b Hs Hb.
  destruct (bind_inv _ _ _ _ Hb) as (a & Ha & Hka & ->).
  eapply Hk; [|exact Hka]. by eapply Hc.
Qed.

Lemma triple_modify (P Q : St -> Prop) (f : St -> St) :
  (forall s, P s -> Q (f s)) -> triple P (modify f) Q.
Proof. intros H s a Hs _. by apply H. Qed.

Lemma triple_when (I : St -> Prop) (b : bool) (c : M St unit) :
  triple I c I -> triple I (when b c) I.
Proof. destruct b; [done|]. intros _ s a Hs _. exact Hs. Qed.

Lemma triple_for_each {A} (I : St -> Prop) (xs : list A) (body : A -> M St unit) :
  (forall x, triple I (body x) I) -> triple I (for_each xs body) I.
Proof.
  intros H. induction xs as [|x xs IH]; simpl.
  - intros s a Hs _. exact Hs.
  - eapply triple_bind; [apply H | intros _; exact IH].
Qed.

Lemma keeps_assert (I : St -> Prop) (b : bool) : keeps I (@assert St b).
Proof. destruct b; [apply keeps_ret | apply keeps_raise]. Qed.
End HoareFacts.

(** ** dump.py: errors, records and the cache *)

Section DumpMoreFacts.
Import Model TreeSearch Dump DumpCommand Hoare.

Lemma get_metadata_root_record_root (t : DatasetTree) :
  get_metadata_root_record t "" = value t.
Proof. reflexivity. Qed.

(** X1.  [dump_from_dataset_tree] fails before it yields, warns or loads
    anything: with [AssertionError] for the report policy [COMPLETE]; with
    [IndexError] if no version is requested and the version list is
    empty; with [KeyError] if the requested version is not in the list;
    with [AttributeError] if the root of the fetched tree carries no
    record, whatever the path asks for. *)
Theorem dump_fails_before_any_output
    (mapper realm : string) (l : TreeVersionList) (p : option TreeMetadataPath)
    (report_on : ReportOn) (recursive : bool) (c : Cache) :
  dump_from_dataset_tree mapper realm l p report_on COMPLETE recursive c
  = mkResult [] c (Raised AssertionError)
  /\ (version (normalize p) = None -> l = [] ->
      dump_from_dataset_tree mapper realm l p report_on INDIVIDUAL recursive c
      = mkResult [] c (Raised IndexError))
  /\ (forall v, version (normalize p) = Some v -> dict_get v l = None ->
      dump_from_dataset_tree mapper realm l p report_on INDIVIDUAL recursive c
      = mkResult [] c (Raised (KeyError v)))
  /\ (forall v ts t,
        outcome (requested_root_dataset_version l (normalize p) c) = Returned v ->
        dict_get v l = Some (ts, t) -> value t = None ->
        dump_from_dataset_tree mapper realm l p report_on INDIVIDUAL recursive c
        = mkResult [] c (Raised AttributeError)).
Proof.
  split; [reflexivity|]. split; [|split].
  - intros Hv ->. unfold dump_from_dataset_tree.
    rewrite (bind_pure (St:=Cache) _ _ _ tt) by reflexivity.
    apply bind_stop. unfold requested_root_dataset_version. by rewrite Hv.
  - intros v Hv Hl. unfold dump_from_dataset_tree.
    rewrite (bind_pure (St:=Cache) _ _ _ tt) by reflexivity.
    rewrite (bind_pure (St:=Cache) _ _ _ v).
    2: { unfold requested_root_dataset_version. by rewrite Hv. }
    apply bind_stop. unfold get_dataset_tree. by rewrite Hl.
  - intros v ts t Hv Hl Ht. unfold dump_from_dataset_tree.
    rewrite (bind_pure (St:=Cache) _ _ _ tt) by reflexivity.
    rewrite (bind_pure (St:=Cache) _ _ _ v).
    2: { rewrite requested_root_dataset_version_pure. by rewrite Hv. }
    rewrite (bind_pure (St:=Cache) _ _ _ (ts, t)).
    2: { unfold get_dataset_tree. by rewrite Hl. }
    unfold report_dataset_tree. cbn [snd].
    apply bind_stop. by rewrite get_metadata_root_record_root, Ht.
Qed.

Lemma dump_fails_before_any_output_witness :
  dump_from_dataset_tree "git" "." [] None ALL INDIVIDUAL false ∅
  = mkResult [] ∅ (Raised IndexError)
  /\ dump_from_dataset_tree "git" "." Scenario.one_version (Some Scenario.at_sub_a_v2)
       ALL INDIVIDUAL false ∅
     = mkResult [] ∅ (Raised (KeyError "v2"))
  /\ dump_from_dataset_tree "git" "." [ ("v1", (10, Scenario.only_sub_a)) ]
       (Some Scenario.at_sub_a) ALL INDIVIDUAL false ∅
     = mkResult [] ∅ (Raised AttributeError).
Proof.
  split; [|split].
  - apply (proj1 (proj2 (dump_fails_before_any_output "git" "." [] None ALL false ∅)));
      reflexivity.
  - apply (proj1 (proj2 (proj2 (dump_fails_before_any_output "git" "."
                                  Scenario.one_version (Some Scenario.at_sub_a_v2)
                                  ALL false ∅))) "v2"); reflexivity.
  - apply (proj2 (proj2 (proj2 (dump_fails_before_any_output "git" "."
                                  [ ("v1", (10, Scenario.only_sub_a)) ]
                                  (Some Scenario.at_sub_a) ALL false ∅)))
             "v1" 10 Scenario.only_sub_a); reflexivity.
Defined.

(** *** The records of one node *)

Lemma dict_set_fresh {A} (k : string) (v : A) (d : Dict A) :
  ~ In k (dict_keys d) -> dict_set k v d = (d ++ [(k, v)])%list.
Proof.
  unfold dict_keys. induction d as [|[k' v'] d IH]; simpl; [done|]. intros H.
  destruct (String.eqb k k') eqn:E.
  - apply String.eqb_eq in E. subst k'. exfalso. apply H. by left.
  - rewrite IH; [done|]. intros Hin. apply H. by right.
Qed.

Lemma dict_set_last {A} (k : string) (v v' : A) (d : Dict A) :
  ~ In k (dict_keys d) -> dict_set k v (d ++ [(k, v')])%list = (d ++ [(k, v)])%list.
Proof.
  unfold dict_keys. induction d as [|[k0 v0] d IH]; simpl.
  - by rewrite String.eqb_refl.
  - intros H. destruct (String.eqb k k0) eqn:E.
    + apply String.eqb_eq in E. subst k0. exfalso. apply H. by left.
    + rewrite IH; [done|]. intros Hin. apply H. by right.
Qed.

(** What the loop over the extractor runs yields, from a context that has
    no key ["metadata"], or has it last. *)
Lemma report_extractor_runs_records (mapper realm level report_type : string)
    (context : Dict Value) (runs : Metadata) (inner : Dict Value) (c : Cache) :
  ~ In "metadata" (dict_keys context) ->
  inner = context \/ (exists v, inner = (context ++ [("metadata", v)])%list) ->
  events (report_extractor_runs mapper realm level report_type inner runs c)
  = map Yield (records_of mapper realm level report_type context runs).
Proof.
  intros Hk. revert inner. unfold report_extractor_runs.
  induction runs as [|run runs IH]; intros inner Hinner; [done|].
  cbn [for_fold]. erewrite (bind_step (St:=Cache)); [|apply report_run_eq].
  assert (Hs : stored_runs_of inner run
               = (context ++
                  [ ("metadata",
                     VDict [ (fst run,
                              VList (map _create_metadata_instance_record (snd run))) ])
                  ])%list).
  { unfold stored_runs_of.
    destruct Hinner as [->|[v ->]]; [by apply dict_set_fresh | by apply dict_set_last]. }
  rewrite Hs. cbn [events app map records_of]. f_equal.
  apply IH. right. by eexists.
Qed.

Lemma report_extractor_runs_result (mapper realm level report_type : string)
    (inner : Dict Value) (runs : Metadata) (c : Cache) :
  exists inner',
    report_extractor_runs mapper realm level report_type inner runs c
    = mkResult (events (report_extractor_runs mapper realm level report_type inner runs c))
        c (Returned inner').
Proof.
  destruct (report_extractor_runs_events mapper realm level report_type inner runs c)
    as (_ & Hf & inner' & Ho).
  exists inner'. rewrite <- Hf at 3. rewrite <- Ho. symmetry. apply result_eta.
Qed.

Lemma yielded_map_Yield (vs : list Value) (s : Cache) (o : Outcome unit) :
  yielded (mkResult (map Yield vs) s o) = vs.
Proof. unfold yielded. cbn [events]. induction vs; simpl; [done | by f_equal]. Qed.

(** X2.  For a node with a record and dataset-level metadata,
    [show_dataset_metadata] returns and yields exactly one record per
    extractor name, in the order of [extractor_runs()]; each record
    carries the identity of the root and of the dataset, the dataset path,
    and under ["metadata"] the extractor name with the list of all of its
    runs. *)
Theorem show_dataset_metadata_yields_one_record_per_extractor
    (mapper realm rid rver dataset_path : string) (n : DatasetTree)
    (mrr : MetadataRootRecord) (metadata : Metadata) (c : Cache) :
  value n = Some mrr -> dataset_level_metadata mrr = Some metadata ->
  let r := show_dataset_metadata mapper realm rid rver dataset_path n c in
  outcome r = Returned tt
  /\ events r
     = map Yield (records_of mapper realm "dataset_level_metadata" "dataset"
                    (dataset_context rid rver dataset_path mrr) metadata)
  /\ length (yielded r) = length metadata.
Proof.
  intros Hn Hmd r.
  assert (Hr : outcome r = Returned tt
               /\ events r
                  = map Yield (records_of mapper realm "dataset_level_metadata" "dataset"
                                 (dataset_context rid rver dataset_path mrr) metadata)).
  { subst r. unfold show_dataset_metadata. rewrite Hn.
    rewrite (bind_pure (St:=Cache) _ _ _ mrr) by reflexivity.
    unfold load_object. rewrite bind_assoc.
    erewrite (bind_step (St:=Cache)); [|reflexivity].
    rewrite (bind_ret_l (St:=Cache)). rewrite Hmd.
    rewrite (bind_pure (St:=Cache) _ _ _ metadata) by reflexivity.
    destruct (report_extractor_runs_result mapper realm "dataset_level_metadata" "dataset"
                (dataset_context rid rver dataset_path mrr) (extractor_runs metadata)
                ({[DatasetLevelMetadataOf dataset_path]} ∪ c)) as [inner' Hruns].
    fold (dataset_context rid rver dataset_path mrr).
    erewrite (bind_step (St:=Cache)); [|exact Hruns].
    cbn [events outcome final app]. split; [reflexivity|].
    rewrite (report_extractor_runs_records _ _ _ _
               (dataset_context rid rver dataset_path mrr)).
    - unfold purge, modify. cbn [events]. by rewrite app_nil_r.
    - cbn. intros H. repeat (destruct H as [H|H]; [discriminate H|]). exact H.
    - by left. }
  destruct Hr as [Ho He]. split; [exact Ho|]. split; [exact He|].
  unfold yielded. rewrite He. unfold records_of. rewrite map_map.
  clear. induction metadata; simpl; [done | by f_equal].
Qed.

Lemma show_dataset_metadata_yields_one_record_per_extractor_witness :
  let r := show_dataset_metadata "git" "." "00000000-0000-0000-0000-000000000000" "v1"
             "sub/a" (Node (Some Scenario.record_a) []) ∅ in
  outcome r = Returned tt
  /\ events r
     = map Yield (records_of "git" "." "dataset_level_metadata" "dataset"
                    (dataset_context "00000000-0000-0000-0000-000000000000" "v1" "sub/a"
                       Scenario.record_a)
                    [ ("E1", [Scenario.run_1; Scenario.run_2]) ])
  /\ length (yielded r) = 1%nat.
Proof.
  apply (show_dataset_metadata_yields_one_record_per_extractor "git" "."
           "00000000-0000-0000-0000-000000000000" "v1" "sub/a"
           (Node (Some Scenario.record_a) []) Scenario.record_a
           [ ("E1", [Scenario.run_1; Scenario.run_2]) ] ∅); reflexivity.
Defined.

(** *** The records of a file tree *)

Lemma for_each_emit {St A} (xs : list A) (f : A -> Event) (s : St) :
  for_each xs (fun x => emit (f x)) s = mkResult (map f xs) s (Returned tt).
Proof.
  induction xs as [|x xs IH]; [done|]. cbn [for_each].
  erewrite (bind_step (St:=St)); [|reflexivity]. by rewrite IH.
Qed.

Lemma for_each_events {St A} (xs : list A) (body : A -> M St unit)
    (f : A -> list Event) :
  (forall x s, outcome (body x s) = Returned tt /\ events (body x s) = f x) ->
  forall s, outcome (for_each xs body s) = Returned tt
            /\ events (for_each xs body s) = flat_map f xs.
Proof.
  intros H. induction xs as [|x xs IH]; intros s; [done|].
  cbn [for_each flat_map]. destruct (H x s) as [Ho He].
  rewrite (bind_returned (St:=St) _ _ _ tt Ho). cbn [outcome events].
  destruct (IH (final (body x s))) as [Ho' He']. by rewrite Ho', He', He.
Qed.

Lemma flat_map_map_Yield {A} (f : A -> list Value) (xs : list A) :
  flat_map (fun x => map Yield (f x)) xs = map Yield (flat_map f xs).
Proof.
  induction xs as [|x xs IH]; [done|]. cbn [flat_map]. by rewrite IH, map_app.
Qed.

(** X3.  For a node with a record and a file tree,
    [show_file_tree_metadata] returns; it first warns about the pattern if
    the pattern matches nothing, and then yields, match by match and in
    the order of the matches, one record per extractor name of the
    matched file; a matched node without metadata contributes no
    record. *)
Theorem show_file_tree_metadata_yields_the_records_of_the_matches
    (mapper realm rid rver dataset_path : string) (n : DatasetTree)
    (mrr : MetadataRootRecord) (ft : FileTree) (file_pattern : string)
    (recursive : bool) (c : Cache) :
  value n = Some mrr -> file_tree mrr = Some ft ->
  let found := get_matching_paths ft [file_pattern] recursive false in
  let r := show_file_tree_metadata mapper realm rid rver dataset_path n file_pattern
             recursive c in
  outcome r = Returned tt
  /\ events r
     = (map (fun missing_path => Warning (file_warning missing_path mrr mapper realm))
          (snd found)
        ++ map Yield (flat_map (file_records mapper realm rid rver dataset_path)
                        (fst found)))%list.
Proof.
  intros Hn Hft found r.
  enough (H : exists s',
             r = mkResult
                   (map (fun missing_path =>
                           Warning (file_warning missing_path mrr mapper realm))
                      (snd found)
                    ++ map Yield (flat_map (file_records mapper realm rid rver dataset_path)
                                    (fst found)))%list
                   s' (Returned tt)).
  { destruct H as [s' ->]. by split. }
  subst r found. unfold show_file_tree_metadata. rewrite Hn.
  rewrite (bind_pure (St:=Cache) _ _ _ mrr) by reflexivity.
  unfold load_object at 1. rewrite bind_assoc.
  erewrite (bind_step (St:=Cache)); [|reflexivity].
  rewrite (bind_ret_l (St:=Cache)). rewrite Hft.
  rewrite (bind_pure (St:=Cache) _ _ _ ft) by reflexivity.
  destruct (get_matching_paths ft [file_pattern] recursive false) as [matches not_found].
  cbn [fst snd].
  erewrite (bind_step (St:=Cache)).
  2: { apply (for_each_emit not_found
                (fun missing_path => Warning (file_warning missing_path mrr mapper realm))). }
  match goal with
  | |- context [for_each matches ?body] =>
      destruct (for_each_events matches body
                  (fun m => map Yield (file_records mapper realm rid rver dataset_path m)))
        with ({[FileTreeOf dataset_path]} ∪ c) as [Ho He]
  end.
  { intros m s. unfold file_records. destruct (value (node m)) as [metadata|]; [|done].
    unfold load_object. rewrite bind_assoc.
    erewrite (bind_step (St:=Cache)); [|reflexivity].
    rewrite (bind_ret_l (St:=Cache)).
    destruct (report_extractor_runs_result mapper realm "file_level_metadata" "file"
                (file_context rid rver dataset_path (path m)) (extractor_runs metadata)
                ({[FileMetadataOf dataset_path (path m)]} ∪ s)) as [inner' Hruns].
    fold (file_context rid rver dataset_path (path m)).
    erewrite (bind_step (St:=Cache)); [|exact Hruns].
    cbn [events outcome final app ret]. split; [reflexivity|].
    rewrite (report_extractor_runs_records _ _ _ _
               (file_context rid rver dataset_path (path m))).
    - by rewrite app_nil_r.
    - cbn. intros H. repeat (destruct H as [H|H]; [discriminate H|]). exact H.
    - by left. }
  rewrite (bind_returned (St:=Cache) _ _ _ tt Ho). rewrite He.
  unfold purge, modify. cbn [events outcome final app].
  eexists. f_equal. by rewrite app_nil_r, flat_map_map_Yield.
Qed.

Lemma show_file_tree_metadata_yields_the_records_of_the_matches_witness :
  let r := show_file_tree_metadata "git" "." "00000000-0000-0000-0000-000000000000" "v1"
             "sub/a" (Node (Some Scenario.record_a) []) "file.txt" false ∅ in
  outcome r = Returned tt
  /\ events r
     = map Yield
         (records_of "git" "." "file_level_metadata" "file"
            (file_context "00000000-0000-0000-0000-000000000000" "v1" "sub/a" "file.txt")
            [ ("E1", [Scenario.run_1]) ]).
Proof.
  apply (show_file_tree_metadata_yields_the_records_of_the_matches "git" "."
           "00000000-0000-0000-0000-000000000000" "v1" "sub/a"
           (Node (Some Scenario.record_a) []) Scenario.record_a Scenario.file_tree_a
           "file.txt" false ∅); reflexivity.
Defined.

(** *** Patterns that match nothing *)








(** *** What a dump leaves in the cache *)

Lemma show_dataset_metadata_restores (c0 : Cache) mapper realm rid rver dataset_path n :
  triple (fun s => s ⊆ c0)
    (show_dataset_metadata mapper realm rid rver dataset_path n)
    (fun s => s ⊆ c0).
Proof.
  unfold show_dataset_metadata.
  eapply triple_bind; [apply triple_keeps, keeps_attr | intros mrr].
  eapply (triple_bind _ (fun s => s ⊆ {[DatasetLevelMetadataOf dataset_path]} ∪ c0)).
  { unfold load_object. eapply triple_bind; [|intros _; apply triple_keeps, keeps_ret].
    apply triple_modify. intros s Hs x. rewrite !elem_of_union. intros [Hx|Hx]; [by left|].
    right. by apply Hs. }
  intros dlm.
  eapply triple_bind; [apply triple_keeps, keeps_attr | intros metadata].
  eapply triple_bind; [apply triple_keeps, report_extractor_runs_keeps | intros _].
  apply triple_modify. intros s Hs x. rewrite elem_of_filter. intros [Hd Hx].
  apply Hs in Hx. apply elem_of_union in Hx as [Hx|Hx]; [|done].
  apply elem_of_singleton in Hx. exfalso. apply Hd. by left.
Qed.

Lemma show_file_tree_metadata_restores (c0 : Cache) mapper realm rid rver dataset_path n
    pattern recursive :
  triple (fun s => s ⊆ c0)
    (show_file_tree_metadata mapper realm rid rver dataset_path n pattern recursive)
    (fun s => s ⊆ c0).
Proof.
  set (I := fun s : Cache => forall x, x ∈ s -> x ∈ c0 \/ drops (FileTreeOf dataset_path) x).
  unfold show_file_tree_metadata.
  eapply triple_bind; [apply triple_keeps, keeps_attr | intros mrr].
  eapply (triple_bind _ I).
  { unfold load_object. eapply triple_bind; [|intros _; apply triple_keeps, keeps_ret].
    apply triple_modify. intros s Hs x. rewrite elem_of_union. intros [Hx|Hx].
    - apply elem_of_singleton in Hx. right. by left.
    - left. by apply Hs. }
  intros oft.
  eapply triple_bind; [apply triple_keeps, keeps_attr | intros ft].
  destruct (get_matching_paths ft [pattern] recursive false) as [matches not_found].
  eapply triple_bind.
  { apply triple_keeps, keeps_for_each. intros missing. apply keeps_emit. }
  intros _. eapply (triple_bind _ I).
  { apply triple_keeps, keeps_for_each. intros m.
    destruct (value (node m)) as [md|]; [|apply keeps_ret].
    apply keeps_bind.
    - unfold load_object. apply keeps_bind; [|intros; apply keeps_ret].
      intros s Hs x. unfold modify. cbn [final]. rewrite elem_of_union. intros [Hx|Hx].
      + apply elem_of_singleton in Hx. right. right. by rewrite Hx.
      + by apply Hs.
    - intros md'. apply keeps_bind; [apply report_extractor_runs_keeps | intros _].
      apply keeps_ret. }
  intros _. apply triple_modify. intros s Hs x. rewrite elem_of_filter. intros [Hd Hx].
  destruct (Hs x Hx) as [H|H]; [done | by destruct Hd].
Qed.

(** X4.  A dump that returns has purged everything that it loaded: a
    connector that holds an object afterwards held it before the dump. *)
Theorem dump_leaves_nothing_loaded
    (mapper realm : string) (l : TreeVersionList) (p : option TreeMetadataPath)
    (report_on : ReportOn) (report_policy : ReportPolicy) (recursive : bool) (c : Cache) :
  let r := dump_from_dataset_tree mapper realm l p report_on report_policy recursive c in
  outcome r = Returned tt -> final r ⊆ c.
Proof.
  intros r. subst r.
  enough (H : triple (fun s => s ⊆ c)
                (dump_from_dataset_tree mapper realm l p report_on report_policy recursive)
                (fun s => s ⊆ c)).
  { intros Ho. by apply (H c tt). }
  unfold dump_from_dataset_tree.
  eapply triple_bind; [apply triple_keeps, keeps_assert | intros _].
  eapply triple_bind.
  { apply triple_keeps. intros s Hs. by rewrite requested_root_dataset_version_pure. }
  intros v. eapply triple_bind.
  { apply triple_keeps. intros s Hs. unfold get_dataset_tree. by destruct (dict_get v l). }
  intros fetched. unfold report_dataset_tree.
  eapply triple_bind; [apply triple_keeps, keeps_attr | intros root_mrr].
  destruct (get_matching_paths _ _ _ _) as [matches not_found].
  eapply triple_bind.
  { apply triple_keeps, keeps_for_each. intros missing. apply keeps_emit. }
  intros _. apply triple_for_each. intros m. unfold report_match.
  eapply triple_bind.
  - apply triple_when, show_dataset_metadata_restores.
  - intros _. apply triple_when, show_file_tree_metadata_restores.
Qed.

Lemma dump_leaves_nothing_loaded_witness :
  let r := dump_from_dataset_tree "git" "." Scenario.one_version (Some Scenario.at_sub_a)
             ALL INDIVIDUAL true ∅ in
  outcome r = Returned tt /\ final r ⊆ ∅.
Proof.
  assert (Ho : outcome (dump_from_dataset_tree "git" "." Scenario.one_version
                          (Some Scenario.at_sub_a) ALL INDIVIDUAL true ∅) = Returned tt)
    by (vm_compute; reflexivity).
  split; [exact Ho|].
  exact (dump_leaves_nothing_loaded "git" "." Scenario.one_version
           (Some Scenario.at_sub_a) ALL INDIVIDUAL true ∅ Ho).
Defined.

(** *** What is reported on *)

Lemma report_extractor_runs_of_type (mapper realm level report_type : string)
    (inner : Dict Value) (runs : Metadata) :
  all_events (of_type report_type)
    (report_extractor_runs mapper realm level report_type inner runs).
Proof.
  apply all_events_for_fold. intros acc run c. rewrite report_run_eq.
  repeat constructor.
Qed.

Lemma load_object_of_type {A} t (k : ConnectorId) (o : A) :
  all_events (of_type t) (load_object k o).
Proof.
  apply all_events_bind; [apply all_events_modify | intros; apply all_events_ret].
Qed.

Lemma show_dataset_metadata_of_type mapper realm rid rver dataset_path n :
  all_events (of_type "dataset")
    (show_dataset_metadata mapper realm rid rver dataset_path n).
Proof.
  unfold show_dataset_metadata.
  apply all_events_bind; [apply all_events_attr | intros mrr].
  apply all_events_bind; [apply load_object_of_type | intros dlm].
  apply all_events_bind; [apply all_events_attr | intros md].
  apply all_events_bind; [apply report_extractor_runs_of_type | intros _].
  apply all_events_modify.
Qed.

Lemma show_file_tree_metadata_of_type mapper realm rid rver dataset_path n pattern
    recursive :
  all_events (of_type "file")
    (show_file_tree_metadata mapper realm rid rver dataset_path n pattern recursive).
Proof.
  unfold show_file_tree_metadata.
  apply all_events_bind; [apply all_events_attr | intros mrr].
  apply all_events_bind; [apply load_object_of_type | intros oft].
  apply all_events_bind; [apply all_events_attr | intros ft].
  destruct (get_matching_paths ft [pattern] recursive false) as [matches not_found].
  apply all_events_bind.
  { apply all_events_for_each. intros missing. by apply all_events_emit. }
  intros _. apply all_events_bind; [|intros _; apply all_events_modify].
  apply all_events_for_each. intros m.
  destruct (value (node m)) as [md|]; [|apply all_events_ret].
  apply all_events_bind; [apply load_object_of_type | intros md'].
  apply all_events_bind; [apply report_extractor_runs_of_type | intros _].
  apply all_events_ret.
Qed.

Lemma dump_events (E : Event -> Prop) mapper realm l p report_on report_policy recursive :
  (forall msg, E (Warning msg)) ->
  (forall rid rver local_path m,
     all_events E (report_match mapper realm rid rver report_on local_path recursive m)) ->
  all_events E
    (dump_from_dataset_tree mapper realm l p report_on report_policy recursive).
Proof.
  intros Hw Hm. unfold dump_from_dataset_tree.
  apply all_events_bind; [apply all_events_assert | intros _].
  apply all_events_bind.
  { intros s. rewrite requested_root_dataset_version_pure. constructor. }
  intros v. apply all_events_bind.
  { intros s. unfold get_dataset_tree. destruct (dict_get v l); constructor. }
  intros fetched. unfold report_dataset_tree.
  apply all_events_bind; [apply all_events_attr | intros root_mrr].
  destruct (get_matching_paths _ _ _ _) as [matches not_found].
  apply all_events_bind.
  { apply all_events_for_each. intros missing. apply all_events_emit, Hw. }
  intros _. apply all_events_for_each. intros m. apply Hm.
Qed.

Lemma yielded_of_type {A} t (r : Result Cache A) :
  Forall (of_type t) (events r) ->
  Forall (fun v => field "type" v = Some (VStr t)) (yielded r).
Proof.
  unfold yielded. induction 1 as [|ev evs Hev _ IH]; [constructor|].
  destruct ev; simpl; try exact IH. constructor; [exact Hev | exact IH].
Qed.

(** X5.  A dump that reports on datasets only yields only records of type
    ["dataset"], and one that reports on files only yields only records
    of type ["file"], whatever the version list holds and whether the dump
    returns or raises. *)
Theorem dump_reports_only_the_requested_kind
    (mapper realm : string) (l : TreeVersionList) (p : option TreeMetadataPath)
    (report_policy : ReportPolicy) (recursive : bool) (c : Cache) :
  Forall (fun v => field "type" v = Some (VStr "dataset"))
    (yielded (dump_from_dataset_tree mapper realm l p DATASETS report_policy recursive c))
  /\ Forall (fun v => field "type" v = Some (VStr "file"))
       (yielded (dump_from_dataset_tree mapper realm l p FILES report_policy recursive c)).
Proof.
  split; apply yielded_of_type; apply dump_events; try done.
  - intros rid rver local_path m. unfold report_match. cbn [reports_datasets reports_files when].
    apply all_events_bind; [apply show_dataset_metadata_of_type | intros _].
    apply all_events_ret.
  - intros rid rver local_path m. unfold report_match. cbn [reports_datasets reports_files when].
    apply all_events_bind; [apply all_events_ret | intros _].
    apply show_file_tree_metadata_of_type.
Qed.

End DumpMoreFacts.

(** ** dump.py: the command *)

Section DumpCommandFacts.
Import Model TreeSearch Dump DumpCommand.

(** X6.  [meta_dump] loads the two top-level objects from the mapper
    family ["git"], whatever the argument [mapper] is.  If loading the
    tree version list or the UUID set raises [RuntimeError], the command
    ends normally after one warning and one record with status
    ["impossible"] that names the mapper argument and the realm; the path
    is not parsed.  A realm that is not given, or empty, is the realm
    ["."]. *)
Theorem meta_dump_reports_a_realm_without_metadata_as_impossible
    (load_tree_version_list : string -> string -> Outcome TreeVersionList)
    (load_uuid_set : string -> string -> Outcome Extract.UUIDSet)
    (parse : string -> Outcome MetadataPath)
    (mapper realm : string) (path : option string) (reporton reportpolicy : string)
    (recursive : bool) (c : Cache) :
  (realm <> "" ->
   (exists msg, load_tree_version_list "git" realm = Raised (RuntimeError msg))
   \/ (exists l msg, load_tree_version_list "git" realm = Returned l
                     /\ load_uuid_set "git" realm = Raised (RuntimeError msg)) ->
   meta_dump load_tree_version_list load_uuid_set parse mapper (Some realm) path
     reporton reportpolicy recursive c
   = mkResult [ Warning (no_model_message mapper realm);
                Yield (impossible_record mapper realm (no_model_message mapper realm)) ]
       c (Returned tt))
  /\ meta_dump load_tree_version_list load_uuid_set parse mapper None path
       reporton reportpolicy recursive c
     = meta_dump load_tree_version_list load_uuid_set parse mapper (Some ".") path
         reporton reportpolicy recursive c
  /\ meta_dump load_tree_version_list load_uuid_set parse mapper (Some "") path
       reporton reportpolicy recursive c
     = meta_dump load_tree_version_list load_uuid_set parse mapper (Some ".") path
         reporton reportpolicy recursive c.
Proof.
  split; [|split; reflexivity].
  intros Hne H. unfold meta_dump, get_top_level_metadata_objects.
  apply String.eqb_neq in Hne. rewrite Hne.
  change default_mapper_family with "git".
  destruct H as [[msg ->]|(l & msg & -> & ->)]; reflexivity.
Qed.

Lemma meta_dump_reports_a_realm_without_metadata_as_impossible_witness :
  meta_dump Examples.no_tree_version_list Examples.no_uuid_set Examples.parse
    "git" (Some "/data/super") (Some "sub/a") "all" "individual" false ∅
  = mkResult
      [ Warning "No git-mapped datalad metadata model found in: /data/super";
        Yield (VDict [ ("mapper", VStr "git");
                       ("realm", VStr "/data/super");
                       ("status", VStr "impossible");
                       ("message",
                        VStr "No git-mapped datalad metadata model found in: /data/super")
                     ]) ]
      ∅ (Returned tt).
Proof.
  apply (proj1 (meta_dump_reports_a_realm_without_metadata_as_impossible
                  Examples.no_tree_version_list Examples.no_uuid_set Examples.parse
                  "git" "/data/super" (Some "sub/a") "all" "individual" false ∅)).
  - discriminate.
  - left. exists "no metadata". reflexivity.
Defined.

(** X7.  With both top-level objects loaded, [meta_dump] parses the path
    (the empty path if none is given) and goes by what the parser
    returns: an exception of the parser ends the command; a UUID address
    ends it with [NotImplementedError]; a tree address is dumped by
    [dump_from_dataset_tree] from the loaded version list with the given
    flags, so that the report policy ["complete"] ends the command with
    [AssertionError].  Nothing is yielded or loaded before these
    errors. *)
Theorem meta_dump_goes_by_the_parsed_address
    (load_tree_version_list : string -> string -> Outcome TreeVersionList)
    (load_uuid_set : string -> string -> Outcome Extract.UUIDSet)
    (parse : string -> Outcome MetadataPath)
    (mapper realm : string) (path : option string) (reporton reportpolicy : string)
    (recursive : bool) (c : Cache) (l : TreeVersionList) (u : Extract.UUIDSet) :
  realm <> "" ->
  load_tree_version_list "git" realm = Returned l ->
  load_uuid_set "git" realm = Returned u ->
  let r := meta_dump load_tree_version_list load_uuid_set parse mapper (Some realm) path
             reporton reportpolicy recursive c in
  (forall e, parse (default "" path) = Raised e -> r = mkResult [] c (Raised e))
  /\ (forall p, parse (default "" path) = Returned (UUIDPath p) ->
        r = mkResult [] c (Raised NotImplementedError))
  /\ (forall p report_on report_policy,
        parse (default "" path) = Returned (TreePath p) ->
        outcome (ReportOn_of reporton c) = Returned report_on ->
        outcome (ReportPolicy_of reportpolicy c) = Returned report_policy ->
        r = dump_from_dataset_tree mapper realm l (Some p) report_on report_policy
              recursive c)
  /\ (forall p report_on,
        parse (default "" path) = Returned (TreePath p) ->
        outcome (ReportOn_of reporton c) = Returned report_on ->
        reportpolicy = "complete" ->
        r = mkResult [] c (Raised AssertionError)).
Proof.
  intros Hne Hl Hu r.
  assert (Hr : r = bind (DumpCommand.lift (parse (default "" path)))
                     (fun metadata_path =>
                        match metadata_path with
                        | TreePath metadata_path =>
                            report_on <- ReportOn_of reporton ;;
                            report_policy <- ReportPolicy_of reportpolicy ;;
                            dump_from_dataset_tree mapper realm l (Some metadata_path)
                              report_on report_policy recursive
                        | UUIDPath _ => dump_from_uuid_set
                        end) c).
  { subst r. unfold meta_dump, get_top_level_metadata_objects.
    apply String.eqb_neq in Hne. rewrite Hne.
    change default_mapper_family with "git". rewrite Hl, Hu.
    rewrite (bind_ret_l (St:=Cache)). by destruct path. }
  assert (Hon : forall report_on,
            outcome (ReportOn_of reporton c) = Returned report_on ->
            ReportOn_of reporton c = mkResult [] c (Returned report_on)).
  { intros report_on. unfold ReportOn_of.
    repeat (destruct (String.eqb reporton _); [by intros [= <-]|]). done. }
  assert (Hpol : forall report_policy,
            outcome (ReportPolicy_of reportpolicy c) = Returned report_policy ->
            ReportPolicy_of reportpolicy c = mkResult [] c (Returned report_policy)).
  { intros report_policy. unfold ReportPolicy_of.
    repeat (destruct (String.eqb reportpolicy _); [by intros [= <-]|]). done. }
  rewrite Hr. clear Hr r. split; [|split; [|split]].
  - intros e ->. reflexivity.
  - intros p ->. reflexivity.
  - intros p report_on report_policy -> Hro Hrp. cbn [DumpCommand.lift].
    rewrite (bind_ret_l (St:=Cache)).
    rewrite (bind_pure (St:=Cache) _ _ _ report_on) by by apply Hon.
    by rewrite (bind_pure (St:=Cache) _ _ _ report_policy) by by apply Hpol.
  - intros p report_on -> Hro ->. cbn [DumpCommand.lift].
    rewrite (bind_ret_l (St:=Cache)).
    rewrite (bind_pure (St:=Cache) _ _ _ report_on) by by apply Hon.
    by rewrite (bind_pure (St:=Cache) _ _ _ COMPLETE) by reflexivity.
Qed.

Lemma meta_dump_goes_by_the_parsed_address_witness :
  meta_dump Examples.one_tree_version_list Examples.empty_uuid_set Examples.parse
    "git" (Some "/data/super") (Some "%0a:file.txt") "all" "individual" false ∅
  = mkResult [] ∅ (Raised NotImplementedError)
  /\ meta_dump Examples.one_tree_version_list Examples.empty_uuid_set Examples.parse
       "git" (Some "/data/super") None "all" "individual" false ∅
     = mkResult [] ∅ (Raised (ValueError ""))
  /\ meta_dump Examples.one_tree_version_list Examples.empty_uuid_set Examples.parse
       "git" (Some "/data/super") (Some "sub/a") "datasets" "individual" false ∅
     = dump_from_dataset_tree "git" "/data/super" Scenario.one_version
         (Some Scenario.at_sub_a) DATASETS INDIVIDUAL false ∅
  /\ meta_dump Examples.one_tree_version_list Examples.empty_uuid_set Examples.parse
       "git" (Some "/data/super") (Some "sub/a") "datasets" "complete" false ∅
     = mkResult [] ∅ (Raised AssertionError).
Proof.
  split; [|split; [|split]].
  - refine (proj1 (proj2 (meta_dump_goes_by_the_parsed_address
                            Examples.one_tree_version_list Examples.empty_uuid_set
                            Examples.parse "git" "/data/super" (Some "%0a:file.txt")
                            "all" "individual" false ∅ Scenario.one_version []
                            _ eq_refl eq_refl)) _ eq_refl).
    discriminate.
  - refine (proj1 (meta_dump_goes_by_the_parsed_address
                     Examples.one_tree_version_list Examples.empty_uuid_set
                     Examples.parse "git" "/data/super" None
                     "all" "individual" false ∅ Scenario.one_version []
                     _ eq_refl eq_refl) _ eq_refl).
    discriminate.
  - refine (proj1 (proj2 (proj2 (meta_dump_goes_by_the_parsed_address
                                   Examples.one_tree_version_list Examples.empty_uuid_set
                                   Examples.parse "git" "/data/super" (Some "sub/a")
                                   "datasets" "individual" false ∅ Scenario.one_version []
                                   _ eq_refl eq_refl))) _ _ _ eq_refl eq_refl eq_refl).
    discriminate.
  - refine (proj2 (proj2 (proj2 (meta_dump_goes_by_the_parsed_address
                                   Examples.one_tree_version_list Examples.empty_uuid_set
                                   Examples.parse "git" "/data/super" (Some "sub/a")
                                   "datasets" "complete" false ∅ Scenario.one_version []
                                   _ eq_refl eq_refl))) _ DATASETS eq_refl eq_refl eq_refl).
    discriminate.
Defined.

End DumpCommandFacts.

(** ** extract.py: extractor classes, reports and writes *)

Section ExtractMoreFacts.
Import Model Extract ExtractCommand.

(** X8.  [get_extractor_class] returns the class of the last entry point
    registered under the name, after one warning for every entry point
    before it, in their order, that names the overriding and the
    overridden distribution; with no entry point it raises [ValueError]
    and warns about nothing. *)
Theorem get_extractor_class_takes_the_last_entry_point
    (iter_entry_points : string -> list EntryPoint) (extractor_name : string)
    (b : Backend) :
  (iter_entry_points extractor_name = [] ->
   get_extractor_class iter_entry_points extractor_name b
   = mkResult [] b
       (Raised (ValueError ("Requested metadata extractor '" ++ extractor_name
                            ++ "' not available"))))
  /\ (forall ignored entry_point,
        iter_entry_points extractor_name = (ignored ++ [entry_point])%list ->
        get_extractor_class iter_entry_points extractor_name b
        = mkResult
            (map (fun i => Warning (override_warning extractor_name entry_point i)) ignored)
            b (Returned (load entry_point))).
Proof.
  unfold get_extractor_class. split.
  - by intros ->.
  - intros ignored entry_point ->. rewrite rev_unit, removelast_last.
    erewrite (bind_step (St:=Backend)).
    2: { apply (for_each_emit ignored
                  (fun i => Warning (override_warning extractor_name entry_point i))). }
    cbn [ret events final outcome]. by rewrite app_nil_r.
Qed.

Lemma get_extractor_class_takes_the_last_entry_point_witness :
  get_extractor_class Examples.entry_points "E1" empty_backend
  = mkResult
      [ Warning ("Metadata extractor E1 from distribution datalad-metalad "
                 ++ "overrides metadata extractor from distribution datalad") ]
      empty_backend
      (Returned (DatasetMetadataExtractorClass (Scenario.extractor IMMEDIATE)))
  /\ get_extractor_class Examples.entry_points "E2" empty_backend
     = mkResult [] empty_backend
         (Raised (ValueError "Requested metadata extractor 'E2' not available")).
Proof.
  split.
  - apply (proj2 (get_extractor_class_takes_the_last_entry_point
                    Examples.entry_points "E1" empty_backend)
             [ {| project_name := "datalad"; load := UnknownExtractorClass |} ]
             {| project_name := "datalad-metalad";
                load := DatasetMetadataExtractorClass (Scenario.extractor IMMEDIATE) |}).
    reflexivity.
  - apply (proj1 (get_extractor_class_takes_the_last_entry_point
                    Examples.entry_points "E2" empty_backend)).
    reflexivity.
Defined.

(** *** What a write lets the outside see *)

Lemma backend_call_calls (c : BackendCall) : all_events is_call (backend_call c).
Proof.
  intros s. destruct (fails s c) eqn:E.
  - rewrite (backend_call_fail _ _ E). by repeat constructor.
  - rewrite (backend_call_ok _ _ E). by repeat constructor.
Qed.

Lemma all_events_get {St} (E : Event -> Prop) : all_events E (@get St).
Proof. intros s. constructor. Qed.

Lemma all_events_put {St} (E : Event -> Prop) (s' : St) : all_events E (put s').
Proof. intros s. constructor. Qed.

Lemma guarded_calls (c : BackendCall) (f : Backend -> Backend) :
  all_events is_call (bind (backend_call c) (fun _ => modify f)).
Proof.
  apply all_events_bind; [apply backend_call_calls | intros _; apply all_events_modify].
Qed.

Lemma lock_backend_calls : all_events is_call lock_backend.
Proof.
  apply all_events_bind; [apply backend_call_calls | intros _].
  apply all_events_bind; [apply all_events_get | intros b].
  destruct (locked b); [apply all_events_raise | apply all_events_put].
Qed.

Lemma time_calls : all_events is_call time.
Proof.
  apply all_events_bind; [apply all_events_get | intros b].
  apply all_events_bind; [apply all_events_put | intros _; apply all_events_ret].
Qed.

Lemma get_top_nodes_calls dataset_id version path :
  all_events is_call (get_top_nodes_and_metadata_root_record dataset_id version path).
Proof.
  apply all_events_bind; [apply backend_call_calls | intros _].
  apply all_events_bind; [apply all_events_get | intros b].
  apply all_events_bind; [apply time_calls | intros now]. apply all_events_ret.
Qed.

Lemma add_metadata_source_calls m ep result src :
  all_events is_call (add_metadata_source m ep result src).
Proof.
  apply all_events_bind; [apply time_calls | intros now].
  apply all_events_bind; [apply backend_call_calls | intros _]. apply all_events_ret.
Qed.

Lemma commit_calls l u :
  all_events is_call
    (bind (save_tree_version_list l)
       (fun _ => bind (save_uuid_set u)
                   (fun _ => bind flush_object_references (fun _ => unlock_backend)))).
Proof.
  apply all_events_bind; [apply guarded_calls | intros _].
  apply all_events_bind; [apply guarded_calls | intros _].
  apply all_events_bind; [apply guarded_calls | intros _]. apply guarded_calls.
Qed.

Lemma add_dataset_metadata_source_calls ep result src :
  all_events is_call (add_dataset_metadata_source ep result src).
Proof.
  unfold add_dataset_metadata_source.
  apply all_events_bind; [apply lock_backend_calls | intros _].
  apply all_events_bind; [apply get_top_nodes_calls | intros [[l u] mrr]].
  apply all_events_bind; [apply add_metadata_source_calls | intros m].
  apply commit_calls.
Qed.

Lemma add_file_metadata_source_calls ep result src :
  all_events is_call (add_file_metadata_source ep result src).
Proof.
  unfold add_file_metadata_source.
  apply all_events_bind; [apply lock_backend_calls | intros _].
  apply all_events_bind; [apply get_top_nodes_calls | intros [[l u] mrr]].
  apply all_events_bind.
  { destruct (get_node_at_path _ _); [apply all_events_attr | apply all_events_ret]. }
  intros m0.
  apply all_events_bind; [apply add_metadata_source_calls | intros m].
  apply commit_calls.
Qed.

Lemma copy_file_to_git_calls content : all_events is_call (copy_file_to_git content).
Proof.
  apply all_events_bind; [apply backend_call_calls | intros _].
  apply all_events_bind; [apply all_events_modify | intros _]. apply all_events_ret.
Qed.

Lemma add_dataset_metadata_calls ep result content :
  all_events is_call (add_dataset_metadata ep result content).
Proof.
  apply all_events_bind; [apply copy_file_to_git_calls | intros h].
  apply add_dataset_metadata_source_calls.
Qed.

Lemma add_file_metadata_calls ep result content :
  all_events is_call (add_file_metadata ep result content).
Proof.
  apply all_events_bind; [apply copy_file_to_git_calls | intros h].
  apply add_file_metadata_source_calls.
Qed.

Lemma calls_yield_nothing (evs : list Event) :
  Forall is_call evs ->
  omap (fun ev => match ev with Yield v => Some v | _ => None end) evs = [].
Proof.
  induction 1 as [|ev evs Hev _ IH]; [done|]. by destruct ev.
Qed.

(** A write, then the report of the result, then a log message. *)
Lemma write_then_report (write : M Backend unit) (result : ExtractorResult)
    (msg : string) (b : Backend) :
  all_events is_call write ->
  let r := bind (bind write (fun _ => yield_result result))
             (fun _ => emit (Info msg)) b in
  (outcome r = Returned tt -> Dump.yielded r = [reported result])
  /\ (forall e, outcome r = Raised e -> Dump.yielded r = [])
  /\ (outcome r = Returned tt <-> outcome (write b) = Returned tt).
Proof.
  intros Hw r.
  pose proof (calls_yield_nothing _ (Hw b)) as Hnone.
  destruct (outcome (write b)) as [[]|e] eqn:Ho.
  - assert (Hr : r = mkResult (events (write b) ++ [Yield (reported result); Info msg])
                       (final (write b)) (Returned tt)).
    { subst r. rewrite bind_assoc. rewrite (bind_returned (St:=Backend) _ _ _ tt Ho).
      reflexivity. }
    rewrite Hr. unfold Dump.yielded. cbn [events outcome].
    rewrite omap_app, Hnone. split; [done|]. split; [done|]. done.
  - assert (Hr : r = mkResult (events (write b)) (final (write b)) (Raised e)).
    { subst r. rewrite bind_assoc. unfold bind at 1. by rewrite Ho. }
    rewrite Hr. unfold Dump.yielded. cbn [events outcome].
    split; [done|]. split; [done|]. split; discriminate.
Qed.

(** X9.  An extraction that does not succeed is reported, with the action
    ["meta_extract"], but not stored: the store is as it was, no backend
    call is made, and the command goes on. *)
Theorem failed_extraction_is_reported_but_not_stored
    (ep : ExtractionParameter) (extractor : Extractor) (b : Backend)
    (r : Result Backend unit) :
  extraction_success (extract extractor) = false ->
  get_data_output_category extractor <> DIRECTORY ->
  r = perform_dataset_metadata_extraction ep extractor b
  \/ r = perform_file_metadata_extraction ep extractor b ->
  outcome r = Returned tt
  /\ final r = b
  /\ Dump.yielded r = [reported (extract extractor)]
  /\ calls (events r) = [].
Proof.
  intros Hs Hc Hr.
  unfold perform_dataset_metadata_extraction, perform_file_metadata_extraction in Hr.
  rewrite Hs in Hr. destruct (get_data_output_category extractor); [| |done];
    destruct Hr as [->| ->]; done.
Qed.

Lemma failed_extraction_is_reported_but_not_stored_witness :
  let r := perform_dataset_metadata_extraction
             (Scenario.parameters UnknownExtractorClass)
             (Examples.failed_extractor IMMEDIATE) empty_backend in
  outcome r = Returned tt
  /\ final r = empty_backend
  /\ Dump.yielded r = [ VDict [ ("status", VStr "error");
                                ("action", VStr "meta_extract") ] ]
  /\ calls (events r) = [].
Proof.
  intros r.
  apply (failed_extraction_is_reported_but_not_stored
           (Scenario.parameters UnknownExtractorClass)
           (Examples.failed_extractor IMMEDIATE) empty_backend r).
  - reflexivity.
  - discriminate.
  - left. reflexivity.
Defined.

(** X10.  The result of an extraction that succeeded is yielded only
    after it has been stored: if the write raises, whatever the backend
    call that fails, the command ends without having yielded anything; if
    the command returns, it has yielded the result of the extractor, with
    the action ["meta_extract"], and nothing else. *)
Theorem extraction_result_is_yielded_only_after_the_write
    (ep : ExtractionParameter) (extractor : Extractor) (b : Backend)
    (r : Result Backend unit) :
  extraction_success (extract extractor) = true ->
  r = perform_dataset_metadata_extraction ep extractor b
  \/ r = perform_file_metadata_extraction ep extractor b ->
  (outcome r = Returned tt -> Dump.yielded r = [reported (extract extractor)])
  /\ (forall e, outcome r = Raised e -> Dump.yielded r = []).
Proof.
  intros Hs Hr.
  unfold perform_dataset_metadata_extraction, perform_file_metadata_extraction in Hr.
  rewrite Hs in Hr. cbn [when] in Hr.
  destruct (get_data_output_category extractor); destruct Hr as [->| ->];
    try (split; done);
    match goal with
    | |- context [bind (bind ?w _) (fun _ => emit (Info ?m)) b] =>
        assert (Hw : all_events is_call w)
          by first [ apply add_dataset_metadata_source_calls
                   | apply add_file_metadata_source_calls
                   | apply add_dataset_metadata_calls
                   | apply add_file_metadata_calls ];
        destruct (write_then_report w (extract extractor) m b Hw) as (H1 & H2 & _);
        split; [exact H1 | exact H2]
    end.
Qed.

Lemma extraction_result_is_yielded_only_after_the_write_witness :
  let ep := Scenario.parameters UnknownExtractorClass in
  let failed := perform_dataset_metadata_extraction ep (Scenario.extractor IMMEDIATE)
                  (Scenario.failing_at flush_object_references_call) in
  let stored := perform_dataset_metadata_extraction ep (Scenario.extractor IMMEDIATE)
                  empty_backend in
  Dump.yielded failed = []
  /\ Dump.yielded stored = [ VDict [ ("status", VStr "ok"); ("type", VStr "dataset");
                                     ("action", VStr "meta_extract") ] ].
Proof.
  intros ep failed stored. split.
  - apply (proj2 (extraction_result_is_yielded_only_after_the_write ep
                    (Scenario.extractor IMMEDIATE)
                    (Scenario.failing_at flush_object_references_call) failed
                    eq_refl (or_introl eq_refl)) failure).
    vm_compute. reflexivity.
  - apply (proj1 (extraction_result_is_yielded_only_after_the_write ep
                    (Scenario.extractor IMMEDIATE) empty_backend stored
                    eq_refl (or_introl eq_refl))).
    vm_compute. reflexivity.
Defined.

(** *** File output *)

Lemma keeps_backend_call (I : Backend -> Prop) (c : BackendCall) :
  keeps I (backend_call c).
Proof.
  intros s Hs. destruct (fails s c) eqn:E.
  - by rewrite (backend_call_fail _ _ E).
  - by rewrite (backend_call_ok _ _ E).
Qed.

Lemma keeps_guarded (I : Backend -> Prop) (c : BackendCall) (f : Backend -> Backend) :
  (forall s, I s -> I (f s)) -> keeps I (bind (backend_call c) (fun _ => modify f)).
Proof.
  intros H s Hs. rewrite guarded_last. destruct (fails s c); cbn [final]; auto.
Qed.

Lemma keeps_lock_backend (I : Backend -> Prop) :
  (forall s, I s -> I (set_locked true s)) -> keeps I lock_backend.
Proof.
  intros H s Hs. unfold lock_backend. rewrite bind_call.
  destruct (fails s lock_backend_call); [exact Hs|]. cbn [prepend final].
  rewrite bind_get. destruct (locked s); cbn [final raise put]; auto.
Qed.

Lemma keeps_time (I : Backend -> Prop) : (forall s, I s -> I (tick s)) -> keeps I time.
Proof.
  intros H s Hs. unfold time. rewrite bind_get, bind_put. cbn [final ret]. auto.
Qed.

Lemma keeps_get_top_nodes (I : Backend -> Prop) dataset_id version path :
  (forall s, I s -> I (tick s)) ->
  keeps I (get_top_nodes_and_metadata_root_record dataset_id version path).
Proof.
  intros H. apply keeps_bind; [apply keeps_backend_call | intros _].
  apply keeps_bind; [by intros s Hs | intros b0].
  apply keeps_bind; [by apply keeps_time | intros now; apply keeps_ret].
Qed.

Lemma keeps_add_metadata_source (I : Backend -> Prop) m ep result src :
  (forall s, I s -> I (tick s)) -> keeps I (add_metadata_source m ep result src).
Proof.
  intros H. apply keeps_bind; [by apply keeps_time | intros now].
  apply keeps_bind; [apply keeps_backend_call | intros _; apply keeps_ret].
Qed.

Lemma keeps_commit (I : Backend -> Prop) l u :
  (forall s, I s -> I (set_stored_tree_version_list l s)) ->
  (forall s, I s -> I (set_stored_uuid_set u s)) ->
  (forall s, I s -> I (set_flushed s)) ->
  (forall s, I s -> I (set_locked false s)) ->
  keeps I
    (bind (save_tree_version_list l)
       (fun _ => bind (save_uuid_set u)
                   (fun _ => bind flush_object_references (fun _ => unlock_backend)))).
Proof.
  intros H1 H2 H3 H4.
  apply keeps_bind; [by apply keeps_guarded | intros _].
  apply keeps_bind; [by apply keeps_guarded | intros _].
  apply keeps_bind; [by apply keeps_guarded | intros _]. by apply keeps_guarded.
Qed.

Lemma writes_keep_git_objects (g : list string) ep result src :
  keeps (fun s => git_objects s = g) (add_dataset_metadata_source ep result src)
  /\ keeps (fun s => git_objects s = g) (add_file_metadata_source ep result src).
Proof.
  split.
  - unfold add_dataset_metadata_source.
    apply keeps_bind; [by apply keeps_lock_backend | intros _].
    apply keeps_bind; [by apply keeps_get_top_nodes | intros [[l u] mrr]].
    apply keeps_bind; [by apply keeps_add_metadata_source | intros m].
    by apply keeps_commit.
  - unfold add_file_metadata_source.
    apply keeps_bind; [by apply keeps_lock_backend | intros _].
    apply keeps_bind; [by apply keeps_get_top_nodes | intros [[l u] mrr]].
    apply keeps_bind.
    { destruct (get_node_at_path _ _); [apply keeps_attr | apply keeps_ret]. }
    intros m0.
    apply keeps_bind; [by apply keeps_add_metadata_source | intros m].
    by apply keeps_commit.
Qed.

Lemma writes_start_with_the_lock ep result src b :
  locked b = false ->
  (exists evs, events (add_dataset_metadata_source ep result src b)
               = Call lock_backend_call :: evs)
  /\ (exists evs, events (add_file_metadata_source ep result src b)
                  = Call lock_backend_call :: evs).
Proof.
  intros Hl. split.
  - rewrite (add_dataset_metadata_source_eq _ _ _ _ Hl).
    destruct (fails b lock_backend_call); cbn [prepend events app]; eauto.
  - rewrite (add_file_metadata_source_eq _ _ _ _ Hl).
    destruct (fails b lock_backend_call); cbn [prepend events app]; eauto.
Qed.

Lemma bind_events_prefix {St A B} (c : M St A) (k : A -> M St B) (s : St) :
  exists evs, events (bind c k s) = (events (c s) ++ evs)%list.
Proof.
  unfold bind. destruct (outcome (c s)); cbn [events]; [eauto|].
  exists []. by rewrite app_nil_r.
Qed.

(** The file-based branch of the two [perform] functions, around a write
    [write] that is handed the name of the git object. *)
Lemma file_output_run (write : string -> M Backend unit) (content : string)
    (result : ExtractorResult) (msg : string) (b : Backend) :
  (forall h s, locked s = false ->
     exists evs, events (write h s) = Call lock_backend_call :: evs) ->
  (forall h g, keeps (fun s => git_objects s = g) (write h)) ->
  locked b = false ->
  let r := bind (bind (bind (copy_file_to_git content) write)
                   (fun _ => yield_result result))
             (fun _ => emit (Info msg)) b in
  (fails b hash_object_call = true ->
   r = mkResult [Call hash_object_call] b (Raised failure))
  /\ (fails b hash_object_call = false ->
      (exists evs, events r = Call hash_object_call :: Call lock_backend_call :: evs)
      /\ git_objects (final r) = content :: git_objects b).
Proof.
  intros Hlock Hkeeps Hl r. subst r. rewrite !bind_assoc. unfold copy_file_to_git.
  rewrite bind_assoc, bind_call. split; intros Hf; rewrite Hf; [reflexivity|].
  rewrite bind_assoc, bind_modify, (bind_ret_l (St:=Backend)).
  cbn [prepend events final app]. split.
  - destruct (bind_events_prefix (write content)
                (fun a => bind (yield_result result) (fun _ => emit (Info msg)))
                (add_git_object content b)) as [evs ->].
    destruct (Hlock content (add_git_object content b) Hl) as [evs' ->].
    cbn [app]. eauto.
  - change (content :: git_objects b) with (git_objects (add_git_object content b)).
    generalize (add_git_object content b). intros s.
    apply (keeps_bind (fun s' => git_objects s' = git_objects s)); [apply Hkeeps| |done].
    intros _. apply keeps_bind; [apply keeps_emit | intros _; apply keeps_emit].
Qed.

(** X11.  An extractor of the category [FILE] whose extraction succeeded
    has its output written into git before the lock is taken: if
    [git hash-object] fails, nothing else is called and the store is as it
    was; otherwise the first two calls are [hash-object] and
    [lock_backend], and the git object is there afterwards whether or not
    the write that follows succeeds. *)
Theorem file_output_is_written_to_git_before_the_lock
    (ep : ExtractionParameter) (extractor : Extractor) (b : Backend)
    (r : Result Backend unit) :
  get_data_output_category extractor = FILE ->
  extraction_success (extract extractor) = true ->
  locked b = false ->
  r = perform_dataset_metadata_extraction ep extractor b
  \/ r = perform_file_metadata_extraction ep extractor b ->
  (fails b hash_object_call = true ->
   r = mkResult [Call hash_object_call] b (Raised failure))
  /\ (fails b hash_object_call = false ->
      (exists evs, events r = Call hash_object_call :: Call lock_backend_call :: evs)
      /\ git_objects (final r) = file_output extractor :: git_objects b).
Proof.
  intros Hc Hs Hl Hr.
  unfold perform_dataset_metadata_extraction, perform_file_metadata_extraction in Hr.
  rewrite Hc, Hs in Hr. cbn [when] in Hr. unfold add_dataset_metadata, add_file_metadata in Hr.
  destruct Hr as [->| ->]; apply file_output_run; try done.
  - intros h s Hls. by apply writes_start_with_the_lock.
  - intros h g. apply writes_keep_git_objects.
  - intros h s Hls. by apply writes_start_with_the_lock.
  - intros h g. apply writes_keep_git_objects.
Qed.

Lemma file_output_is_written_to_git_before_the_lock_witness :
  let ep := Scenario.parameters UnknownExtractorClass in
  let r := perform_dataset_metadata_extraction ep (Scenario.extractor FILE)
             (Scenario.failing_at save_tree_version_list_call) in
  (exists evs, events r = Call hash_object_call :: Call lock_backend_call :: evs)
  /\ git_objects (final r) = ["content"]
  /\ outcome r = Raised failure.
Proof.
  intros ep r.
  destruct (proj2 (file_output_is_written_to_git_before_the_lock ep
                     (Scenario.extractor FILE)
                     (Scenario.failing_at save_tree_version_list_call) r
                     eq_refl eq_refl eq_refl (or_introl eq_refl)) eq_refl) as [H1 H2].
  split; [exact H1|]. split; [exact H2|]. vm_compute. reflexivity.
Defined.

(** *** Extractors of the wrong kind *)

(** X12.  The kind of the extractor class must fit the request: a class
    of file extractors used without a path (no path, the empty path or
    ["--"]), and a class of dataset extractors used with a path, end the
    command with [AssertionError] after its first log message; nothing is
    yielded, no backend call is made and the store is as it was. *)
Theorem extractor_of_the_wrong_kind_fails_the_assertion
    (ep : ExtractionParameter) (extractor : Extractor) (b : Backend) :
  (extractor_class ep = FileMetadataExtractorClass extractor ->
   forall path, path = None \/ path = Some "" \/ path = Some "--" ->
     let r := meta_extract path ep b in
     outcome r = Raised AssertionError /\ final r = b
     /\ Dump.yielded r = [] /\ calls (events r) = [])
  /\ (extractor_class ep = DatasetMetadataExtractorClass extractor ->
      forall p, p <> "" -> p <> "--" ->
        let r := meta_extract (Some p) ep b in
        outcome r = Raised AssertionError /\ final r = b
        /\ Dump.yielded r = [] /\ calls (events r) = []).
Proof.
  split.
  - intros Hc path Hp r. subst r.
    assert (H : meta_extract path ep b = do_dataset_extraction ep b).
    { by destruct Hp as [->|[->| ->]]. }
    rewrite H. unfold do_dataset_extraction. by rewrite Hc.
  - intros Hc p Hne1 Hne2 r. subst r. unfold meta_extract.
    apply String.eqb_neq in Hne1, Hne2. rewrite Hne1, Hne2. cbn [negb andb].
    unfold do_file_extraction. by rewrite Hc.
Qed.

Lemma extractor_of_the_wrong_kind_fails_the_assertion_witness :
  let r := meta_extract (Some "file.txt")
             (Scenario.parameters
                (DatasetMetadataExtractorClass (Scenario.extractor IMMEDIATE)))
             empty_backend in
  outcome r = Raised AssertionError /\ final r = empty_backend
  /\ Dump.yielded r = [] /\ calls (events r) = [].
Proof.
  apply (proj2 (extractor_of_the_wrong_kind_fails_the_assertion
                  (Scenario.parameters
                     (DatasetMetadataExtractorClass (Scenario.extractor IMMEDIATE)))
                  (Scenario.extractor IMMEDIATE) empty_backend) eq_refl "file.txt");
    discriminate.
Defined.

End ExtractMoreFacts.
